(** * NeuroCloak: alert rule engine, notification dispatcher and trust-score
    engine

    A shallow embedding of [apps/alerts/tasks.py] and [evaluations/tasks.py],
    with [Alert.is_active] and [Alert.suppress] of [apps/alerts/models.py]
    and the validation that the documents the tasks save declare there and
    in [apps/evaluations/models.py].

    Conventions of the embedding:
    - Python floats are idealised as exact rationals ([Q]); the one place that
      needs a logarithm (the population stability index) sums in [R].  The
      boundary case of the trend classification is additionally evaluated in
      IEEE binary64.
    - [datetime] values are seconds on an integer time line ([Z]);
      [timedelta(minutes=m)] is [60 * m].  One invocation of a task reads the
      clock once: every [datetime.utcnow()] of the invocation is [now].
    - A MongoDB collection is the list of its documents in the order of its
      default ordering ([-created_at], [-timestamp]): newest first.  Saving a
      new document puts it at the head; [.first()] is the first match.
    - Dynamically typed values (metric values, thresholds) are a tagged
      variant [PyVal] with Python's comparison semantics, [None] standing for
      a raised [TypeError]; numbers cover [int], [float] and [bool] (0 and
      1), which Python compares by value.
    - An exception is a value: a call ends as [Returned] or [Raised e].  A
      handler that only logs ends the task in the state the exception left;
      a handler that ends by [self.retry(countdown)] ends it as [Retry].
    - A document a task builds is validated when it is saved, against the
      declarations of its class in the [models.py] files ([required],
      [choices], [min_value], [max_value], and [unique_with], which makes
      the fields it names required).  A document read from a collection
      passed that validation when it was stored, and saving it again after
      the changes the tasks make succeeds.
    - Calling [get] on an embedded document ([AlertRule], [AlertChannel]) and
      calling a Django [Manager] raise; the text after such a call is
      embedded all the same, as the continuation of the call. *)

From Stdlib Require Import ZArith QArith Qabs Qround Qminmax Qreals List Bool Ascii Lia Lqa.
From Stdlib Require Import Reals Lra.
From Stdlib Require Import PrimFloat.
From stdpp Require Import gmap strings.
Import ListNotations.

Set Warnings "-register-all".

(** ** Python values and their comparisons *)

Module Py.

Inductive PyVal : Type :=
| PyNone
| PyNum (q : Q)
| PyStr (s : string)
| PyList (items : list PyVal)
| PyTuple (items : list PyVal).

Inductive RichOp : Type := OpLt | OpLe | OpGt | OpGe.

Definition holds (op : RichOp) (c : comparison) : bool :=
  match op, c with
  | OpLt, Lt | OpLe, Lt | OpLe, Eq
  | OpGt, Gt | OpGe, Gt | OpGe, Eq => true
  | _, _ => false
  end.

(** [a == b]: never raises; values of different kinds are unequal, numbers
    compare by value, sequences element-wise. *)
Fixpoint py_eq (a b : PyVal) : bool :=
  let fix seq_eq (l m : list PyVal) : bool :=
    match l, m with
    | [], [] => true
    | x :: l', y :: m' => py_eq x y && seq_eq l' m'
    | _, _ => false
    end in
  match a, b with
  | PyNone, PyNone => true
  | PyNum x, PyNum y => Qeq_bool x y
  | PyStr s, PyStr t => String.eqb s t
  | PyList l, PyList m => seq_eq l m
  | PyTuple l, PyTuple m => seq_eq l m
  | _, _ => false
  end.

(** [a < b], [a <= b], [a > b], [a >= b]: [None] is the [TypeError] Python
    raises for operands that are not ordered against each other.
    Sequences compare lexicographically: the first pair of unequal items
    decides, otherwise the lengths do. *)
Fixpoint py_richcmp (op : RichOp) (a b : PyVal) : option bool :=
  let fix seq_cmp (l m : list PyVal) : option bool :=
    match l, m with
    | x :: l', y :: m' =>
        if py_eq x y then seq_cmp l' m' else py_richcmp op x y
    | _, _ => Some (holds op (Nat.compare (length l) (length m)))
    end in
  match a, b with
  | PyNum x, PyNum y => Some (holds op (Qcompare x y))
  | PyStr s, PyStr t => Some (holds op (String.compare s t))
  | PyList l, PyList m => seq_cmp l m
  | PyTuple l, PyTuple m => seq_cmp l m
  | _, _ => None
  end.

(** [value in seq] for a list or a tuple. *)
Definition py_in (value : PyVal) (items : list PyVal) : bool :=
  existsb (py_eq value) items.

(** [isinstance(threshold, (list, tuple))], with the items when it holds. *)
Definition as_sequence (threshold : PyVal) : option (list PyVal) :=
  match threshold with
  | PyList items | PyTuple items => Some items
  | _ => None
  end.

(** [try: ... except Exception: return d]. *)
Definition except_return {A} (d : A) (r : option A) : A :=
  match r with Some v => v | None => d end.

End Py.

Export Py.

(** ** Documents of the data model

    Each record keeps the fields of the MongoEngine document that the
    properties below depend on, under the names of the source; the free-form
    fields ([context], [details], [tags], ...) and the second identifier
    [alert_id] are left out. *)

Definition minutes (m : Z) : Z := 60 * m.
Definition hours (h : Z) : Z := 3600 * h.

Module Alert.
Record t : Type := mk {
  id : nat;                      (* primary key, a fresh uuid *)
  project_id : string;
  model_id : option string;
  title : string;
  description : string;
  alert_type : string;
  severity : string;
  status : string;               (* default 'active' *)
  metric_value : PyVal;
  threshold : PyVal;
  rule_name : option string;
  created_at : Z;
  updated_at : Z;
  is_suppressed : bool;
  source : string
}.

Definition with_measure (value thr : PyVal) (now : Z) (a : t) : t :=
  mk (id a) (project_id a) (model_id a) (title a) (description a)
     (alert_type a) (severity a) (status a) value thr (rule_name a)
     (created_at a) now (is_suppressed a) (source a).

Definition with_escalation (sev ttl descr : string) (a : t) : t :=
  mk (id a) (project_id a) (model_id a) ttl descr
     (alert_type a) sev (status a) (metric_value a) (threshold a)
     (rule_name a) (created_at a) (updated_at a) (is_suppressed a)
     (source a).

Definition alert_type_choices : list string :=
  ["trust_score"; "fairness"; "drift"; "robustness"; "explainability";
   "data_quality"; "model_performance"; "system_health"; "custom"].

Definition severity_choices : list string :=
  ["low"; "medium"; "high"; "critical"].

Definition status_choices : list string :=
  ["active"; "acknowledged"; "resolved"; "suppressed"].

(** What a [FloatField] that is not required accepts: a number, or
    nothing. *)
Definition float_field (v : PyVal) : bool :=
  match v with
  | PyNone | PyNum _ => true
  | _ => false
  end.

(** [alert.validate()], which [save()] runs, on the fields of the record.
    [model_id] is declared [required=False], but [alert_id] is declared
    [unique_with=['project_id', 'model_id']], which makes both fields
    required: an alert without a model is refused.  [metric_value] and
    [threshold] are [FloatField]s. *)
Definition validates (a : t) : bool :=
  match model_id a with
  | Some _ => true
  | None => false
  end
  && existsb (String.eqb (alert_type a)) alert_type_choices
  && existsb (String.eqb (severity a)) severity_choices
  && existsb (String.eqb (status a)) status_choices
  && float_field (metric_value a)
  && float_field (threshold a).
End Alert.

(** One entry of [AlertRuleConfig.rules], an [AlertRule] embedded document;
    a field that is not set is [None] ([PyNone] for the threshold). *)
Module RuleCondition.
Record t : Type := mk {
  metric_name : option string;
  operator : option string;
  threshold : PyVal;
  severity : option string
}.
End RuleCondition.

(** A notification channel: an [AlertChannel] embedded document in
    [AlertRuleConfig.channels], or the dictionary of the same keys that the
    tasks hand on to [send_alert_notification]. *)
Module Channel.
Record t : Type := mk {
  channel_type : string;
  config : gmap string string;
  enabled : bool
}.
End Channel.

Module AlertRuleConfig.
Record t : Type := mk {
  id : string;
  project_id : string;
  model_id : option string;
  name : string;
  alert_type : string;
  rules : list RuleCondition.t;
  channels : list Channel.t;
  is_active : bool;
  cooldown_minutes : Z;
  last_triggered : option Z
}.

Definition with_last_triggered (now : Z) (r : t) : t :=
  mk (id r) (project_id r) (model_id r) (name r) (alert_type r) (rules r)
     (channels r) (is_active r) (cooldown_minutes r) (Some now).
End AlertRuleConfig.

Module AlertNotification.
Record t : Type := mk {
  alert_id : nat;
  channel_type : string;
  recipient : string;
  status : string;               (* default 'pending' *)
  sent_at : option Z;
  error_message : option string;
  retry_count : Z;               (* default 0 *)
  max_retries : Z                (* default 3 *)
}.

Definition set_status (s : string) (n : t) : t :=
  mk (alert_id n) (channel_type n) (recipient n) s (sent_at n)
     (error_message n) (retry_count n) (max_retries n).

Definition set_sent_at (time : Z) (n : t) : t :=
  mk (alert_id n) (channel_type n) (recipient n) (status n) (Some time)
     (error_message n) (retry_count n) (max_retries n).

Definition set_error_message (message : string) (n : t) : t :=
  mk (alert_id n) (channel_type n) (recipient n) (status n) (sent_at n)
     (Some message) (retry_count n) (max_retries n).

Definition set_retry_count (count : Z) (n : t) : t :=
  mk (alert_id n) (channel_type n) (recipient n) (status n) (sent_at n)
     (error_message n) count (max_retries n).

Definition channel_type_choices : list string :=
  ["email"; "webhook"; "slack"; "teams"; "in_app"].

Definition status_choices : list string :=
  ["pending"; "sent"; "failed"; "retry"].

(** [notification.validate()], which [save()] runs. *)
Definition validates (n : t) : bool :=
  existsb (String.eqb (channel_type n)) channel_type_choices
  && existsb (String.eqb (status n)) status_choices.
End AlertNotification.

Module TrustScore.
Record t : Type := mk {
  id : nat;
  project_id : string;
  model_id : option string;
  fairness_score : Q;
  robustness_score : Q;
  stability_score : Q;
  explainability_score : Q;
  score : Q;
  weights : gmap string Q;
  trend_direction : string;
  trend_percentage : Q;
  threshold : Q;
  alert_triggered : bool;
  timestamp : Z
}.

Definition in_unit_interval (x : Q) : bool := Qle_bool 0 x && Qle_bool x 1.

(** [trust_score.validate()], which [save()] runs: the five scores are
    declared with [min_value=0, max_value=1], [weights] is a required
    dictionary, which must not be empty, and [trend_direction] has
    choices. *)
Definition validates (s : t) : bool :=
  in_unit_interval (fairness_score s)
  && in_unit_interval (robustness_score s)
  && in_unit_interval (stability_score s)
  && in_unit_interval (explainability_score s)
  && in_unit_interval (score s)
  && negb (Nat.eqb (size (weights s)) 0)
  && existsb (String.eqb (trend_direction s))
       ["improving"; "declining"; "stable"].
End TrustScore.

(** The four evaluation documents share the fields the tasks read. *)
Module Evaluation.
Record t : Type := mk {
  project_id : string;
  model_id : option string;
  evaluation_id : string;
  status : string;
  overall_score : Q
}.
End Evaluation.

Module IngestionMetrics.
Record t : Type := mk {
  project_id : string;
  model_id : option string;
  total_predictions : Z;
  anomaly_count : Z;
  error_rate : Q;
  avg_processing_time_ms : Q
}.
End IngestionMetrics.

Module ProjectConfiguration.
Record t : Type := mk {
  trust_score_weights : gmap string Q;
  trust_score_threshold : Q
}.
End ProjectConfiguration.

(** Work handed to the task queue: [task.delay(args)] and
    [task.apply_async(args, countdown)]. *)
Inductive Task : Type :=
| ProcessAlertNotifications (alert_id : nat)
| SendAlertNotification (alert_id : nat) (channel : Channel.t) (countdown : Z)
| TriggerTrustScoreAlert (trust_score_id : nat).

(** How a bound task ends: normally, or by [raise self.retry(countdown)]. *)
Inductive Outcome : Type :=
| Done
| Retry (countdown : Z).

(** The exceptions the tasks meet. *)
Inductive Exception : Type :=
| AttributeError
| TypeError
| ValidationError.

(** How a call ends: it returns, or an exception leaves it. *)
Inductive Ending : Type :=
| Returned
| Raised (e : Exception).

(** [document.get(key)] on an embedded document ([AlertRule],
    [AlertChannel]): the class defines no attribute [get], so the lookup
    raises AttributeError whatever the field holds.  [field] is the value a
    dictionary would have answered. *)
Definition embedded_get {A} (field : A) : A + Exception :=
  inr AttributeError.

(** [Model.objects(...)] on a Django model: [objects] is a Manager, which is
    not callable, so the call raises TypeError.  [answer] is what a
    MongoEngine query set would have answered. *)
Definition manager_call {A} (answer : A) : A + Exception :=
  inr TypeError.

(** The collections the tasks write, the task queue, and the uuid supply. *)
Module Db.
Record t : Type := mk {
  alerts : list Alert.t;
  alert_notifications : list AlertNotification.t;
  trust_scores : list TrustScore.t;
  queue : list Task;
  next_uuid : nat
}.

Definition with_alerts (l : list Alert.t) (d : t) : t :=
  mk l (alert_notifications d) (trust_scores d) (queue d) (next_uuid d).

(** Saving a new alert under a fresh primary key. *)
Definition insert_alert (a : Alert.t) (d : t) : t :=
  mk (a :: alerts d) (alert_notifications d) (trust_scores d) (queue d)
     (S (next_uuid d)).

Definition insert_notification (n : AlertNotification.t) (d : t) : t :=
  mk (alerts d) (n :: alert_notifications d) (trust_scores d) (queue d)
     (next_uuid d).

Definition insert_trust_score (s : TrustScore.t) (d : t) : t :=
  mk (alerts d) (alert_notifications d) (s :: trust_scores d) (queue d)
     (S (next_uuid d)).

Definition enqueue (ts : list Task) (d : t) : t :=
  mk (alerts d) (alert_notifications d) (trust_scores d) (queue d ++ ts)
     (next_uuid d).

Definition with_queue (q : list Task) (d : t) : t :=
  mk (alerts d) (alert_notifications d) (trust_scores d) q (next_uuid d).
End Db.

(** The collections the tasks only read. *)
Module Sources.
Record t : Type := mk {
  fairness_evaluations : list Evaluation.t;
  drift_evaluations : list Evaluation.t;
  robustness_evaluations : list Evaluation.t;
  explainability_evaluations : list Evaluation.t;
  ingestion_metrics : list IngestionMetrics.t;
  (* the active ProjectConfiguration of a project, a row of the relational
     database *)
  active_configuration : string -> option ProjectConfiguration.t
}.
End Sources.

(** Python built-ins used to render text, and the outcome of the external
    transports (SMTP, HTTP), which the model does not interpret. *)
Module Runtime.
Record t : Type := mk {
  str : PyVal -> string;                 (* format(value) in an f-string *)
  str_title : string -> string;          (* str.title() *)
  format_3f : Q -> string;               (* f"{x:.3f}" *)
  send_mail : string -> Alert.t -> bool; (* false when it raises *)
  http_post : string -> Alert.t -> bool  (* false when it raises *)
}.
End Runtime.

Definition option_eqb {A} (eqb : A -> A -> bool) (x y : option A) : bool :=
  match x, y with
  | Some a, Some b => eqb a b
  | None, None => true
  | _, _ => false
  end.

(** Truthiness of an optional string: [None] and the empty string are false. *)
Definition truthy (s : option string) : bool :=
  match s with
  | Some (String _ _) => true
  | _ => false
  end.

Definition same_model (a b : option string) : bool := option_eqb String.eqb a b.

(** [x < y] on the idealised floats. *)
Definition Qltb (x y : Q) : bool := negb (Qle_bool y x).

(** [Collection.objects(project_id=p, model_id=m, status='completed')
    .order_by('-timestamp').first()]. *)
Definition latest_completed (l : list Evaluation.t) (p : string)
    (m : option string) : option Evaluation.t :=
  find (fun e => String.eqb (Evaluation.project_id e) p
                 && same_model (Evaluation.model_id e) m
                 && String.eqb (Evaluation.status e) "completed") l.

(** ** apps/alerts/tasks.py *)

Module AlertsTasks.

(** [evaluate_condition(value, operator, threshold)]. *)
Definition evaluate_condition (value : PyVal) (operator : string)
    (threshold : PyVal) : bool :=
  except_return false
    (if String.eqb operator ">" then py_richcmp OpGt value threshold
     else if String.eqb operator "<" then py_richcmp OpLt value threshold
     else if String.eqb operator ">=" then py_richcmp OpGe value threshold
     else if String.eqb operator "<=" then py_richcmp OpLe value threshold
     else if String.eqb operator "==" then Some (py_eq value threshold)
     else if String.eqb operator "!=" then Some (negb (py_eq value threshold))
     else if String.eqb operator "in" then
       Some (match as_sequence threshold with
             | Some items => py_in value items
             | None => false
             end)
     else if String.eqb operator "not_in" then
       Some (match as_sequence threshold with
             | Some items => negb (py_in value items)
             | None => true
             end)
     else Some false).

Section Engine.
Variable rt : Runtime.t.
Variable src : Sources.t.

Definition score_metric (key : string) (e : option Evaluation.t)
    : gmap string PyVal :=
  match e with
  | Some ev => <[key := PyNum (Evaluation.overall_score ev)]> ∅
  | None => ∅
  end.

(** [get_metrics_for_alert_type(alert_type, project_id, model_id)]. *)
Definition get_metrics_for_alert_type (db : Db.t) (alert_type : string)
    (project_id : string) (model_id : option string) : gmap string PyVal :=
  if String.eqb alert_type "trust_score" then
    match find (fun s => String.eqb (TrustScore.project_id s) project_id
                         && same_model (TrustScore.model_id s) model_id)
               (Db.trust_scores db) with
    | Some s =>
        <["trust_score" := PyNum (TrustScore.score s)]>
        (<["fairness_score" := PyNum (TrustScore.fairness_score s)]>
        (<["robustness_score" := PyNum (TrustScore.robustness_score s)]>
        (<["stability_score" := PyNum (TrustScore.stability_score s)]>
        (<["explainability_score" :=
             PyNum (TrustScore.explainability_score s)]> ∅))))
    | None => ∅
    end
  else if String.eqb alert_type "fairness" then
    score_metric "fairness_score"
      (latest_completed (Sources.fairness_evaluations src) project_id model_id)
  else if String.eqb alert_type "drift" then
    score_metric "drift_score"
      (latest_completed (Sources.drift_evaluations src) project_id model_id)
  else if String.eqb alert_type "robustness" then
    score_metric "robustness_score"
      (latest_completed (Sources.robustness_evaluations src) project_id model_id)
  else if String.eqb alert_type "explainability" then
    score_metric "explainability_score"
      (latest_completed (Sources.explainability_evaluations src)
         project_id model_id)
  else if String.eqb alert_type "data_quality" then
    match find (fun i => String.eqb (IngestionMetrics.project_id i) project_id
                         && same_model (IngestionMetrics.model_id i) model_id)
               (Sources.ingestion_metrics src) with
    | Some i =>
        <["anomaly_rate" :=
            PyNum (if Z.ltb 0 (IngestionMetrics.total_predictions i)
                   then inject_Z (IngestionMetrics.anomaly_count i)
                        / inject_Z (IngestionMetrics.total_predictions i)
                   else 0)%Q]>
        (<["error_rate" := PyNum (IngestionMetrics.error_rate i)]>
        (<["avg_processing_time_ms" :=
             PyNum (IngestionMetrics.avg_processing_time_ms i)]> ∅))
    | None => ∅
    end
  else ∅.

(** The cooldown test at the head of [process_single_alert_rule]. *)
Definition in_cooldown (now : Z) (rule : AlertRuleConfig.t) : bool :=
  match AlertRuleConfig.last_triggered rule with
  | Some last =>
      Z.ltb now (last + minutes (AlertRuleConfig.cooldown_minutes rule))
  | None => false
  end.

(** The filter of [Alert.objects(project_id=.., model_id=..,
    alert_type=.., status='active', rule_name=..)]. *)
Definition matches_rule (rule : AlertRuleConfig.t) (a : Alert.t) : bool :=
  String.eqb (Alert.project_id a) (AlertRuleConfig.project_id rule)
  && same_model (Alert.model_id a) (AlertRuleConfig.model_id rule)
  && String.eqb (Alert.alert_type a) (AlertRuleConfig.alert_type rule)
  && String.eqb (Alert.status a) "active"
  && option_eqb String.eqb (Alert.rule_name a)
       (Some (AlertRuleConfig.name rule)).

(** [document.save()] of a document read from the collection: written back
    under its primary key. *)
Definition save_alert (a : Alert.t) (l : list Alert.t) : list Alert.t :=
  map (fun x => if Nat.eqb (Alert.id x) (Alert.id a) then a else x) l.

Definition new_rule_alert (now : Z) (rule : AlertRuleConfig.t)
    (uuid : nat) (metric_name operator severity : string)
    (metric_value threshold : PyVal) : Alert.t :=
  {| Alert.id := uuid;
     Alert.project_id := AlertRuleConfig.project_id rule;
     Alert.model_id := AlertRuleConfig.model_id rule;
     Alert.title :=
       Runtime.str_title rt (AlertRuleConfig.alert_type rule)
       +:+ " Alert: " +:+ AlertRuleConfig.name rule;
     Alert.description :=
       metric_name +:+ " is " +:+ Runtime.str rt metric_value +:+ " "
       +:+ operator +:+ " " +:+ Runtime.str rt threshold;
     Alert.alert_type := AlertRuleConfig.alert_type rule;
     Alert.severity := severity;
     Alert.status := "active";
     Alert.metric_value := metric_value;
     Alert.threshold := threshold;
     Alert.rule_name := Some (AlertRuleConfig.name rule);
     Alert.created_at := now;
     Alert.updated_at := now;
     Alert.is_suppressed := false;
     Alert.source := "alert_rule" |}.

(** The statements of one iteration of [for rule_condition in rule.rules]
    below its four reads; the state is the database and [alerts_triggered]
    (the ids of the alerts appended).  A new alert is validated when it is
    saved; saving the stored alert again validates the two fields that were
    written. *)
Definition evaluate_rule_condition (now : Z) (rule : AlertRuleConfig.t)
    (metrics : gmap string PyVal) (st : Db.t * list nat)
    (metric_name operator : option string) (threshold : PyVal)
    (severity : string) : (Db.t * list nat) + Exception :=
  let '(db, alerts_triggered) := st in
  match metric_name, operator with
  | Some metric_name, Some operator =>
      if negb (truthy (Some metric_name) && truthy (Some operator)
               && negb (py_eq threshold PyNone))
      then inl st
      else
        match metrics !! metric_name with
        | None | Some PyNone => inl st
        | Some metric_value =>
            if evaluate_condition metric_value operator threshold then
              match find (matches_rule rule) (Db.alerts db) with
              | Some existing_alert =>
                  if Alert.float_field metric_value
                     && Alert.float_field threshold
                  then
                    inl (Db.with_alerts
                           (save_alert
                              (Alert.with_measure metric_value threshold now
                                 existing_alert)
                              (Db.alerts db)) db,
                         alerts_triggered)
                  else inr ValidationError
              | None =>
                  let alert :=
                    new_rule_alert now rule (Db.next_uuid db) metric_name
                      operator severity metric_value threshold in
                  if Alert.validates alert then
                    inl (Db.insert_alert alert db,
                         alerts_triggered ++ [Alert.id alert])
                  else inr ValidationError
              end
            else inl st
        end
  | _, _ => inl st
  end.

(** One iteration of [for rule_condition in rule.rules].  The iteration
    starts with [rule_condition.get('metric_name')]: [rule_condition] is an
    [AlertRule] document, so this first read raises. *)
Definition process_rule_condition (now : Z) (rule : AlertRuleConfig.t)
    (metrics : gmap string PyVal) (st : Db.t * list nat)
    (rule_condition : RuleCondition.t) : (Db.t * list nat) + Exception :=
  match embedded_get (RuleCondition.metric_name rule_condition) with
  | inr e => inr e
  | inl metric_name =>
  match embedded_get (RuleCondition.operator rule_condition) with
  | inr e => inr e
  | inl operator =>
  match embedded_get (RuleCondition.threshold rule_condition) with
  | inr e => inr e
  | inl threshold =>
  match embedded_get
          (match RuleCondition.severity rule_condition with
           | Some s => s
           | None => "medium"
           end) with
  | inr e => inr e
  | inl severity =>
      evaluate_rule_condition now rule metrics st metric_name operator
        threshold severity
  end end end end.

(** The loop over [rule.rules]: the state it has reached, and how it ended. *)
Fixpoint process_rule_conditions (now : Z) (rule : AlertRuleConfig.t)
    (metrics : gmap string PyVal) (conditions : list RuleCondition.t)
    (st : Db.t * list nat) : (Db.t * list nat) * Ending :=
  match conditions with
  | [] => (st, Returned)
  | rule_condition :: rest =>
      match process_rule_condition now rule metrics st rule_condition with
      | inl st' => process_rule_conditions now rule metrics rest st'
      | inr e => (st, Raised e)
      end
  end.

(** [process_single_alert_rule(rule)]: the rule as saved and the database
    when the call ends, and how it ends. *)
Definition call_process_single_alert_rule (now : Z)
    (rule : AlertRuleConfig.t) (db : Db.t)
    : (AlertRuleConfig.t * Db.t) * Ending :=
  if in_cooldown now rule then ((rule, db), Returned)
  else
    let metrics :=
      get_metrics_for_alert_type db (AlertRuleConfig.alert_type rule)
        (AlertRuleConfig.project_id rule) (AlertRuleConfig.model_id rule) in
    if Nat.eqb (size metrics) 0 then ((rule, db), Returned)
    else
      match process_rule_conditions now rule metrics
              (AlertRuleConfig.rules rule) (db, []) with
      | ((db1, _), Raised e) => ((rule, db1), Raised e)
      | ((db1, alerts_triggered), Returned) =>
          match alerts_triggered with
          | [] => ((rule, db1), Returned)
          | _ :: _ =>
              ((AlertRuleConfig.with_last_triggered now rule,
                Db.enqueue (map ProcessAlertNotifications alerts_triggered)
                  db1),
               Returned)
          end
      end.

(** The rule as saved and the database that a call of
    [process_single_alert_rule(rule)] leaves, however it ends. *)
Definition process_single_alert_rule (now : Z) (rule : AlertRuleConfig.t)
    (db : Db.t) : AlertRuleConfig.t * Db.t :=
  fst (call_process_single_alert_rule now rule db).

(** *** Notification delivery *)

Definition configured (config : gmap string string) (key : string)
    : option string :=
  match config !! key with
  | Some (String c s) => Some (String c s)
  | _ => None
  end.

Definition send_email_notification (alert : Alert.t)
    (config : gmap string string) : bool :=
  match configured config "recipient" with
  | Some recipient => Runtime.send_mail rt recipient alert
  | None => false
  end.

Definition send_webhook_notification (alert : Alert.t)
    (config : gmap string string) : bool :=
  match configured config "url" with
  | Some url => Runtime.http_post rt url alert
  | None => false
  end.

Definition send_slack_notification (alert : Alert.t)
    (config : gmap string string) : bool :=
  match configured config "webhook_url" with
  | Some url => Runtime.http_post rt url alert
  | None => false
  end.

Definition send_teams_notification (alert : Alert.t)
    (config : gmap string string) : bool :=
  match configured config "webhook_url" with
  | Some url => Runtime.http_post rt url alert
  | None => false
  end.

Definition send_in_app_notification (alert : Alert.t)
    (config : gmap string string) : bool := true.

(** The record [AlertNotification(alert_id, channel_type, recipient,
    status='pending')] with the defaults of its other fields. *)
Definition pending_notification (alert_id : nat) (channel : Channel.t)
    : AlertNotification.t :=
  {| AlertNotification.alert_id := alert_id;
     AlertNotification.channel_type := Channel.channel_type channel;
     AlertNotification.recipient :=
       match Channel.config channel !! "recipient" with
       | Some r => r
       | None => EmptyString
       end;
     AlertNotification.status := "pending";
     AlertNotification.sent_at := None;
     AlertNotification.error_message := None;
     AlertNotification.retry_count := 0;
     AlertNotification.max_retries := 3 |}.

(** [send_alert_notification(self, alert_id, channel)]; [channel] is the
    dictionary the task was queued with.  The notification is a new record
    on every call.  Its first save, as 'pending', validates it: a channel
    type outside the choices of [AlertNotification] is refused, nothing is
    stored (the handler's own save is refused as well) and the task ends by
    [self.retry(countdown=60)].  Otherwise its two saves (as 'pending', then
    with the outcome of the delivery) are folded into the one insertion of
    its final state. *)
Definition send_alert_notification (now : Z) (alert_id : nat)
    (channel : Channel.t) (db : Db.t) : Db.t * Outcome :=
  match find (fun a => Nat.eqb (Alert.id a) alert_id) (Db.alerts db) with
  | None => (db, Retry 60)       (* Alert.objects.get raises *)
  | Some alert =>
      let channel_type := Channel.channel_type channel in
      let config := Channel.config channel in
      let notification := pending_notification alert_id channel in
      if negb (AlertNotification.validates notification) then (db, Retry 60)
      else
      let success :=
        if String.eqb channel_type "email" then
          send_email_notification alert config
        else if String.eqb channel_type "webhook" then
          send_webhook_notification alert config
        else if String.eqb channel_type "slack" then
          send_slack_notification alert config
        else if String.eqb channel_type "teams" then
          send_teams_notification alert config
        else if String.eqb channel_type "in_app" then
          send_in_app_notification alert config
        else false in
      if success then
        (Db.insert_notification
           (AlertNotification.set_sent_at now
              (AlertNotification.set_status "sent" notification)) db,
         Done)
      else
        let failed :=
          AlertNotification.set_error_message "Failed to send notification"
            (AlertNotification.set_status "failed" notification) in
        if Z.ltb (AlertNotification.retry_count failed)
                 (AlertNotification.max_retries failed) then
          let retrying :=
            AlertNotification.set_status "retry"
              (AlertNotification.set_retry_count
                 (AlertNotification.retry_count failed + 1)%Z failed) in
          let countdown := (60 * 2 ^ AlertNotification.retry_count retrying)%Z in
          (Db.enqueue [SendAlertNotification alert_id channel countdown]
             (Db.insert_notification retrying db),
           Done)
        else (Db.insert_notification failed db, Done)
  end.

(** The worker taking the scheduled delivery at the head of the queue and
    running it when its countdown has passed. *)
Definition run_scheduled_delivery (st : Z * Db.t) : Z * Db.t :=
  let '(clock, db) := st in
  match Db.queue db with
  | SendAlertNotification alert_id channel countdown :: rest =>
      let now := (clock + countdown)%Z in
      (now, fst (send_alert_notification now alert_id channel
                   (Db.with_queue rest db)))
  | _ => st
  end.

(** *** Escalation *)

(** [should_escalate_alert(alert)]. *)
Definition should_escalate_alert (now : Z) (alert : Alert.t) : bool :=
  if String.eqb (Alert.severity alert) "critical" then
    Z.ltb (Alert.created_at alert + minutes 30) now
  else if String.eqb (Alert.severity alert) "high" then
    Z.ltb (Alert.created_at alert + hours 1) now
  else false.

Definition newline : string := String "010"%char EmptyString.

Definition escalation_note : string :=
  newline +:+ newline
  +:+ "**This alert has been escalated due to prolonged inactivity.**".

(** [escalate_alert(alert)]. *)
Definition escalate_alert (alert : Alert.t) (db : Db.t) : Db.t :=
  if String.eqb (Alert.severity alert) "high" then
    let escalated :=
      Alert.with_escalation "critical"
        ("[ESCALATED] " +:+ Alert.title alert)
        (Alert.description alert +:+ escalation_note) alert in
    Db.enqueue [ProcessAlertNotifications (Alert.id alert)]
      (Db.with_alerts (save_alert escalated (Db.alerts db)) db)
  else db.

(** The query of [check_alert_escalations]. *)
Definition escalation_candidate (now : Z) (a : Alert.t) : bool :=
  String.eqb (Alert.status a) "active"
  && negb (Alert.is_suppressed a)
  && Z.ltb (Alert.created_at a) (now - minutes 30).

(** [check_alert_escalations()]. *)
Definition check_alert_escalations (now : Z) (db : Db.t) : Db.t :=
  fold_left
    (fun d alert =>
       if should_escalate_alert now alert then escalate_alert alert d
       else d)
    (List.filter (escalation_candidate now) (Db.alerts db)) db.

(** *** The trust-score alert *)

(** [trigger_trust_score_alert(trust_score_id)]. *)
Definition trigger_trust_score_alert (now : Z) (trust_score_id : nat)
    (db : Db.t) : Db.t :=
  match find (fun s => Nat.eqb (TrustScore.id s) trust_score_id)
             (Db.trust_scores db) with
  | None => db                   (* TrustScore.objects.get raises *)
  | Some trust_score =>
      if negb (TrustScore.alert_triggered trust_score) then db
      else
        let alert :=
          {| Alert.id := Db.next_uuid db;
             Alert.project_id := TrustScore.project_id trust_score;
             Alert.model_id := TrustScore.model_id trust_score;
             Alert.title := "Low Trust Score Alert";
             Alert.description :=
               "Trust score has dropped to "
               +:+ Runtime.format_3f rt (TrustScore.score trust_score)
               +:+ ", below threshold of "
               +:+ Runtime.format_3f rt (TrustScore.threshold trust_score);
             Alert.alert_type := "trust_score";
             Alert.severity :=
               if Qltb (TrustScore.score trust_score) (1 # 2)
               then "high" else "medium";
             Alert.status := "active";
             Alert.metric_value := PyNum (TrustScore.score trust_score);
             Alert.threshold := PyNum (TrustScore.threshold trust_score);
             Alert.rule_name := None;
             Alert.created_at := now;
             Alert.updated_at := now;
             Alert.is_suppressed := false;
             Alert.source := "trust_score_evaluation" |} in
        if Alert.validates alert then
          Db.enqueue [ProcessAlertNotifications (Alert.id alert)]
            (Db.insert_alert alert db)
        else db                  (* alert.save() raises; the handler logs *)
  end.

(** *** Notification fan-out *)

(** [{'channel_type': 'in_app', 'config': {}, 'enabled': True}]. *)
Definition in_app_channel : Channel.t :=
  {| Channel.channel_type := "in_app";
     Channel.config := ∅;
     Channel.enabled := true |}.

(** The two tracking fields [process_alert_notifications] writes to the
    alert ([notifications_sent] as (channel, status) pairs, and
    [last_notification_at]); the alert record of the model does not carry
    them, so the task returns them beside the database. *)
Record NotificationTracking : Type := {
  notifications_sent : list (string * string);
  last_notification_at : Z
}.

(** [AlertRuleConfig.objects(project_id=.., model_id=.., name=..).first()]. *)
Definition rule_of_alert (rules : list AlertRuleConfig.t) (alert : Alert.t)
    : option AlertRuleConfig.t :=
  if truthy (Alert.rule_name alert) then
    find (fun r => String.eqb (AlertRuleConfig.project_id r)
                     (Alert.project_id alert)
                   && same_model (AlertRuleConfig.model_id r)
                        (Alert.model_id alert)
                   && option_eqb String.eqb (Some (AlertRuleConfig.name r))
                        (Alert.rule_name alert))
         rules
  else None.

(** [any(c.get('channel_type') == 'in_app' for c in channels)] over the
    channels of the rule, which are [AlertChannel] documents: the first one
    is asked first. *)
Fixpoint any_in_app (channels : list Channel.t) : bool + Exception :=
  match channels with
  | [] => inl false
  | c :: rest =>
      match embedded_get (Channel.channel_type c) with
      | inr e => inr e
      | inl channel_type =>
          if String.eqb channel_type "in_app" then inl true
          else any_in_app rest
      end
  end.

(** The channels the task goes through: those of the rule, with the in-app
    dictionary appended when none of them is of that type. *)
Definition channels_of (rule : option AlertRuleConfig.t)
    : list Channel.t + Exception :=
  let channels :=
    match rule with
    | Some r => AlertRuleConfig.channels r
    | None => []
    end in
  match any_in_app channels with
  | inr e => inr e
  | inl true => inl channels
  | inl false => inl (channels ++ [in_app_channel])
  end.

(** [process_alert_notifications(self, alert_id)], over the collection of
    rule configurations.  An exception ends the task by
    [self.retry(countdown=60)].  The channels that come through
    [channels_of] are read with [get] again, for 'enabled' and for the
    tracking; [channels_of] lets through the in-app dictionary only. *)
Definition process_alert_notifications (rules : list AlertRuleConfig.t)
    (now : Z) (alert_id : nat) (db : Db.t)
    : Db.t * option NotificationTracking * Outcome :=
  match find (fun a => Nat.eqb (Alert.id a) alert_id) (Db.alerts db) with
  | None => (db, None, Retry 60)     (* Alert.objects.get raises *)
  | Some alert =>
      match channels_of (rule_of_alert rules alert) with
      | inr _ => (db, None, Retry 60)
      | inl channels =>
          (Db.enqueue
             (map (fun channel => SendAlertNotification alert_id channel 0)
                  (List.filter Channel.enabled channels)) db,
           Some {| notifications_sent :=
                     map (fun c => (Channel.channel_type c, "queued"))
                         channels;
                   last_notification_at := now |},
           Done)
      end
  end.

(** *** The batch over the rules *)

(** [model_id or None]. *)
Definition or_none (model_id : option string) : option string :=
  if truthy model_id then model_id else None.

(** The filter of [AlertRuleConfig.objects(project_id=.., model_id=..,
    is_active=True)]. *)
Definition selected_rule (project_id : string) (model_id : option string)
    (r : AlertRuleConfig.t) : bool :=
  String.eqb (AlertRuleConfig.project_id r) project_id
  && same_model (AlertRuleConfig.model_id r) (or_none model_id)
  && AlertRuleConfig.is_active r.

(** [process_alert_rules(self, project_id, model_id)]: every selected rule
    is processed in the order of the collection and written back in place;
    the other rules stay as they are.  An exception of
    [process_single_alert_rule] is logged and the loop goes on with the
    state the call left. *)
Fixpoint process_alert_rules (now : Z) (project_id : string)
    (model_id : option string) (rules : list AlertRuleConfig.t) (db : Db.t)
    : list AlertRuleConfig.t * Db.t :=
  match rules with
  | [] => ([], db)
  | rule :: rest =>
      if selected_rule project_id model_id rule then
        let '(rule', db') := process_single_alert_rule now rule db in
        let '(rest', db'') :=
          process_alert_rules now project_id model_id rest db' in
        (rule' :: rest', db'')
      else
        let '(rest', db') :=
          process_alert_rules now project_id model_id rest db in
        (rule :: rest', db')
  end.

End Engine.

End AlertsTasks.

(** ** apps/alerts/models.py: [Alert.is_active] and [Alert.suppress]

    [suppress] sets fields of the alert and saves it; the time and the
    reason it also records are fields outside the record [Alert.t]. *)

Module AlertsModels.

Definition with_is_suppressed (flag : bool) (a : Alert.t) : Alert.t :=
  Alert.mk (Alert.id a) (Alert.project_id a) (Alert.model_id a)
    (Alert.title a) (Alert.description a) (Alert.alert_type a)
    (Alert.severity a) (Alert.status a) (Alert.metric_value a)
    (Alert.threshold a) (Alert.rule_name a) (Alert.created_at a)
    (Alert.updated_at a) flag (Alert.source a).

(** The property [Alert.is_active]. *)
Definition is_active (a : Alert.t) : bool :=
  String.eqb (Alert.status a) "active" && negb (Alert.is_suppressed a).

(** [alert.suppress(until, reason)]. *)
Definition suppress (alert : Alert.t) (db : Db.t) : Db.t :=
  Db.with_alerts
    (AlertsTasks.save_alert (with_is_suppressed true alert) (Db.alerts db)) db.

End AlertsModels.

(** ** apps/alerts/tasks.py: the statistics task *)

Module AlertStatistics.
Record t : Type := mk {
  project_id : string;
  model_id : option string;
  timestamp : Z;
  window_minutes : Z;
  total_alerts : nat;
  active_alerts : nat;
  resolved_alerts : nat;
  acknowledged_alerts : nat;
  alerts_by_severity : list (string * nat);
  alerts_by_type : list (string * nat);
  avg_resolution_time_minutes : Q;
  resolution_rate : Q;
  notifications_sent : nat;
  notifications_failed : nat
}.
End AlertStatistics.

Module AlertsStatistics.

Section Statistics.

(** The field [resolved_at] of an alert, which the record [Alert.t] leaves
    out. *)
Variable resolved_at : Alert.t -> option Z.

(** [queryset(...).count()]. *)
Definition count (p : Alert.t -> bool) (alerts : list Alert.t) : nat :=
  length (List.filter p alerts).

(** [n.count()] on an [int], the value the query's [count()] returned: the
    attribute does not exist and the call raises AttributeError. *)
Definition int_count (n : nat) : option nat := None.

(** [AlertStatistics.objects(project_id=.., model_id=.., timestamp=..,
    window_minutes=..).modify(upsert=True, ...)]. *)
Definition same_key (s x : AlertStatistics.t) : bool :=
  String.eqb (AlertStatistics.project_id x) (AlertStatistics.project_id s)
  && same_model (AlertStatistics.model_id x) (AlertStatistics.model_id s)
  && Z.eqb (AlertStatistics.timestamp x) (AlertStatistics.timestamp s)
  && Z.eqb (AlertStatistics.window_minutes x) (AlertStatistics.window_minutes s).

Fixpoint upsert (s : AlertStatistics.t) (statistics : list AlertStatistics.t)
    : list AlertStatistics.t :=
  match statistics with
  | [] => [s]
  | x :: r => if same_key s x then s :: r else x :: upsert s r
  end.

(** The body of [for window_minutes in windows]: [None] when it raises,
    [Some None] when it continues without a record, [Some (Some stats)] when
    it reaches the upsert. *)
Definition window_statistics (now : Z) (project_id : string)
    (model_id : option string) (all_alerts : list Alert.t)
    (all_notifications : list AlertNotification.t) (window_minutes : Z)
    : option (option AlertStatistics.t) :=
  let window_start := (now - minutes window_minutes)%Z in
  let alerts :=
    List.filter
      (fun a => String.eqb (Alert.project_id a) project_id
                && same_model (Alert.model_id a) model_id
                && Z.leb window_start (Alert.created_at a)
                && Z.leb (Alert.created_at a) now)
      all_alerts in
  let total_alerts := length alerts in
  if Nat.eqb total_alerts 0 then Some None
  else
    let active_alerts :=
      count (fun a => String.eqb (Alert.status a) "active"
                      && negb (Alert.is_suppressed a)) alerts in
    let resolved_alerts :=
      count (fun a => String.eqb (Alert.status a) "resolved") alerts in
    let acknowledged_alerts :=
      count (fun a => String.eqb (Alert.status a) "acknowledged") alerts in
    let alerts_by_severity :=
      map (fun severity =>
             (severity,
              count (fun a => String.eqb (Alert.severity a) severity) alerts))
          ["low"; "medium"; "high"; "critical"] in
    let alerts_by_type :=
      map (fun alert_type =>
             (alert_type,
              count (fun a => String.eqb (Alert.alert_type a) alert_type)
                alerts))
          ["trust_score"; "fairness"; "drift"; "robustness";
           "explainability"] in
    let resolution_times :=
      omap (fun alert =>
              match resolved_at alert with
              | Some resolved =>
                  Some (inject_Z (resolved - Alert.created_at alert) / 60)%Q
              | None => None
              end)
           (List.filter (fun a => String.eqb (Alert.status a) "resolved")
              alerts) in
    let avg_resolution_time :=
      match resolution_times with
      | [] => 0%Q
      | _ :: _ =>
          (fold_right Qplus 0 resolution_times
           / inject_Z (Z.of_nat (length resolution_times)))%Q
      end in
    match int_count resolved_alerts with
    | None => None
    | Some resolved_count =>
        let resolution_rate :=
          (inject_Z (Z.of_nat resolved_count)
           / inject_Z (Z.of_nat total_alerts))%Q in
        let of_status status :=
          length
            (List.filter
               (fun n =>
                  existsb (fun a => Nat.eqb (Alert.id a)
                                      (AlertNotification.alert_id n)) alerts
                  && String.eqb (AlertNotification.status n) status)
               all_notifications) in
        Some (Some
          {| AlertStatistics.project_id := project_id;
             AlertStatistics.model_id := model_id;
             AlertStatistics.timestamp := now;
             AlertStatistics.window_minutes := window_minutes;
             AlertStatistics.total_alerts := total_alerts;
             AlertStatistics.active_alerts := active_alerts;
             AlertStatistics.resolved_alerts := resolved_alerts;
             AlertStatistics.acknowledged_alerts := acknowledged_alerts;
             AlertStatistics.alerts_by_severity := alerts_by_severity;
             AlertStatistics.alerts_by_type := alerts_by_type;
             AlertStatistics.avg_resolution_time_minutes := avg_resolution_time;
             AlertStatistics.resolution_rate := resolution_rate;
             AlertStatistics.notifications_sent := of_status "sent";
             AlertStatistics.notifications_failed := of_status "failed" |})
    end.

(** The loop over the windows inside the [try]: an exception ends the task
    with the records written so far. *)
Fixpoint statistics_of_windows (now : Z) (project_id : string)
    (model_id : option string) (alerts : list Alert.t)
    (notifications : list AlertNotification.t) (windows : list Z)
    (statistics : list AlertStatistics.t) : list AlertStatistics.t :=
  match windows with
  | [] => statistics
  | window_minutes :: rest =>
      match window_statistics now project_id model_id alerts notifications
              window_minutes with
      | None => statistics
      | Some None =>
          statistics_of_windows now project_id model_id alerts notifications
            rest statistics
      | Some (Some stats) =>
          statistics_of_windows now project_id model_id alerts notifications
            rest (upsert stats statistics)
      end
  end.

(** [calculate_alert_statistics(project_id, model_id)]: the statistics
    collection after the task. *)
Definition calculate_alert_statistics (now : Z) (project_id : string)
    (model_id : option string) (alerts : list Alert.t)
    (notifications : list AlertNotification.t)
    (statistics : list AlertStatistics.t) : list AlertStatistics.t :=
  statistics_of_windows now project_id model_id alerts notifications
    [60; 360; 1440]%Z statistics.

End Statistics.

End AlertsStatistics.

(** ** numpy, as far as [calculate_psi] uses it, in exact arithmetic *)

Module Np.

Fixpoint insert_sorted (x : Q) (l : list Q) : list Q :=
  match l with
  | [] => [x]
  | y :: r => if Qle_bool x y then x :: y :: r else y :: insert_sorted x r
  end.

Definition sort (l : list Q) : list Q := fold_right insert_sorted [] l.

(** [np.linspace(0, 100, bins + 1)]. *)
Definition linspace_0_100 (bins : nat) : list Q :=
  map (fun i => 100 * inject_Z (Z.of_nat i) / inject_Z (Z.of_nat bins))%Q
      (seq 0 (S bins)).

(** [np.percentile(a, q)] with the default linear interpolation, on the
    sorted data: the virtual index is [q / 100 * (n - 1)]. *)
Definition percentile (sorted : list Q) (q : Q) : Q :=
  let n := length sorted in
  let pos := (q / 100 * inject_Z (Z.of_nat (n - 1)))%Q in
  let lo := Z.to_nat (Qfloor pos) in
  let frac := (pos - inject_Z (Qfloor pos))%Q in
  let a := nth lo sorted 0%Q in
  let b := nth (Nat.min (S lo) (n - 1)) sorted 0%Q in
  (a + frac * (b - a))%Q.

(** Adjacent duplicates of a sorted list removed. *)
Fixpoint dedup (l : list Q) : list Q :=
  match l with
  | [] => []
  | x :: r =>
      match r with
      | y :: _ => if Qeq_bool x y then dedup r else x :: dedup r
      | [] => [x]
      end
  end.

(** [np.unique(a)]: the sorted distinct values. *)
Definition unique (l : list Q) : list Q := dedup (sort l).

Definition count (p : Q -> bool) (l : list Q) : nat := length (List.filter p l).

(** [np.histogram(values, bins=edges)[0]]: every bin is half open, the last
    one closed. *)
Fixpoint histogram (values : list Q) (edges : list Q) : list nat :=
  match edges with
  | [] => []
  | lo :: tl =>
      match tl with
      | [] => []
      | [hi] =>
          [count (fun v => Qle_bool lo v && Qle_bool v hi) values]
      | hi :: _ =>
          count (fun v => Qle_bool lo v && Qltb v hi) values
          :: histogram values tl
      end
  end.

End Np.

(** ** evaluations/tasks.py *)

Module EvaluationsTasks.

(** *** The trust score *)

Definition default_weights : gmap string Q :=
  <["fairness" := 3 # 10]> (<["robustness" := 1 # 4]>
  (<["stability" := 1 # 4]> (<["explainability" := 1 # 5]> ∅))).

(** [weights.get(key, default)]. *)
Definition weight (weights : gmap string Q) (key : string) (default : Q) : Q :=
  match weights !! key with
  | Some w => w
  | None => default
  end.

Definition score_or_default (e : option Evaluation.t) : Q :=
  match e with
  | Some ev => Evaluation.overall_score ev
  | None => 1 # 2
  end.

(** The query [TrustScore.objects(project_id=.., model_id=..)
    .order_by('-timestamp').skip(1).first()], run before the new record is
    saved. *)
Definition previous_trust_score (project_id : string)
    (model_id : option string) (db : Db.t) : option TrustScore.t :=
  nth_error
    (List.filter (fun s => String.eqb (TrustScore.project_id s) project_id
                      && same_model (TrustScore.model_id s) model_id)
            (Db.trust_scores db))
    1.

(** The block "Calculate trend" of [calculate_trust_score]:
    [(trend_direction, trend_percentage)]. *)
Definition calculate_trend (previous_score : option TrustScore.t)
    (overall_score : Q) : string * Q :=
  match previous_score with
  | None => ("stable", 0%Q)
  | Some previous =>
      let score_change := (overall_score - TrustScore.score previous)%Q in
      let trend_percentage :=
        if Qltb 0 (TrustScore.score previous)
        then (score_change / TrustScore.score previous * 100)%Q
        else 0%Q in
      if Qltb (Qabs trend_percentage) 5 then ("stable", trend_percentage)
      else if Qltb 0 trend_percentage then ("improving", trend_percentage)
      else ("declining", trend_percentage)
  end.

(** The statements of [calculate_trust_score] below the configuration
    lookup, for the configuration [config] it answered.  The new record is
    validated when it is saved; an exception is logged by the handler of the
    task. *)
Definition store_trust_score (src : Sources.t) (now : Z)
    (project_id : string) (model_id : option string)
    (config : option ProjectConfiguration.t) (db : Db.t) : Db.t :=
  let latest_fairness :=
    latest_completed (Sources.fairness_evaluations src) project_id model_id in
  let latest_drift :=
    latest_completed (Sources.drift_evaluations src) project_id model_id in
  let latest_robustness :=
    latest_completed (Sources.robustness_evaluations src) project_id model_id in
  let latest_explainability :=
    latest_completed (Sources.explainability_evaluations src)
      project_id model_id in
  let '(weights, threshold) :=
    match config with
    | Some config =>
        (ProjectConfiguration.trust_score_weights config,
         ProjectConfiguration.trust_score_threshold config)
    | None => (default_weights, 7 # 10)
    end in
  let fairness_score := score_or_default latest_fairness in
  let robustness_score := score_or_default latest_robustness in
  let stability_score := (1 - score_or_default latest_drift)%Q in
  let explainability_score := score_or_default latest_explainability in
  let overall_score :=
    (weight weights "fairness" (3 # 10) * fairness_score
     + weight weights "robustness" (1 # 4) * robustness_score
     + weight weights "stability" (1 # 4) * stability_score
     + weight weights "explainability" (1 # 5) * explainability_score)%Q in
  let previous_score := previous_trust_score project_id model_id db in
  let '(trend_direction, trend_percentage) :=
    calculate_trend previous_score overall_score in
  let trust_score :=
    {| TrustScore.id := Db.next_uuid db;
       TrustScore.project_id := project_id;
       TrustScore.model_id := model_id;
       TrustScore.fairness_score := fairness_score;
       TrustScore.robustness_score := robustness_score;
       TrustScore.stability_score := stability_score;
       TrustScore.explainability_score := explainability_score;
       TrustScore.score := overall_score;
       TrustScore.weights := weights;
       TrustScore.trend_direction := trend_direction;
       TrustScore.trend_percentage := trend_percentage;
       TrustScore.threshold := threshold;
       TrustScore.alert_triggered := Qltb overall_score threshold;
       TrustScore.timestamp := now |} in
  if TrustScore.validates trust_score then
    let db1 := Db.insert_trust_score trust_score db in
    if TrustScore.alert_triggered trust_score
    then Db.enqueue [TriggerTrustScoreAlert (TrustScore.id trust_score)] db1
    else db1
  else db.

(** [calculate_trust_score(project_id, model_id)].  After its four queries
    for the latest evaluations the task looks the configuration up with
    [ProjectConfiguration.objects(project_id=.., is_active=True).first()];
    [ProjectConfiguration] is a Django model, so this call raises, and the
    handler of the task logs the exception. *)
Definition calculate_trust_score (src : Sources.t) (now : Z)
    (project_id : string) (model_id : option string) (db : Db.t) : Db.t :=
  match manager_call (Sources.active_configuration src project_id) with
  | inr _ => db
  | inl config => store_trust_score src now project_id model_id config db
  end.

(** *** The population stability index *)

(** The two windows of one feature, as [np.array] types them: numbers, or
    strings. *)
Inductive Windows : Type :=
| NumericWindows (ref_values curr_values : list Q)
| CategoricalWindows (ref_values curr_values : list string).

Definition epsilon : Q := 1 # 10000.

(** [hist / n] followed by [np.where(perc == 0, 0.0001, perc)]. *)
Definition percentages (hist : list nat) (n : nat) : list Q :=
  map (fun c =>
         let perc := (inject_Z (Z.of_nat c) / inject_Z (Z.of_nat n))%Q in
         if Qeq_bool perc 0 then epsilon else perc)
      hist.

(** [np.unique(np.percentile(ref_values, np.linspace(0, 100, bins + 1)))]. *)
Definition bin_edges (ref_values : list Q) (bins : nat) : list Q :=
  Np.unique (map (Np.percentile (Np.sort ref_values)) (Np.linspace_0_100 bins)).

(** [np.sum((curr_perc - ref_perc) * np.log(curr_perc / ref_perc))]. *)
Fixpoint psi_sum (curr_perc ref_perc : list Q) : R :=
  match curr_perc, ref_perc with
  | c :: cs, r :: rs =>
      ((Q2R c - Q2R r) * ln (Q2R c / Q2R r) + psi_sum cs rs)%R
  | _, _ => 0%R
  end.

(** From the two histograms to the index.  [None] is the [nan] numpy
    yields when a window is empty (its percentages are [0 / 0]). *)
Definition psi_of_histograms (ref_hist curr_hist : list nat)
    (n_ref n_curr : nat) : option R :=
  match ref_hist with
  | [] => Some 0%R
  | _ :: _ =>
      if Nat.eqb n_ref 0 || Nat.eqb n_curr 0 then None
      else Some (psi_sum (percentages curr_hist n_curr)
                         (percentages ref_hist n_ref))
  end.

Definition occurrences (val : string) (l : list string) : nat :=
  length (List.filter (String.eqb val) l).

(** [calculate_psi(ref_values, curr_values, bins=10)]; an exception inside
    is caught and answered by 0, as is a binning with fewer than two
    edges. *)
Definition calculate_psi (w : Windows) (bins : nat) : option R :=
  match w with
  | NumericWindows ref_values curr_values =>
      let edges := bin_edges ref_values bins in
      if Nat.ltb (length edges) 2 then Some 0%R
      else
        psi_of_histograms (Np.histogram ref_values edges)
          (Np.histogram curr_values edges)
          (length ref_values) (length curr_values)
  | CategoricalWindows ref_values curr_values =>
      let unique_values := nodup String.string_dec (ref_values ++ curr_values) in
      psi_of_histograms
        (map (fun val => occurrences val ref_values) unique_values)
        (map (fun val => occurrences val curr_values) unique_values)
        (length ref_values) (length curr_values)
  end.

(** *** Fairness *)

Module Prediction.
Record t : Type := mk {
  prediction : PyVal;
  true_label : PyVal;
  features : gmap string PyVal
}.
End Prediction.

(** A result dictionary keyed by attribute, in insertion order; assigning
    to a key that is present replaces its value in place. *)
Fixpoint dict_set (key : string) (v : Q) (d : list (string * Q))
    : list (string * Q) :=
  match d with
  | [] => [(key, v)]
  | (k, x) :: r =>
      if String.eqb k key then (k, v) :: r else (k, x) :: dict_set key v r
  end.

Module FairnessResults.
Record t : Type := mk {
  demographic_parity : list (string * Q);
  equal_opportunity : list (string * Q);
  disparate_impact : list (string * Q);
  overall_score : Q
}.
End FairnessResults.

Definition is_one (v : PyVal) : bool := py_eq v (PyNum 1).

(** [row[attr] = pred.features.get(attr)] and [df[attr].dropna()]: the
    values of the attribute that are present. *)
Definition attribute_of (attr : string) (pred : Prediction.t) : option PyVal :=
  match Prediction.features pred !! attr with
  | Some PyNone | None => None
  | Some v => Some v
  end.

Definition observed (attr : string) (predictions : list Prediction.t)
    : list PyVal :=
  omap (attribute_of attr) predictions.

(** [Series.unique()]: the distinct values, by first occurrence. *)
Fixpoint unique (l : list PyVal) : list PyVal :=
  match l with
  | [] => []
  | x :: r => x :: List.filter (fun y => negb (py_eq x y)) (unique r)
  end.

(** [df[df[attr] == value]]. *)
Definition subset (attr : string) (value : PyVal)
    (predictions : list Prediction.t) : list Prediction.t :=
  List.filter (fun pred =>
            match attribute_of attr pred with
            | Some v => py_eq v value
            | None => false
            end)
         predictions.

(** [(rows['prediction'] == 1).mean()]. *)
Definition positive_rate (rows : list Prediction.t) : Q :=
  (inject_Z (Z.of_nat
     (length (List.filter (fun pred => is_one (Prediction.prediction pred)) rows)))
   / inject_Z (Z.of_nat (length rows)))%Q.

(** [max(scores)] and [min(scores)] of a list that is not empty. *)
Definition py_max (scores : list Q) : Q :=
  match scores with
  | [] => 0%Q
  | x :: r => fold_left Qmax r x
  end.

Definition py_min (scores : list Q) : Q :=
  match scores with
  | [] => 0%Q
  | x :: r => fold_left Qmin r x
  end.

Definition dp_score (rows : list Prediction.t) : Q :=
  if existsb (fun pred => is_one (Prediction.prediction pred)) rows
  then positive_rate rows else 0%Q.

(** One iteration of [for attr in protected_attributes]. *)
Definition fairness_of_attribute (predictions : list Prediction.t)
    (results : FairnessResults.t) (attr : string) : FairnessResults.t :=
  let unique_values := unique (observed attr predictions) in
  if Nat.ltb (length unique_values) 2 then results
  else
    let dp_scores :=
      map (fun value => dp_score (subset attr value predictions))
          unique_values in
    let dp_diff := (py_max dp_scores - py_min dp_scores)%Q in
    let eo_scores :=
      flat_map
        (fun value =>
           let positive_subset :=
             List.filter (fun pred => is_one (Prediction.true_label pred))
                    (subset attr value predictions) in
           match positive_subset with
           | [] => []
           | _ :: _ => [positive_rate positive_subset]
           end)
        unique_values in
    let equal_opportunity :=
      match eo_scores with
      | [] => FairnessResults.equal_opportunity results
      | _ :: _ =>
          dict_set attr (py_max eo_scores - py_min eo_scores)%Q
            (FairnessResults.equal_opportunity results)
      end in
    let disparate_impact :=
      if Nat.leb 2 (length dp_scores) then
        dict_set attr
          (if Qltb 0 (py_max dp_scores)
           then (py_min dp_scores / py_max dp_scores)%Q else 0%Q)
          (FairnessResults.disparate_impact results)
      else FairnessResults.disparate_impact results in
    {| FairnessResults.demographic_parity :=
         dict_set attr dp_diff (FairnessResults.demographic_parity results);
       FairnessResults.equal_opportunity := equal_opportunity;
       FairnessResults.disparate_impact := disparate_impact;
       FairnessResults.overall_score := FairnessResults.overall_score results |}.

(** [np.mean(scores)]. *)
Definition mean (scores : list Q) : Q :=
  (fold_right Qplus 0 scores / inject_Z (Z.of_nat (length scores)))%Q.

(** [all_scores]: the gaps that enter the overall score. *)
Definition all_scores (results : FairnessResults.t) : list Q :=
  map snd (FairnessResults.demographic_parity results)
  ++ map snd (FairnessResults.equal_opportunity results)
  ++ map (fun kv => (1 - snd kv)%Q) (FairnessResults.disparate_impact results).

Definition initial_results : FairnessResults.t :=
  {| FairnessResults.demographic_parity := [];
     FairnessResults.equal_opportunity := [];
     FairnessResults.disparate_impact := [];
     FairnessResults.overall_score := 1 # 2 |}.

(** The column [name] of the row of one prediction.  The row is built as
    [{'prediction': .., 'true_label': .., 'features': ..}] and then, for
    every protected attribute, [row[attr] = pred.features.get(attr)]: an
    attribute called 'prediction' or 'true_label' replaces that column by
    the feature of that name ([None] where the prediction has none). *)
Definition column (name : string) (protected_attributes : list string)
    (own : PyVal) (pred : Prediction.t) : PyVal :=
  if existsb (String.eqb name) protected_attributes then
    match Prediction.features pred !! name with
    | Some v => v
    | None => PyNone
    end
  else own.

(** The row of the frame for one prediction, with the columns the metrics
    read. *)
Definition row_of (protected_attributes : list string) (pred : Prediction.t)
    : Prediction.t :=
  {| Prediction.prediction :=
       column "prediction" protected_attributes (Prediction.prediction pred)
         pred;
     Prediction.true_label :=
       column "true_label" protected_attributes (Prediction.true_label pred)
         pred;
     Prediction.features := Prediction.features pred |}.

(** [calculate_fairness_metrics(predictions, protected_attributes)].  Every
    attribute is a column of the frame (each row sets it), so the test
    [attr not in df.columns] never holds. *)
Definition calculate_fairness_metrics (predictions : list Prediction.t)
    (protected_attributes : list string) : FairnessResults.t :=
  match map (row_of protected_attributes) predictions with
  | [] => initial_results
  | rows =>
      let results :=
        fold_left (fairness_of_attribute rows) protected_attributes
          initial_results in
      match all_scores results with
      | [] => results
      | _ :: _ =>
          {| FairnessResults.demographic_parity :=
               FairnessResults.demographic_parity results;
             FairnessResults.equal_opportunity :=
               FairnessResults.equal_opportunity results;
             FairnessResults.disparate_impact :=
               FairnessResults.disparate_impact results;
             FairnessResults.overall_score :=
               (1 - mean (all_scores results))%Q |}
      end
  end.

(** The arithmetic of the trend percentage in IEEE binary64, as Python
    evaluates [(overall - previous) / previous * 100]. *)
Definition trend_percentage_binary64 (overall previous : float) : float :=
  PrimFloat.mul (PrimFloat.div (PrimFloat.sub overall previous) previous)
                100%float.

(** *** Explainability *)

(** A prediction as [calculate_explainability_metrics] reads it: its
    identifier and the items of its [features] dictionary, in the order of
    the dictionary. *)
Module FeatureRecord.
Record t : Type := mk {
  prediction_id : string;
  features : list (string * PyVal)
}.
End FeatureRecord.

Module Explanation.
Record t : Type := mk {
  prediction_id : string;
  top_features : list string;
  contributions : list (string * Q)
}.
End Explanation.

(** The entries of the result the function computes; 'feature_consistency'
    and 'detailed_results' stay empty in every run and are left out. *)
Module ExplainabilityResults.
Record t : Type := mk {
  feature_importance_stability : Q;
  feature_coverage : Q;
  explanation_fidelity : Q;
  overall_score : Q;
  feature_importance : list (string * Q);
  sample_explanations : list Explanation.t
}.
End ExplainabilityResults.

(** [feature_counts[feature] = feature_counts.get(feature, 0) + 1], on a
    dictionary in insertion order. *)
Fixpoint count_feature (feature : string) (feature_counts : list (string * nat))
    : list (string * nat) :=
  match feature_counts with
  | [] => [(feature, 1%nat)]
  | (k, n) :: r =>
      if String.eqb k feature then (k, S n) :: r
      else (k, n) :: count_feature feature r
  end.

(** [for feature, value in features.items(): if value is not None: ...]. *)
Definition count_features (feature_counts : list (string * nat))
    (features : list (string * PyVal)) : list (string * nat) :=
  fold_left
    (fun counts item =>
       match snd item with
       | PyNone => counts
       | _ => count_feature (fst item) counts
       end)
    features feature_counts.

Definition feature_counts (predictions : list FeatureRecord.t)
    : list (string * nat) :=
  fold_left (fun counts pred => count_features counts (FeatureRecord.features pred))
    predictions [].

(** [sorted(items, key=lambda x: x[1], reverse=True)]: descending, and
    stable (items of equal importance keep their order). *)
Fixpoint insert_descending (x : string * Q) (l : list (string * Q))
    : list (string * Q) :=
  match l with
  | [] => [x]
  | y :: r =>
      if Qle_bool (snd y) (snd x) then x :: y :: r
      else y :: insert_descending x r
  end.

Definition sorted_descending (l : list (string * Q)) : list (string * Q) :=
  fold_right insert_descending [] l.

Definition default_explainability : ExplainabilityResults.t :=
  {| ExplainabilityResults.feature_importance_stability := 7 # 10;
     ExplainabilityResults.feature_coverage := 8 # 10;
     ExplainabilityResults.explanation_fidelity := 6 # 10;
     ExplainabilityResults.overall_score := 7 # 10;
     ExplainabilityResults.feature_importance := [];
     ExplainabilityResults.sample_explanations := [] |}.

Section Explainability.

(** The value [np.random.uniform(-1, 1)] draws for a feature of the [i]-th
    sample explanation. *)
Variable uniform : nat -> string -> Q.

(** [calculate_explainability_metrics(predictions)]. *)
Definition calculate_explainability_metrics
    (predictions : list FeatureRecord.t) : ExplainabilityResults.t :=
  match predictions with
  | [] => default_explainability
  | _ :: _ =>
      let feature_counts := feature_counts predictions in
      let total_features := fold_right Nat.add 0%nat (map snd feature_counts) in
      let feature_importance :=
        map (fun kv =>
               (fst kv,
                (inject_Z (Z.of_nat (snd kv))
                 / inject_Z (Z.of_nat total_features))%Q))
            feature_counts in
      let top_features := firstn 20 (sorted_descending feature_importance) in
      let feature_coverage :=
        (inject_Z (Z.of_nat (length top_features))
         / inject_Z (Z.of_nat (Nat.max (length feature_counts) 1)))%Q in
      let sample_explanations :=
        map (fun numbered =>
               {| Explanation.prediction_id :=
                    FeatureRecord.prediction_id (snd numbered);
                  Explanation.top_features := firstn 5 (map fst top_features);
                  Explanation.contributions :=
                    map (fun feat => (feat, uniform (fst numbered) feat))
                        (firstn 3 (map fst top_features)) |})
            (combine (seq 0 5) (firstn 5 predictions)) in
      {| ExplainabilityResults.feature_importance_stability := 7 # 10;
         ExplainabilityResults.feature_coverage := feature_coverage;
         ExplainabilityResults.explanation_fidelity := 6 # 10;
         ExplainabilityResults.overall_score :=
           mean [7 # 10; feature_coverage; 6 # 10];
         ExplainabilityResults.feature_importance := top_features;
         ExplainabilityResults.sample_explanations := sample_explanations |}
  end.

End Explainability.

End EvaluationsTasks.

(** ** Concrete scenarios

    The data the properties below are evaluated on. *)

Module Scenario.

(** A runtime whose transports all succeed, or all fail. *)
Definition runtime (delivers : bool) : Runtime.t :=
  {| Runtime.str := fun _ => "value";
     Runtime.str_title := fun s => s;
     Runtime.format_3f := fun _ => "0.000";
     Runtime.send_mail := fun _ _ => delivers;
     Runtime.http_post := fun _ _ => delivers |}.

Definition completed (score : Q) : Evaluation.t :=
  {| Evaluation.project_id := "p";
     Evaluation.model_id := Some "m";
     Evaluation.evaluation_id := "e";
     Evaluation.status := "completed";
     Evaluation.overall_score := score |}.

(** Model "m" of project "p": the latest completed fairness evaluation
    scored 0.4. *)
Definition low_fairness : Sources.t :=
  {| Sources.fairness_evaluations := [completed (4 # 10)];
     Sources.drift_evaluations := [];
     Sources.robustness_evaluations := [];
     Sources.explainability_evaluations := [];
     Sources.ingestion_metrics := [];
     Sources.active_configuration := fun _ => None |}.

(** Project "p": fairness, robustness and explainability 0.8, drift 0.2,
    no configuration (the default weights apply). *)
Definition all_components_08 : Sources.t :=
  {| Sources.fairness_evaluations := [completed (8 # 10)];
     Sources.drift_evaluations := [completed (2 # 10)];
     Sources.robustness_evaluations := [completed (8 # 10)];
     Sources.explainability_evaluations := [completed (8 # 10)];
     Sources.ingestion_metrics := [];
     Sources.active_configuration := fun _ => None |}.

(** The rule "fairness_score < 0.5" of model "m" of project "p", cooldown 60
    minutes. *)
Definition fairness_rule (last_triggered : option Z) : AlertRuleConfig.t :=
  {| AlertRuleConfig.id := "rule-1";
     AlertRuleConfig.project_id := "p";
     AlertRuleConfig.model_id := Some "m";
     AlertRuleConfig.name := "low fairness";
     AlertRuleConfig.alert_type := "fairness";
     AlertRuleConfig.rules :=
       [{| RuleCondition.metric_name := Some "fairness_score";
           RuleCondition.operator := Some "<";
           RuleCondition.threshold := PyNum (1 # 2);
           RuleCondition.severity := Some "high" |}];
     AlertRuleConfig.channels := [];
     AlertRuleConfig.is_active := true;
     AlertRuleConfig.cooldown_minutes := 60;
     AlertRuleConfig.last_triggered := last_triggered |}.

(** A trust score of model "m" of project "p" with the default threshold
    0.7. *)
Definition trust_score (id : nat) (score : Q) (timestamp : Z) : TrustScore.t :=
  {| TrustScore.id := id;
     TrustScore.project_id := "p";
     TrustScore.model_id := Some "m";
     TrustScore.fairness_score := score;
     TrustScore.robustness_score := score;
     TrustScore.stability_score := score;
     TrustScore.explainability_score := score;
     TrustScore.score := score;
     TrustScore.weights := EvaluationsTasks.default_weights;
     TrustScore.trend_direction := "stable";
     TrustScore.trend_percentage := 0;
     TrustScore.threshold := 7 # 10;
     TrustScore.alert_triggered := Qltb score (7 # 10);
     TrustScore.timestamp := timestamp |}.

Definition with_trust_scores (l : list TrustScore.t) : Db.t :=
  {| Db.alerts := [];
     Db.alert_notifications := [];
     Db.trust_scores := l;
     Db.queue := [];
     Db.next_uuid := length l |}.

(** An alert of rule "low fairness" with the given severity, created at
    time 0. *)
Definition alert (id : nat) (severity : string) : Alert.t :=
  {| Alert.id := id;
     Alert.project_id := "p";
     Alert.model_id := Some "m";
     Alert.title := "Fairness Alert: low fairness";
     Alert.description := "fairness_score is 0.4 < 0.5";
     Alert.alert_type := "fairness";
     Alert.severity := severity;
     Alert.status := "active";
     Alert.metric_value := PyNum (4 # 10);
     Alert.threshold := PyNum (1 # 2);
     Alert.rule_name := Some "low fairness";
     Alert.created_at := 0;
     Alert.updated_at := 0;
     Alert.is_suppressed := false;
     Alert.source := "alert_rule" |}.

Definition with_alerts (l : list Alert.t) : Db.t :=
  {| Db.alerts := l;
     Db.alert_notifications := [];
     Db.trust_scores := [];
     Db.queue := [];
     Db.next_uuid := length l |}.

(** An e-mail channel with a recipient. *)
Definition email : Channel.t :=
  {| Channel.channel_type := "email";
     Channel.config := <["recipient" := "ops@example.com"]> ∅;
     Channel.enabled := true |}.

(** A labelled prediction record with the attributes "gender" and "region". *)
Definition record (gender : string) (prediction true_label : Q)
    : EvaluationsTasks.Prediction.t :=
  {| EvaluationsTasks.Prediction.prediction := PyNum prediction;
     EvaluationsTasks.Prediction.true_label := PyNum true_label;
     EvaluationsTasks.Prediction.features :=
       <["gender" := PyStr gender]> (<["region" := PyStr "eu"]> ∅) |}.

(** Five records: two groups by gender, a single region. *)
Definition records : list EvaluationsTasks.Prediction.t :=
  [record "m" 1 1; record "m" 0 1; record "m" 0 0;
   record "f" 1 0; record "f" 1 1].

(** A rule of project "p" of the given alert type, with the one condition
    [metric_name < 0.5]. *)
Definition typed_rule (alert_type metric_name : string) : AlertRuleConfig.t :=
  {| AlertRuleConfig.id := "rule-2";
     AlertRuleConfig.project_id := "p";
     AlertRuleConfig.model_id := Some "m";
     AlertRuleConfig.name := "low " +:+ metric_name;
     AlertRuleConfig.alert_type := alert_type;
     AlertRuleConfig.rules :=
       [{| RuleCondition.metric_name := Some metric_name;
           RuleCondition.operator := Some "<";
           RuleCondition.threshold := PyNum (1 # 2);
           RuleCondition.severity := Some "high" |}];
     AlertRuleConfig.channels := [];
     AlertRuleConfig.is_active := true;
     AlertRuleConfig.cooldown_minutes := 60;
     AlertRuleConfig.last_triggered := None |}.

(** An e-mail channel without a recipient. *)
Definition email_without_recipient : Channel.t :=
  {| Channel.channel_type := "email";
     Channel.config := ∅;
     Channel.enabled := true |}.

(** A trust score of project "p" as a whole, without a model. *)
Definition project_trust_score (id : nat) (score : Q) : TrustScore.t :=
  {| TrustScore.id := id;
     TrustScore.project_id := "p";
     TrustScore.model_id := None;
     TrustScore.fairness_score := score;
     TrustScore.robustness_score := score;
     TrustScore.stability_score := score;
     TrustScore.explainability_score := score;
     TrustScore.score := score;
     TrustScore.weights := EvaluationsTasks.default_weights;
     TrustScore.trend_direction := "stable";
     TrustScore.trend_percentage := 0;
     TrustScore.threshold := 7 # 10;
     TrustScore.alert_triggered := Qltb score (7 # 10);
     TrustScore.timestamp := 0 |}.

(** The fairness rule with an e-mail channel. *)
Definition fairness_rule_with_email : AlertRuleConfig.t :=
  {| AlertRuleConfig.id := "rule-3";
     AlertRuleConfig.project_id := "p";
     AlertRuleConfig.model_id := Some "m";
     AlertRuleConfig.name := "low fairness";
     AlertRuleConfig.alert_type := "fairness";
     AlertRuleConfig.rules :=
       [{| RuleCondition.metric_name := Some "fairness_score";
           RuleCondition.operator := Some "<";
           RuleCondition.threshold := PyNum (1 # 2);
           RuleCondition.severity := Some "high" |}];
     AlertRuleConfig.channels := [email];
     AlertRuleConfig.is_active := true;
     AlertRuleConfig.cooldown_minutes := 60;
     AlertRuleConfig.last_triggered := None |}.

(** Two predictions: "age" carries a value in both, "income" in none,
    "region" in the second. *)
Definition feature_records : list EvaluationsTasks.FeatureRecord.t :=
  [{| EvaluationsTasks.FeatureRecord.prediction_id := "a";
      EvaluationsTasks.FeatureRecord.features :=
        [("age", PyNum 30); ("income", PyNone)] |};
   {| EvaluationsTasks.FeatureRecord.prediction_id := "b";
      EvaluationsTasks.FeatureRecord.features :=
        [("age", PyNum 41); ("region", PyStr "eu")] |}].

End Scenario.

(** ** Vocabulary of the properties *)

Import AlertsTasks EvaluationsTasks.

(** The operators of the table. *)
Definition known_operators : list string :=
  [">"; "<"; ">="; "<="; "=="; "!="; "in"; "not_in"].

(** The documents of a collection have distinct primary keys. *)
Definition unique_ids (l : list Alert.t) : Prop := List.NoDup (map Alert.id l).

(** What [escalate_alert] writes for a 'high' alert. *)
Definition escalated (a : Alert.t) : Alert.t :=
  Alert.with_escalation "critical" ("[ESCALATED] " +:+ Alert.title a)
    (Alert.description a +:+ escalation_note) a.

(** The alerts the sweep mutates. *)
Definition escalates (now : Z) (a : Alert.t) : bool :=
  should_escalate_alert now a && String.eqb (Alert.severity a) "high".

(** The body of the loop of [check_alert_escalations]. *)
Definition sweep_step (now : Z) (d : Db.t) (alert : Alert.t) : Db.t :=
  if should_escalate_alert now alert then escalate_alert alert d else d.

(** The filter for active alerts of one (project, model, type, rule name)
    tuple. *)
Definition active_with (project_id : string) (model_id : option string)
    (alert_type : string) (rule_name : option string) (a : Alert.t) : bool :=
  String.eqb (Alert.project_id a) project_id
  && same_model (Alert.model_id a) model_id
  && String.eqb (Alert.alert_type a) alert_type
  && String.eqb (Alert.status a) "active"
  && option_eqb String.eqb (Alert.rule_name a) rule_name.

(** At most one active alert per tuple. *)
Definition at_most_one_active (l : list Alert.t) : Prop :=
  forall (project_id : string) (model_id : option string)
         (alert_type : string) (rule_name : option string),
    (length (List.filter (active_with project_id model_id alert_type rule_name) l)
     <= 1)%nat.

(** A score or a gap between 0 and 1. *)
Definition unit_interval (x : Q) : Prop := (0 <= x /\ x <= 1)%Q.

(** Every recorded gap and ratio lies between 0 and 1. *)
Definition gaps_in_unit_interval (r : FairnessResults.t) : Prop :=
  Forall unit_interval (map snd (FairnessResults.demographic_parity r))
  /\ Forall unit_interval (map snd (FairnessResults.equal_opportunity r))
  /\ Forall unit_interval (map snd (FairnessResults.disparate_impact r)).

(** The attributes a result has an entry for. *)
Definition scored_attributes (r : FairnessResults.t) : list string :=
  map fst (FairnessResults.demographic_parity r)
  ++ map fst (FairnessResults.equal_opportunity r)
  ++ map fst (FairnessResults.disparate_impact r).

(** The alert types [get_metrics_for_alert_type] has a branch for. *)
Definition metric_sources : list string :=
  ["trust_score"; "fairness"; "drift"; "robustness"; "explainability";
   "data_quality"].

(** The metric and the collection behind each evaluation alert type. *)
Definition evaluations_of (src : Sources.t) (alert_type : string)
    : option (string * list Evaluation.t) :=
  if String.eqb alert_type "fairness" then
    Some ("fairness_score", Sources.fairness_evaluations src)
  else if String.eqb alert_type "drift" then
    Some ("drift_score", Sources.drift_evaluations src)
  else if String.eqb alert_type "robustness" then
    Some ("robustness_score", Sources.robustness_evaluations src)
  else if String.eqb alert_type "explainability" then
    Some ("explainability_score", Sources.explainability_evaluations src)
  else None.

(** The record a failed attempt leaves. *)
Definition retrying_notification (alert_id : nat) (channel : Channel.t)
    : AlertNotification.t :=
  AlertNotification.set_status "retry"
    (AlertNotification.set_retry_count 1
       (AlertNotification.set_error_message "Failed to send notification"
          (AlertNotification.set_status "failed"
             (pending_notification alert_id channel)))).

(** The channels [process_alert_notifications] reads from the rule of an
    alert: [rule.channels if rule and rule.channels else []]. *)
Definition configured_channels (rules : list AlertRuleConfig.t)
    (alert : Alert.t) : list Channel.t :=
  match rule_of_alert rules alert with
  | Some rule => AlertRuleConfig.channels rule
  | None => []
  end.

(** The channel is of a known type and carries the address its sender reads:
    'recipient' for email, 'url' for webhook, 'webhook_url' for slack and
    teams, nothing for in_app. *)
Definition addressed (channel : Channel.t) : bool :=
  let present key :=
    match configured (Channel.config channel) key with
    | Some _ => true
    | None => false
    end in
  if String.eqb (Channel.channel_type channel) "email" then present "recipient"
  else if String.eqb (Channel.channel_type channel) "webhook" then present "url"
  else if String.eqb (Channel.channel_type channel) "slack" then
    present "webhook_url"
  else if String.eqb (Channel.channel_type channel) "teams" then
    present "webhook_url"
  else String.eqb (Channel.channel_type channel) "in_app".

(** The clock and the database after [n] scheduled deliveries that follow a
    first attempt at time [start]. *)
Definition after_deliveries (rt : Runtime.t) (start : Z) (alert_id : nat)
    (channel : Channel.t) (db : Db.t) (n : nat) : Z * Db.t :=
  Nat.iter n (run_scheduled_delivery rt)
    (start, fst (send_alert_notification rt start alert_id channel db)).

(** Neither window is empty. *)
Definition windows_not_empty (w : Windows) : Prop :=
  match w with
  | NumericWindows ref_values curr_values =>
      ref_values <> [] /\ curr_values <> []
  | CategoricalWindows ref_values curr_values =>
      ref_values <> [] /\ curr_values <> []
  end.

(** The value of a feature is present. *)
Definition present (v : PyVal) : bool :=
  match v with
  | PyNone => false
  | _ => true
  end.

(** The names of the features that carry a value, one per occurrence. *)
Definition named_features (predictions : list FeatureRecord.t) : list string :=
  flat_map
    (fun pred =>
       map fst (List.filter (fun item => present (snd item))
                  (FeatureRecord.features pred)))
    predictions.

(** [sum(feature_counts.values())]. *)
Definition total (counts : list (string * nat)) : nat :=
  fold_right Nat.add 0%nat (map snd counts).

(** The state of the counting loop: distinct names, each counted at least
    once. *)
Definition counted (counts : list (string * nat)) : Prop :=
  List.NoDup (map fst counts) /\ Forall (fun kv => (1 <= snd kv)%nat) counts.

(** The sum of the importances of a dictionary. *)
Definition sum_of (l : list (string * Q)) : Q :=
  fold_right Qplus 0%Q (map snd l).

(** * Properties *)

(** ** Comparisons on the idealised floats *)

Lemma Qltb_lt (x y : Q) : Qltb x y = true <-> (x < y)%Q.
Proof.
  unfold Qltb. rewrite negb_true_iff. split.
  - intros H. apply Qnot_le_lt. intros Hle.
    apply Qle_bool_iff in Hle. congruence.
  - intros H. destruct (Qle_bool y x) eqn:E; [|reflexivity].
    apply Qle_bool_iff in E. exfalso. exact (Qlt_not_le _ _ H E).
Qed.

Lemma Qltb_ge (x y : Q) : Qltb x y = false <-> (y <= x)%Q.
Proof.
  unfold Qltb. rewrite negb_false_iff. apply Qle_bool_iff.
Qed.

(** ** The operator table of [evaluate_condition] *)

Lemma evaluate_condition_unknown (value threshold : PyVal) (operator : string) :
  ~ In operator known_operators ->
  evaluate_condition value operator threshold = false.
Proof.
  intros Hnot. unfold evaluate_condition, known_operators in *.
  repeat match goal with
  | |- context [String.eqb operator ?s] =>
      destruct (String.eqb_spec operator s) as [->|_];
      [exfalso; apply Hnot; simpl; tauto|]
  end.
  reflexivity.
Qed.

Lemma evaluate_condition_numbers (x y : Q) :
  (evaluate_condition (PyNum x) ">" (PyNum y) = true <-> (y < x)%Q)
  /\ (evaluate_condition (PyNum x) "<" (PyNum y) = true <-> (x < y)%Q)
  /\ (evaluate_condition (PyNum x) ">=" (PyNum y) = true <-> (y <= x)%Q)
  /\ (evaluate_condition (PyNum x) "<=" (PyNum y) = true <-> (x <= y)%Q)
  /\ (evaluate_condition (PyNum x) "==" (PyNum y) = true <-> (x == y)%Q)
  /\ (evaluate_condition (PyNum x) "!=" (PyNum y) = true <-> ~ (x == y)%Q).
Proof.
  change (evaluate_condition (PyNum x) ">" (PyNum y))
    with (holds OpGt (x ?= y)%Q).
  change (evaluate_condition (PyNum x) "<" (PyNum y))
    with (holds OpLt (x ?= y)%Q).
  change (evaluate_condition (PyNum x) ">=" (PyNum y))
    with (holds OpGe (x ?= y)%Q).
  change (evaluate_condition (PyNum x) "<=" (PyNum y))
    with (holds OpLe (x ?= y)%Q).
  change (evaluate_condition (PyNum x) "==" (PyNum y)) with (Qeq_bool x y).
  change (evaluate_condition (PyNum x) "!=" (PyNum y))
    with (negb (Qeq_bool x y)).
  rewrite (Qgt_alt x y), (Qlt_alt x y), (Qge_alt x y), (Qle_alt x y).
  rewrite <- (Qeq_bool_iff x y), negb_true_iff, not_true_iff_false.
  destruct (x ?= y)%Q; cbn; intuition congruence.
Qed.

(** C6. [evaluate_condition] implements the operator table: on numbers the six
    comparison operators are the comparisons they name; on any operands
    ['=='] and ['!='] are Python equality and its negation, and an ordering
    that raises is answered by false; ['in'] is membership when the threshold
    is a list or a tuple and false otherwise; ['not_in'] is non-membership
    when it is one and true otherwise; an unknown operator gives false.  In
    particular evaluate(0.4, '<', 0.5), evaluate(5, 'in', [1,2,3]) and
    evaluate('x', 'not_in', []) are true, false and true. *)
Theorem evaluate_condition_operator_table :
  forall (value threshold : PyVal) (x y : Q) (operator : string)
         (op : RichOp) (symbol : string),
    ((evaluate_condition (PyNum x) ">" (PyNum y) = true <-> (y < x)%Q)
     /\ (evaluate_condition (PyNum x) "<" (PyNum y) = true <-> (x < y)%Q)
     /\ (evaluate_condition (PyNum x) ">=" (PyNum y) = true <-> (y <= x)%Q)
     /\ (evaluate_condition (PyNum x) "<=" (PyNum y) = true <-> (x <= y)%Q)
     /\ (evaluate_condition (PyNum x) "==" (PyNum y) = true <-> (x == y)%Q)
     /\ (evaluate_condition (PyNum x) "!=" (PyNum y) = true <-> ~ (x == y)%Q))
    /\ evaluate_condition value "==" threshold = py_eq value threshold
    /\ evaluate_condition value "!=" threshold = negb (py_eq value threshold)
    /\ (In (symbol, op) [(">", OpGt); ("<", OpLt); (">=", OpGe); ("<=", OpLe)] ->
        evaluate_condition value symbol threshold
        = match py_richcmp op value threshold with
          | Some b => b
          | None => false
          end)
    /\ evaluate_condition value "in" threshold
       = match as_sequence threshold with
         | Some items => py_in value items
         | None => false
         end
    /\ evaluate_condition value "not_in" threshold
       = match as_sequence threshold with
         | Some items => negb (py_in value items)
         | None => true
         end
    /\ (~ In operator known_operators ->
        evaluate_condition value operator threshold = false)
    /\ evaluate_condition (PyNum (4 # 10)) "<" (PyNum (5 # 10)) = true
    /\ evaluate_condition (PyNum 5) "in" (PyList [PyNum 1; PyNum 2; PyNum 3])
       = false
    /\ evaluate_condition (PyStr "x") "not_in" (PyList []) = true.
Proof.
  intros value threshold x y operator op symbol.
  split; [apply evaluate_condition_numbers|].
  repeat split; try reflexivity.
  - intros Hin. cbn in Hin.
    destruct Hin as [E|[E|[E|[E|[]]]]]; inversion E; subst; reflexivity.
  - apply evaluate_condition_unknown.
Qed.

(** The table read at concrete operands: a string against a number raises
    and is answered by false; 2 is a member of the tuple (1, 2); an operator
    outside the table gives false. *)
Lemma evaluate_condition_operator_table_witness :
  evaluate_condition (PyStr "x") "<" (PyNum 1) = false
  /\ evaluate_condition (PyNum 2) "in" (PyTuple [PyNum 1; PyNum 2]) = true
  /\ evaluate_condition (PyNum 2) "~=" (PyNum 2) = false.
Proof.
  pose proof (evaluate_condition_operator_table (PyStr "x") (PyNum 1) 0 0
                "~=" OpLt "<") as (_ & _ & _ & Hord & _).
  pose proof (evaluate_condition_operator_table (PyNum 2)
                (PyTuple [PyNum 1; PyNum 2]) 0 0 "~=" OpLt "<")
    as (_ & _ & _ & _ & Hin & _).
  pose proof (evaluate_condition_operator_table (PyNum 2) (PyNum 2) 0 0
                "~=" OpLt "<") as (_ & _ & _ & _ & _ & _ & Hunk & _).
  split; [|split].
  - rewrite Hord; [reflexivity | cbn; tauto].
  - rewrite Hin. reflexivity.
  - apply Hunk. unfold known_operators. cbn.
    intros H. repeat (destruct H as [H|H]; [discriminate H|]). exact H.
Defined.

(** ** The trust-score alert *)

Lemma trust_score_alert_validates (a : Alert.t) (m : string) :
  Alert.model_id a = Some m ->
  Alert.alert_type a = "trust_score" ->
  Alert.severity a = "high" \/ Alert.severity a = "medium" ->
  Alert.status a = "active" ->
  Alert.float_field (Alert.metric_value a) = true ->
  Alert.float_field (Alert.threshold a) = true ->
  Alert.validates a = true.
Proof.
  intros Hmodel Htype Hseverity Hstatus Hvalue Hthreshold.
  unfold Alert.validates.
  rewrite Hmodel, Htype, Hstatus, Hvalue, Hthreshold.
  destruct Hseverity as [-> | ->]; reflexivity.
Qed.

(** C10.  What [trigger_trust_score_alert] does with a stored trust score.
    Without [alert_triggered] it creates no alert and queues nothing.  With
    it, for the trust score of a model, it stores exactly one new alert, of
    type 'trust_score', 'high' below 0.5 and 'medium' otherwise (never 'low'
    or 'critical'), with the score as metric value and the record's
    threshold, and queues its notifications.  With it, for the trust score
    of a project as a whole (no [model_id]), the alert it builds is refused
    when it is saved, as [model_id] is required through [unique_with]: no
    alert is stored and nothing is queued, where exactly one alert is
    specified.  So it is for the project-level trust score 0.4. *)
Theorem trigger_trust_score_alert_needs_model :
  forall (rt : Runtime.t) (now : Z) (trust_score_id : nat) (db : Db.t)
         (ts : TrustScore.t),
    find (fun s => Nat.eqb (TrustScore.id s) trust_score_id)
         (Db.trust_scores db) = Some ts ->
    (TrustScore.alert_triggered ts = false ->
     trigger_trust_score_alert rt now trust_score_id db = db)
    /\ (TrustScore.alert_triggered ts = true ->
        TrustScore.model_id ts = None ->
        trigger_trust_score_alert rt now trust_score_id db = db)
    /\ (TrustScore.alert_triggered ts = true ->
        TrustScore.model_id ts <> None ->
        exists alert : Alert.t,
          Db.alerts (trigger_trust_score_alert rt now trust_score_id db)
          = alert :: Db.alerts db
          /\ Db.queue (trigger_trust_score_alert rt now trust_score_id db)
             = Db.queue db ++ [ProcessAlertNotifications (Alert.id alert)]
          /\ Alert.alert_type alert = "trust_score"
          /\ Alert.status alert = "active"
          /\ ((TrustScore.score ts < 1 # 2)%Q -> Alert.severity alert = "high")
          /\ ((1 # 2 <= TrustScore.score ts)%Q ->
              Alert.severity alert = "medium")
          /\ Alert.severity alert <> "low"
          /\ Alert.severity alert <> "critical"
          /\ Alert.metric_value alert = PyNum (TrustScore.score ts)
          /\ Alert.threshold alert = PyNum (TrustScore.threshold ts))
    /\ TrustScore.alert_triggered (Scenario.project_trust_score 0 (4 # 10))
       = true
    /\ trigger_trust_score_alert rt now 0
         (Scenario.with_trust_scores [Scenario.project_trust_score 0 (4 # 10)])
       = Scenario.with_trust_scores [Scenario.project_trust_score 0 (4 # 10)].
Proof.
  intros rt now trust_score_id db ts Hfind.
  split; [|split; [|split; [|split; reflexivity]]].
  - intros Htrig. unfold trigger_trust_score_alert.
    rewrite Hfind, Htrig. reflexivity.
  - intros Htrig Hmodel. unfold trigger_trust_score_alert.
    rewrite Hfind, Htrig, Hmodel. reflexivity.
  - intros Htrig Hmodel. unfold trigger_trust_score_alert.
    rewrite Hfind, Htrig. cbn [negb].
    destruct (TrustScore.model_id ts) as [m|] eqn:Em; [|contradiction].
    rewrite (trust_score_alert_validates _ m)
      by first [ reflexivity
               | cbn [Alert.severity];
                 destruct (Qltb _ _); [left | right]; reflexivity ].
    eexists. split; [reflexivity|]. split; [reflexivity|].
    cbn [Alert.alert_type Alert.status Alert.severity Alert.metric_value
         Alert.threshold].
    repeat split.
    + intros Hlt. apply Qltb_lt in Hlt. rewrite Hlt. reflexivity.
    + intros Hge. apply Qltb_ge in Hge. rewrite Hge. reflexivity.
    + destruct (Qltb _ _); discriminate.
    + destruct (Qltb _ _); discriminate.
Qed.

(** The trust score 0.4 of model "m" (threshold 0.7): one 'high' alert. *)
Lemma trigger_trust_score_alert_needs_model_witness :
  exists alert : Alert.t,
    Db.alerts (trigger_trust_score_alert (Scenario.runtime true) 100 0
                 (Scenario.with_trust_scores [Scenario.trust_score 0 (4 # 10) 0]))
    = [alert]
    /\ Alert.severity alert = "high"
    /\ Alert.metric_value alert = PyNum (4 # 10).
Proof.
  destruct (trigger_trust_score_alert_needs_model (Scenario.runtime true) 100 0
              (Scenario.with_trust_scores [Scenario.trust_score 0 (4 # 10) 0])
              (Scenario.trust_score 0 (4 # 10) 0) eq_refl)
    as (_ & _ & Hcreate & _).
  destruct (Hcreate eq_refl)
    as (alert & Halerts & _ & _ & _ & Hhigh & _ & _ & _ & Hvalue & _);
    [discriminate|].
  exists alert. split; [exact Halerts|]. split; [|exact Hvalue].
  apply Hhigh. reflexivity.
Defined.

(** ** The trend of the trust score *)

(** C7 (amended). With a previous record, the trend is 'stable' exactly when
    the absolute trend percentage is strictly below 5, 'improving' exactly
    when it is at least 5 and the percentage is positive, 'declining' exactly
    when it is at least 5 and the percentage is negative.  From 0.70 to 0.735
    the percentage is 5, which is not strictly below 5: the trend is
    'improving'; from 0.70 to 0.80 it is 100/7 and the trend is
    'improving'. *)
Theorem trend_direction_classification :
  forall (previous : TrustScore.t) (overall_score : Q),
    (fst (calculate_trend (Some previous) overall_score) = "stable"
     <-> (Qabs (snd (calculate_trend (Some previous) overall_score)) < 5)%Q)
    /\ (fst (calculate_trend (Some previous) overall_score) = "improving"
        <-> (5 <= Qabs (snd (calculate_trend (Some previous) overall_score))
             /\ 0 < snd (calculate_trend (Some previous) overall_score))%Q)
    /\ (fst (calculate_trend (Some previous) overall_score) = "declining"
        <-> (5 <= Qabs (snd (calculate_trend (Some previous) overall_score))
             /\ snd (calculate_trend (Some previous) overall_score) < 0)%Q)
    /\ fst (calculate_trend (Some (Scenario.trust_score 0 (70 # 100) 0))
              (735 # 1000)) = "improving"
    /\ (snd (calculate_trend (Some (Scenario.trust_score 0 (70 # 100) 0))
               (735 # 1000)) == 5)%Q
    /\ fst (calculate_trend (Some (Scenario.trust_score 0 (70 # 100) 0))
              (80 # 100)) = "improving"
    /\ (snd (calculate_trend (Some (Scenario.trust_score 0 (70 # 100) 0))
               (80 # 100)) == 100 # 7)%Q.
Proof.
  intros previous overall_score.
  split; [|split; [|split; [|repeat split; vm_compute; reflexivity]]].
  all: unfold calculate_trend;
    set (tp := if Qltb 0 (TrustScore.score previous)
               then ((overall_score - TrustScore.score previous)
                     / TrustScore.score previous * 100)%Q
               else 0%Q);
    destruct (Qltb (Qabs tp) 5) eqn:Eabs; cbn [fst snd];
    [apply Qltb_lt in Eabs | apply Qltb_ge in Eabs;
       destruct (Qltb 0 tp) eqn:Epos; cbn [fst snd];
       [apply Qltb_lt in Epos | apply Qltb_ge in Epos]].
  - tauto.
  - split; [discriminate|]. intros H. exfalso. exact (Qlt_not_le _ _ H Eabs).
  - split; [discriminate|]. intros H. exfalso. exact (Qlt_not_le _ _ H Eabs).
  - split; [discriminate|]. intros [H _]. exfalso. exact (Qlt_not_le _ _ Eabs H).
  - tauto.
  - split; [discriminate|]. intros [_ H]. exfalso. exact (Qlt_not_le _ _ H Epos).
  - split; [discriminate|]. intros [H _]. exfalso. exact (Qlt_not_le _ _ Eabs H).
  - split; [discriminate|]. intros [_ H]. exfalso.
    exact (Qlt_irrefl _ (Qlt_trans _ _ _ H Epos)).
  - split; [|reflexivity]. intros _. split; [exact Eabs|].
    apply Qle_lt_or_eq in Epos. destruct Epos as [Hneg|Hzero]; [exact Hneg|].
    exfalso. rewrite Hzero in Eabs. revert Eabs. cbn. intros Eabs.
    apply (Qlt_not_le 0 5); [reflexivity | exact Eabs].
Qed.

(** C7, as stated, fails at its own example: from 0.70 to 0.735 the trend is
    not 'stable'.  The same holds when the percentage is computed in IEEE
    binary64 (5.000000000000004). *)
Lemma trend_boundary_not_stable :
  fst (calculate_trend (Some (Scenario.trust_score 0 (70 # 100) 0))
         (735 # 1000)) = "improving"
  /\ fst (calculate_trend (Some (Scenario.trust_score 0 (70 # 100) 0))
            (735 # 1000)) <> "stable"
  /\ PrimFloat.ltb
       (PrimFloat.abs
          (trend_percentage_binary64 0x1.7851eb851eb85p-1
             0x1.6666666666666p-1)) 5
     = false
  /\ PrimFloat.ltb 0
       (trend_percentage_binary64 0x1.7851eb851eb85p-1 0x1.6666666666666p-1)
     = true.
Proof.
  repeat split; try (vm_compute; reflexivity). vm_compute. discriminate.
Qed.

(** C4.  The trust score is never compared with the immediately preceding
    record.  The task does not reach its trend block: the configuration
    lookup before it raises, and on the stored record 0.5 with evaluations
    that give 0.8 nothing is stored, so no trend percentage exists.  The
    block itself, lines 370 to 388, misses the preceding record as well: its
    query skips one record before the new one is saved.  With one stored
    record (0.5) it finds none, and the statements below the lookup give
    percentage 0 and 'stable' where the formula against the preceding record
    gives 60; with two stored records (latest 0.5, older 0.4) it finds the
    older one and they give 100 instead of 60.  In general, when the scope's
    records are [latest :: rest], the record it finds is the head of
    [rest]. *)
Theorem trend_skips_latest_record :
  calculate_trust_score Scenario.all_components_08 100 "p" (Some "m")
    (Scenario.with_trust_scores [Scenario.trust_score 0 (1 # 2) 0])
  = Scenario.with_trust_scores [Scenario.trust_score 0 (1 # 2) 0]
  /\ previous_trust_score "p" (Some "m")
       (Scenario.with_trust_scores [Scenario.trust_score 0 (1 # 2) 0])
     = None
  /\ (exists new latest : TrustScore.t,
         Db.trust_scores
           (store_trust_score Scenario.all_components_08 100 "p" (Some "m")
              None
              (Scenario.with_trust_scores [Scenario.trust_score 0 (1 # 2) 0]))
         = [new; latest]
         /\ (TrustScore.score new == 8 # 10)%Q
         /\ (TrustScore.score latest == 1 # 2)%Q
         /\ (TrustScore.trend_percentage new == 0)%Q
         /\ TrustScore.trend_direction new = "stable"
         /\ ((TrustScore.score new - TrustScore.score latest)
             / TrustScore.score latest * 100 == 60)%Q)
  /\ previous_trust_score "p" (Some "m")
       (Scenario.with_trust_scores
          [Scenario.trust_score 1 (1 # 2) 50;
           Scenario.trust_score 0 (4 # 10) 0])
     = Some (Scenario.trust_score 0 (4 # 10) 0)
  /\ (exists new latest older : TrustScore.t,
         Db.trust_scores
           (store_trust_score Scenario.all_components_08 100 "p" (Some "m")
              None
              (Scenario.with_trust_scores
                 [Scenario.trust_score 1 (1 # 2) 50;
                  Scenario.trust_score 0 (4 # 10) 0]))
         = [new; latest; older]
         /\ (TrustScore.score new == 8 # 10)%Q
         /\ (TrustScore.score latest == 1 # 2)%Q
         /\ (TrustScore.score older == 4 # 10)%Q
         /\ (TrustScore.trend_percentage new == 100)%Q
         /\ TrustScore.trend_direction new = "improving"
         /\ ((TrustScore.score new - TrustScore.score latest)
             / TrustScore.score latest * 100 == 60)%Q)
  /\ (forall (project_id : string) (model_id : option string) (db : Db.t)
             (latest : TrustScore.t) (rest : list TrustScore.t),
         List.filter
           (fun s => String.eqb (TrustScore.project_id s) project_id
                     && same_model (TrustScore.model_id s) model_id)
           (Db.trust_scores db)
         = latest :: rest ->
         previous_trust_score project_id model_id db = hd_error rest).
Proof.
  split; [reflexivity|]. split; [reflexivity|]. split; [|split; [|split]].
  - eexists; eexists; split; [vm_compute; reflexivity|].
    repeat split; vm_compute; reflexivity.
  - reflexivity.
  - eexists; eexists; eexists; split; [vm_compute; reflexivity|].
    repeat split; vm_compute; reflexivity.
  - intros project_id model_id db latest rest Hscope.
    unfold previous_trust_score. rewrite Hscope.
    destruct rest; reflexivity.
Qed.

(** ** Notification retries *)

Lemma failing_email_attempt (now : Z) (db : Db.t) (alert : Alert.t) :
  find (fun a => Nat.eqb (Alert.id a) 0) (Db.alerts db) = Some alert ->
  send_alert_notification (Scenario.runtime false) now 0 Scenario.email db
  = (Db.enqueue [SendAlertNotification 0 Scenario.email 120]
       (Db.insert_notification
          {| AlertNotification.alert_id := 0;
             AlertNotification.channel_type := "email";
             AlertNotification.recipient := "ops@example.com";
             AlertNotification.status := "retry";
             AlertNotification.sent_at := None;
             AlertNotification.error_message :=
               Some "Failed to send notification";
             AlertNotification.retry_count := 1;
             AlertNotification.max_retries := 3 |} db),
     Done).
Proof.
  intros Hfind. unfold send_alert_notification. rewrite Hfind. reflexivity.
Qed.

(** C3.  Every call of [send_alert_notification] starts a new notification
    record with [retry_count = 0], so a delivery that keeps failing is never
    exhausted: whatever the number [n] of retries already run after the first
    failed attempt, the next attempt is scheduled, always 120 seconds ahead,
    and each of the [n + 1] records ends as 'retry' with [retry_count = 1];
    none is 'failed' and none reaches [max_retries = 3]. *)
Theorem failed_delivery_is_rescheduled_forever :
  forall n : nat,
    Db.queue
      (snd (Nat.iter n (run_scheduled_delivery (Scenario.runtime false))
              (0%Z,
               fst (send_alert_notification (Scenario.runtime false) 0 0
                      Scenario.email
                      (Scenario.with_alerts [Scenario.alert 0 "high"])))))
    = [SendAlertNotification 0 Scenario.email 120]
    /\ length
         (Db.alert_notifications
            (snd (Nat.iter n (run_scheduled_delivery (Scenario.runtime false))
                    (0%Z,
                     fst (send_alert_notification (Scenario.runtime false) 0 0
                            Scenario.email
                            (Scenario.with_alerts [Scenario.alert 0 "high"]))))))
       = S n
    /\ Forall
         (fun x => AlertNotification.status x = "retry"
                   /\ AlertNotification.retry_count x = 1%Z
                   /\ AlertNotification.max_retries x = 3%Z)
         (Db.alert_notifications
            (snd (Nat.iter n (run_scheduled_delivery (Scenario.runtime false))
                    (0%Z,
                     fst (send_alert_notification (Scenario.runtime false) 0 0
                            Scenario.email
                            (Scenario.with_alerts [Scenario.alert 0 "high"]))))))
    /\ fst (Nat.iter n (run_scheduled_delivery (Scenario.runtime false))
              (0%Z,
               fst (send_alert_notification (Scenario.runtime false) 0 0
                      Scenario.email
                      (Scenario.with_alerts [Scenario.alert 0 "high"]))))
       = (120 * Z.of_nat n)%Z.
Proof.
  intros n.
  set (start := fst (send_alert_notification (Scenario.runtime false) 0 0
                       Scenario.email
                       (Scenario.with_alerts [Scenario.alert 0 "high"]))).
  cut (let st := Nat.iter n (run_scheduled_delivery (Scenario.runtime false))
                   (0%Z, start) in
       Db.alerts (snd st) = [Scenario.alert 0 "high"]
       /\ Db.queue (snd st) = [SendAlertNotification 0 Scenario.email 120]
       /\ length (Db.alert_notifications (snd st)) = S n
       /\ Forall (fun x => AlertNotification.status x = "retry"
                           /\ AlertNotification.retry_count x = 1%Z
                           /\ AlertNotification.max_retries x = 3%Z)
                 (Db.alert_notifications (snd st))
       /\ fst st = (120 * Z.of_nat n)%Z).
  { cbv zeta. tauto. }
  induction n as [|n IH].
  - cbn [Nat.iter]. subst start.
    rewrite (@failing_email_attempt 0
               (Scenario.with_alerts [Scenario.alert 0 "high"])
               (Scenario.alert 0 "high") eq_refl).
    cbn. repeat split. constructor; [tauto | constructor].
  - rewrite Nat.iter_succ.
    destruct (Nat.iter n _ _) as [clock db].
    cbv zeta in IH. cbn [fst snd] in IH.
    destruct IH as (Halerts & Hqueue & Hlen & Hall & Hclock).
    cbv zeta. unfold run_scheduled_delivery. rewrite Hqueue.
    rewrite (@failing_email_attempt (clock + 120) (Db.with_queue [] db)
               (Scenario.alert 0 "high"))
      by (cbn [Db.with_queue Db.alerts]; rewrite Halerts; reflexivity).
    cbn [fst snd Db.enqueue Db.insert_notification Db.with_queue Db.alerts
         Db.queue Db.alert_notifications app length].
    repeat split; try assumption.
    + f_equal. exact Hlen.
    + constructor; [cbn; tauto | exact Hall].
    + lia.
Qed.

(** ** Primary keys *)

Lemma find_id_absent (p : Alert.t -> bool) (n : nat) (l : list Alert.t) :
  ~ In n (map Alert.id l) ->
  find (fun a => Nat.eqb (Alert.id a) n) (List.filter p l) = None.
Proof.
  induction l as [|y l IH]; intros Hnot; [reflexivity|].
  cbn in Hnot. cbn [List.filter].
  assert (Hy : Nat.eqb (Alert.id y) n = false)
    by (apply Nat.eqb_neq; tauto).
  destruct (p y); cbn [find]; [rewrite Hy|]; apply IH; tauto.
Qed.

Lemma find_id_filter (p : Alert.t -> bool) (l : list Alert.t) (x : Alert.t) :
  unique_ids l -> In x l ->
  find (fun a => Nat.eqb (Alert.id a) (Alert.id x)) (List.filter p l)
  = if p x then Some x else None.
Proof.
  unfold unique_ids.
  induction l as [|y l IH]; intros Hnd Hin; [destruct Hin|].
  cbn [map] in Hnd. inversion Hnd as [|? ? Hfresh Hnd']; subst.
  cbn [List.filter]. destruct Hin as [->|Hin].
  - destruct (p x) eqn:Hp.
    + cbn [find]. rewrite Nat.eqb_refl. reflexivity.
    + apply find_id_absent. exact Hfresh.
  - assert (Hne : Nat.eqb (Alert.id y) (Alert.id x) = false).
    { apply Nat.eqb_neq. intros E. apply Hfresh. rewrite E.
      apply in_map. exact Hin. }
    destruct (p y); cbn [find]; [rewrite Hne|]; apply IH; assumption.
Qed.

Lemma find_id_self (l : list Alert.t) (x : Alert.t) :
  unique_ids l -> In x l ->
  find (fun a => Nat.eqb (Alert.id a) (Alert.id x)) l = Some x.
Proof.
  intros Hnd Hin.
  pose proof (find_id_filter (fun _ => true) l x Hnd Hin) as H.
  cbn in H. replace (List.filter (fun _ => true) l) with l in H; [exact H|].
  clear. induction l as [|y l IH]; cbn; congruence.
Qed.

Lemma save_alert_ids (a : Alert.t) (l : list Alert.t) :
  map Alert.id (save_alert a l) = map Alert.id l.
Proof.
  unfold save_alert. rewrite map_map. apply map_ext_in. intros x _.
  destruct (Nat.eqb (Alert.id x) (Alert.id a)) eqn:E; [|reflexivity].
  apply Nat.eqb_eq in E. congruence.
Qed.

(** ** Escalation *)

Lemma sweep_step_eq (now : Z) (d : Db.t) (a : Alert.t) :
  sweep_step now d a
  = if escalates now a
    then Db.enqueue [ProcessAlertNotifications (Alert.id a)]
           (Db.with_alerts (save_alert (escalated a) (Db.alerts d)) d)
    else d.
Proof.
  unfold sweep_step, escalates, escalate_alert, escalated.
  destruct (should_escalate_alert now a); cbn [andb]; [|reflexivity].
  destruct (String.eqb (Alert.severity a) "high"); reflexivity.
Qed.

Lemma sweep_fold (now : Z) (l : list Alert.t) :
  List.NoDup (map Alert.id l) ->
  forall d : Db.t,
    Db.alerts (fold_left (sweep_step now) l d)
    = map (fun x =>
             match find (fun a => Nat.eqb (Alert.id a) (Alert.id x)) l with
             | Some a => if escalates now a then escalated a else x
             | None => x
             end)
          (Db.alerts d)
    /\ Db.queue (fold_left (sweep_step now) l d)
       = Db.queue d
         ++ map (fun a => ProcessAlertNotifications (Alert.id a))
              (List.filter (escalates now) l).
Proof.
  induction l as [|a l IH]; intros Hnd d.
  - cbn. rewrite map_id, app_nil_r. split; reflexivity.
  - cbn [map] in Hnd. inversion Hnd as [|? ? Hfresh Hnd']; subst.
    cbn [fold_left]. destruct (IH Hnd' (sweep_step now d a)) as [Ha Hq].
    rewrite Ha, Hq, sweep_step_eq. clear Ha Hq IH.
    assert (Hnone : find (fun b => Nat.eqb (Alert.id b) (Alert.id a)) l = None).
    { pose proof (@find_id_absent (fun _ => true) (Alert.id a) l Hfresh) as H.
      replace (List.filter (fun _ => true) l) with l in H; [exact H|].
      clear. induction l as [|y l IH]; cbn; congruence. }
    cbn [List.filter find]. destruct (escalates now a) eqn:Hesc.
    + cbn [Db.alerts Db.queue Db.enqueue Db.with_alerts map].
      split.
      * unfold save_alert. rewrite map_map. apply map_ext. intros x.
        change (Alert.id (escalated a)) with (Alert.id a).
        rewrite (Nat.eqb_sym (Alert.id a) (Alert.id x)).
        destruct (Nat.eqb (Alert.id x) (Alert.id a)) eqn:E; [|reflexivity].
        change (Alert.id (escalated a)) with (Alert.id a).
        rewrite Hnone, Hesc. reflexivity.
      * rewrite <- app_assoc. reflexivity.
    + split; [|reflexivity].
      apply map_ext. intros x.
      destruct (Nat.eqb (Alert.id a) (Alert.id x)) eqn:E; [|reflexivity].
      apply Nat.eqb_eq in E. rewrite <- E, Hnone, Hesc. reflexivity.
Qed.

(** The sweep, alert by alert. *)
Lemma check_alert_escalations_spec (now : Z) (db : Db.t) :
  unique_ids (Db.alerts db) ->
  Db.alerts (check_alert_escalations now db)
  = map (fun x => if escalation_candidate now x && escalates now x
                  then escalated x else x)
        (Db.alerts db)
  /\ Db.queue (check_alert_escalations now db)
     = Db.queue db
       ++ map (fun a => ProcessAlertNotifications (Alert.id a))
            (List.filter (escalates now)
               (List.filter (escalation_candidate now) (Db.alerts db))).
Proof.
  intros Hnd. unfold check_alert_escalations.
  change (fun d alert => if should_escalate_alert now alert
                         then escalate_alert alert d else d)
    with (sweep_step now).
  assert (Hnd' : List.NoDup (map Alert.id
                          (List.filter (escalation_candidate now) (Db.alerts db)))).
  { revert Hnd. unfold unique_ids.
    induction (Db.alerts db) as [|y l IH]; intros Hnd; [constructor|].
    cbn [map] in Hnd. inversion Hnd as [|? ? Hfresh Hnd']; subst.
    cbn [List.filter]. destruct (escalation_candidate now y); [|auto].
    cbn [map]. constructor; [|auto].
    intros Hin. apply Hfresh. apply in_map_iff in Hin.
    destruct Hin as (z & Hz & Hin). apply filter_In in Hin.
    rewrite <- Hz. apply in_map. tauto. }
  destruct (sweep_fold now _ Hnd' db) as [Ha Hq].
  split; [|exact Hq].
  rewrite Ha. apply map_ext_in. intros x Hin.
  rewrite (find_id_filter (escalation_candidate now) _ x Hnd Hin).
  destruct (escalation_candidate now x); reflexivity.
Qed.

(** C5.  In the escalation sweep, for an alert that is active and not
    suppressed: if it is 'high' and was created more than 60 minutes ago, its
    stored version becomes 'critical', its title gets the "[ESCALATED] "
    prefix, its description gets the note appended, and its notifications are
    queued again; if it is 'critical' and was created more than 30 minutes
    ago, it is selected and found escalatable, yet it stays in the collection
    exactly as it was and nothing is queued for it. *)
Theorem escalation_sweep_only_mutates_high :
  forall (now : Z) (db : Db.t) (a : Alert.t),
    unique_ids (Db.alerts db) ->
    In a (Db.alerts db) ->
    Alert.status a = "active" ->
    Alert.is_suppressed a = false ->
    map Alert.id (Db.alerts (check_alert_escalations now db))
    = map Alert.id (Db.alerts db)
    /\ (Alert.severity a = "high" ->
        (Alert.created_at a + minutes 60 < now)%Z ->
        In (escalated a) (Db.alerts (check_alert_escalations now db))
        /\ Alert.severity (escalated a) = "critical"
        /\ Alert.title (escalated a) = "[ESCALATED] " +:+ Alert.title a
        /\ Alert.description (escalated a)
           = Alert.description a +:+ escalation_note
        /\ In (ProcessAlertNotifications (Alert.id a))
              (Db.queue (check_alert_escalations now db)))
    /\ (Alert.severity a = "critical" ->
        (Alert.created_at a < now - minutes 30)%Z ->
        escalation_candidate now a = true
        /\ should_escalate_alert now a = true
        /\ In a (Db.alerts (check_alert_escalations now db))
        /\ (~ In (ProcessAlertNotifications (Alert.id a)) (Db.queue db) ->
            ~ In (ProcessAlertNotifications (Alert.id a))
                 (Db.queue (check_alert_escalations now db)))).
Proof.
  intros now db a Hnd Hin Hactive Hsupp.
  destruct (check_alert_escalations_spec now db Hnd) as [Ha Hq].
  split; [|split].
  - rewrite Ha, map_map. apply map_ext. intros x.
    destruct (_ && _); reflexivity.
  - intros Hhigh Hold.
    assert (Hcand : escalation_candidate now a = true).
    { unfold escalation_candidate. rewrite Hactive, Hsupp. cbn.
      apply Z.ltb_lt. unfold minutes in *. lia. }
    assert (Hesc : escalates now a = true).
    { unfold escalates, should_escalate_alert. rewrite Hhigh. cbn.
      rewrite andb_true_r. apply Z.ltb_lt. unfold minutes, hours in *. lia. }
    split; [|repeat split].
    + rewrite Ha. apply in_map_iff. exists a.
      rewrite Hcand, Hesc. split; [reflexivity | exact Hin].
    + rewrite Hq. apply in_or_app. right.
      apply in_map_iff. exists a. split; [reflexivity|].
      apply filter_In. split; [|exact Hesc].
      apply filter_In. split; assumption.
  - intros Hcrit Hold.
    assert (Hcand : escalation_candidate now a = true).
    { unfold escalation_candidate. rewrite Hactive, Hsupp. cbn.
      apply Z.ltb_lt. exact Hold. }
    assert (Hshould : should_escalate_alert now a = true).
    { unfold should_escalate_alert. rewrite Hcrit. cbn.
      apply Z.ltb_lt. unfold minutes in *. lia. }
    assert (Hesc : forall b, Alert.id b = Alert.id a -> In b (Db.alerts db) ->
                             escalates now b = false).
    { intros b Hid Hb.
      assert (b = a) as ->.
      { pose proof (find_id_self _ b Hnd Hb) as H1.
        pose proof (find_id_self _ a Hnd Hin) as H2.
        rewrite Hid in H1. congruence. }
      unfold escalates. rewrite Hcrit. cbn. apply andb_false_r. }
    repeat split; try assumption.
    + rewrite Ha. apply in_map_iff. exists a.
      rewrite (Hesc a eq_refl Hin), andb_false_r. split; [reflexivity|exact Hin].
    + intros Hfresh Hqueued. rewrite Hq in Hqueued.
      apply in_app_or in Hqueued. destruct Hqueued as [H|H]; [tauto|].
      apply in_map_iff in H. destruct H as (b & Hb & Hbin).
      apply filter_In in Hbin. destruct Hbin as [Hbin Hbesc].
      apply filter_In in Hbin. destruct Hbin as [Hbin _].
      inversion Hb as [Hid].
      rewrite (Hesc b Hid Hbin) in Hbesc. discriminate.
Qed.

(** The sweep 61 minutes after a 'high' and a 'critical' alert were created:
    the first is escalated, the second stays as it was. *)
Lemma escalation_sweep_only_mutates_high_witness :
  In (escalated (Scenario.alert 0 "high"))
     (Db.alerts
        (check_alert_escalations 3660
           (Scenario.with_alerts
              [Scenario.alert 1 "critical"; Scenario.alert 0 "high"])))
  /\ In (Scenario.alert 1 "critical")
        (Db.alerts
           (check_alert_escalations 3660
              (Scenario.with_alerts
                 [Scenario.alert 1 "critical"; Scenario.alert 0 "high"]))).
Proof.
  assert (Hnd : unique_ids
                  (Db.alerts
                     (Scenario.with_alerts
                        [Scenario.alert 1 "critical"; Scenario.alert 0 "high"]))).
  { unfold unique_ids. cbn. constructor; [|constructor; [intros []|constructor]].
    cbn. intros [H|[]]. discriminate H. }
  split.
  - refine (proj1 (proj1 (proj2
             (escalation_sweep_only_mutates_high 3660
                (Scenario.with_alerts
                   [Scenario.alert 1 "critical"; Scenario.alert 0 "high"])
                (Scenario.alert 0 "high") Hnd _ eq_refl eq_refl)) eq_refl _)).
    + cbn. tauto.
    + reflexivity.
  - refine (proj1 (proj2 (proj2 (proj2 (proj2
             (escalation_sweep_only_mutates_high 3660
                (Scenario.with_alerts
                   [Scenario.alert 1 "critical"; Scenario.alert 0 "high"])
                (Scenario.alert 1 "critical") Hnd _ eq_refl eq_refl))
             eq_refl _)))).
    + cbn. tauto.
    + reflexivity.
Defined.

(** ** The rule engine *)

Lemma process_rule_conditions_ends (rt : Runtime.t) (now : Z)
    (rule : AlertRuleConfig.t) (metrics : gmap string PyVal)
    (conditions : list RuleCondition.t) (st : Db.t * list nat) :
  process_rule_conditions rt now rule metrics conditions st
  = (st, match conditions with
         | [] => Returned
         | _ :: _ => Raised AttributeError
         end).
Proof. destruct conditions; reflexivity. Qed.

(** A call of [process_single_alert_rule]: the state it leaves and how it
    ends. *)
Lemma call_process_single_alert_rule_eq (rt : Runtime.t) (src : Sources.t)
    (now : Z) (rule : AlertRuleConfig.t) (db : Db.t) :
  call_process_single_alert_rule rt src now rule db
  = ((rule, db),
     if in_cooldown now rule then Returned
     else if Nat.eqb
               (size (get_metrics_for_alert_type src db
                        (AlertRuleConfig.alert_type rule)
                        (AlertRuleConfig.project_id rule)
                        (AlertRuleConfig.model_id rule))) 0
     then Returned
     else match AlertRuleConfig.rules rule with
          | [] => Returned
          | _ :: _ => Raised AttributeError
          end).
Proof.
  unfold call_process_single_alert_rule.
  destruct (in_cooldown now rule); [reflexivity|].
  cbv zeta. destruct (Nat.eqb _ 0); [reflexivity|].
  rewrite process_rule_conditions_ends.
  destruct (AlertRuleConfig.rules rule); reflexivity.
Qed.

Lemma process_single_alert_rule_unchanged (rt : Runtime.t) (src : Sources.t)
    (now : Z) (rule : AlertRuleConfig.t) (db : Db.t) :
  process_single_alert_rule rt src now rule db = (rule, db).
Proof.
  unfold process_single_alert_rule.
  rewrite call_process_single_alert_rule_eq. reflexivity.
Qed.

Lemma same_model_refl (m : option string) : same_model m m = true.
Proof. destruct m as [s|]; [apply String.eqb_refl | reflexivity]. Qed.


(** C2.  The invariant does not hold on the trust-score path.  For the trust
    score of a model with [alert_triggered], every call of
    [trigger_trust_score_alert] stores one more active alert of the tuple
    (project, model, 'trust_score', no rule name): the path has no lookup of
    an existing alert, where the rule path has one.  From a collection with
    at most one active alert per tuple, the calls for two trust scores of
    model "m" (0.45, then 0.4) leave two.  The rule path never comes to its
    lookup: a call of [process_single_alert_rule] leaves every alert as it
    was. *)
Theorem trust_score_alerts_pile_up :
  (forall (rt : Runtime.t) (now : Z) (trust_score_id : nat) (db : Db.t)
          (ts : TrustScore.t) (m : string),
      find (fun s => Nat.eqb (TrustScore.id s) trust_score_id)
           (Db.trust_scores db) = Some ts ->
      TrustScore.alert_triggered ts = true ->
      TrustScore.model_id ts = Some m ->
      length
        (List.filter
           (active_with (TrustScore.project_id ts) (Some m) "trust_score" None)
           (Db.alerts (trigger_trust_score_alert rt now trust_score_id db)))
      = S (length
             (List.filter
                (active_with (TrustScore.project_id ts) (Some m) "trust_score"
                   None)
                (Db.alerts db))))
  /\ at_most_one_active
       (Db.alerts
          (Scenario.with_trust_scores
             [Scenario.trust_score 1 (4 # 10) 50;
              Scenario.trust_score 0 (45 # 100) 0]))
  /\ length
       (List.filter (active_with "p" (Some "m") "trust_score" None)
          (Db.alerts
             (trigger_trust_score_alert (Scenario.runtime true) 60 1
                (trigger_trust_score_alert (Scenario.runtime true) 10 0
                   (Scenario.with_trust_scores
                      [Scenario.trust_score 1 (4 # 10) 50;
                       Scenario.trust_score 0 (45 # 100) 0])))))
     = 2%nat
  /\ ~ at_most_one_active
         (Db.alerts
            (trigger_trust_score_alert (Scenario.runtime true) 60 1
               (trigger_trust_score_alert (Scenario.runtime true) 10 0
                  (Scenario.with_trust_scores
                     [Scenario.trust_score 1 (4 # 10) 50;
                      Scenario.trust_score 0 (45 # 100) 0]))))
  /\ (forall (rt : Runtime.t) (src : Sources.t) (now : Z)
             (rule : AlertRuleConfig.t) (db : Db.t),
         Db.alerts (snd (process_single_alert_rule rt src now rule db))
         = Db.alerts db).
Proof.
  split; [|split; [|split; [|split]]].
  - intros rt now trust_score_id db ts m Hfind Htrig Hmodel.
    unfold trigger_trust_score_alert. rewrite Hfind, Htrig. cbn [negb].
    rewrite (trust_score_alert_validates _ m)
      by first [ exact Hmodel | reflexivity
               | cbn [Alert.severity];
                 destruct (Qltb _ _); [left | right]; reflexivity ].
    cbn [Db.alerts Db.enqueue Db.insert_alert List.filter].
    unfold active_with at 1.
    cbn [Alert.project_id Alert.model_id Alert.alert_type Alert.status
         Alert.rule_name].
    rewrite Hmodel, String.eqb_refl, same_model_refl.
    reflexivity.
  - intros p m ty rn. cbn. lia.
  - vm_compute. reflexivity.
  - intros H. specialize (H "p" (Some "m") "trust_score" None).
    vm_compute in H. lia.
  - intros rt src now rule db.
    rewrite process_single_alert_rule_unchanged. reflexivity.
Qed.

(** ** Rules that find no metrics *)

Lemma metrics_empty_returns (rt : Runtime.t) (src : Sources.t) (now : Z)
    (rule : AlertRuleConfig.t) (db : Db.t) :
  get_metrics_for_alert_type src db (AlertRuleConfig.alert_type rule)
    (AlertRuleConfig.project_id rule) (AlertRuleConfig.model_id rule) = ∅ ->
  call_process_single_alert_rule rt src now rule db = ((rule, db), Returned).
Proof.
  intros Hempty. rewrite call_process_single_alert_rule_eq, Hempty.
  destruct (in_cooldown now rule); reflexivity.
Qed.


Lemma metrics_of_other_type (src : Sources.t) (db : Db.t)
    (alert_type project_id : string) (model_id : option string) :
  ~ In alert_type metric_sources ->
  get_metrics_for_alert_type src db alert_type project_id model_id = ∅.
Proof.
  intros Hnot. unfold get_metrics_for_alert_type, metric_sources in *.
  repeat match goal with
  | |- context [String.eqb alert_type ?s] =>
      destruct (String.eqb_spec alert_type s) as [->|_];
      [exfalso; apply Hnot; simpl; tauto|]
  end.
  reflexivity.
Qed.


(** X3.  A rule whose alert type is none of trust_score, fairness, drift,
    robustness, explainability and data_quality (the model also admits
    model_performance, system_health and custom) finds no metrics: whatever
    its conditions and the stored data, processing it creates and updates no
    alert, queues nothing and leaves [last_triggered] as it was; the call
    returns before it reads a condition. *)
Theorem rule_of_unsupported_type_never_triggers :
  forall (rt : Runtime.t) (src : Sources.t) (now : Z)
         (rule : AlertRuleConfig.t) (db : Db.t),
    ~ In (AlertRuleConfig.alert_type rule) metric_sources ->
    process_single_alert_rule rt src now rule db = (rule, db)
    /\ call_process_single_alert_rule rt src now rule db
       = ((rule, db), Returned).
Proof.
  intros rt src now rule db Hnot.
  split; [apply process_single_alert_rule_unchanged|].
  apply metrics_empty_returns, metrics_of_other_type, Hnot.
Qed.

(** A rule of type 'custom' is never evaluated, even with a fairness score
    of 0.4 stored. *)
Lemma rule_of_unsupported_type_never_triggers_witness :
  process_single_alert_rule (Scenario.runtime true) Scenario.low_fairness 0
    (Scenario.typed_rule "custom" "fairness_score") (Scenario.with_alerts [])
  = (Scenario.typed_rule "custom" "fairness_score", Scenario.with_alerts []).
Proof.
  refine (proj1 (rule_of_unsupported_type_never_triggers
                   (Scenario.runtime true) Scenario.low_fairness 0
                   (Scenario.typed_rule "custom" "fairness_score")
                   (Scenario.with_alerts []) _)).
  cbn. intuition discriminate.
Defined.


Lemma metrics_of_evaluation_type (src : Sources.t) (db : Db.t)
    (alert_type project_id : string) (model_id : option string)
    (key : string) (collection : list Evaluation.t) :
  evaluations_of src alert_type = Some (key, collection) ->
  get_metrics_for_alert_type src db alert_type project_id model_id
  = score_metric key (latest_completed collection project_id model_id).
Proof.
  unfold evaluations_of, get_metrics_for_alert_type.
  destruct (String.eqb_spec alert_type "trust_score") as [->|_];
    [cbn; discriminate|].
  repeat match goal with
  | |- context [String.eqb alert_type ?s] =>
      destruct (String.eqb alert_type s);
      [intros E; inversion E; subst; reflexivity|]
  end.
  discriminate.
Qed.


(** X4.  A rule of an evaluation alert type (fairness, drift, robustness,
    explainability) sees one metric only, the overall score of the latest
    completed evaluation of its scope: it does nothing (no alert created or
    updated, nothing queued, [last_triggered] kept) when none of its
    conditions names that metric, and when no completed evaluation exists
    for its project and model; in the latter case the call returns before it
    reads a condition.  The statements that evaluate a condition pass over
    one that names another metric. *)
Theorem evaluation_rule_needs_its_metric :
  forall (rt : Runtime.t) (src : Sources.t) (now : Z)
         (rule : AlertRuleConfig.t) (db : Db.t) (key : string)
         (collection : list Evaluation.t),
    evaluations_of src (AlertRuleConfig.alert_type rule)
    = Some (key, collection) ->
    ((forall c, In c (AlertRuleConfig.rules rule) ->
                RuleCondition.metric_name c <> Some key) ->
     process_single_alert_rule rt src now rule db = (rule, db))
    /\ (latest_completed collection (AlertRuleConfig.project_id rule)
          (AlertRuleConfig.model_id rule) = None ->
        process_single_alert_rule rt src now rule db = (rule, db))
    /\ (latest_completed collection (AlertRuleConfig.project_id rule)
          (AlertRuleConfig.model_id rule) = None ->
        call_process_single_alert_rule rt src now rule db
        = ((rule, db), Returned))
    /\ (forall (c : RuleCondition.t) (st : Db.t * list nat)
               (severity : string),
           RuleCondition.metric_name c <> Some key ->
           evaluate_rule_condition rt now rule
             (get_metrics_for_alert_type src db
                (AlertRuleConfig.alert_type rule)
                (AlertRuleConfig.project_id rule)
                (AlertRuleConfig.model_id rule))
             st (RuleCondition.metric_name c) (RuleCondition.operator c)
             (RuleCondition.threshold c) severity
           = inl st).
Proof.
  intros rt src now rule db key collection Htype.
  pose proof (metrics_of_evaluation_type src db _
                (AlertRuleConfig.project_id rule)
                (AlertRuleConfig.model_id rule) _ _ Htype) as Hmetrics.
  split; [|split; [|split]].
  - intros _. apply process_single_alert_rule_unchanged.
  - intros _. apply process_single_alert_rule_unchanged.
  - intros Hnone. apply metrics_empty_returns.
    rewrite Hmetrics, Hnone. reflexivity.
  - intros c [d triggered] severity Hother.
    unfold evaluate_rule_condition. rewrite Hmetrics.
    destruct (RuleCondition.metric_name c) as [name|]; [|reflexivity].
    destruct (RuleCondition.operator c) as [operator|]; [|reflexivity].
    destruct (negb _); [reflexivity|].
    assert (Hlookup : score_metric key
                        (latest_completed collection
                           (AlertRuleConfig.project_id rule)
                           (AlertRuleConfig.model_id rule)) !! name = None).
    { unfold score_metric. destruct (latest_completed _ _ _);
        [|apply lookup_empty].
      rewrite lookup_insert_ne; [apply lookup_empty|].
      intros ->. apply Hother. reflexivity. }
    rewrite Hlookup. reflexivity.
Qed.

(** A drift rule of a project without a completed drift evaluation. *)
Lemma evaluation_rule_needs_its_metric_witness :
  process_single_alert_rule (Scenario.runtime true) Scenario.low_fairness 0
    (Scenario.typed_rule "drift" "drift_score") (Scenario.with_alerts [])
  = (Scenario.typed_rule "drift" "drift_score", Scenario.with_alerts []).
Proof.
  apply (proj1 (proj2 (evaluation_rule_needs_its_metric (Scenario.runtime true)
                         Scenario.low_fairness 0
                         (Scenario.typed_rule "drift" "drift_score")
                         (Scenario.with_alerts []) "drift_score" []
                         eq_refl))).
  reflexivity.
Defined.

(** ** The batch over the rules *)

(** X6.  [process_alert_rules] changes nothing: whatever rules are stored
    and selected, every rule is written back as it was, and the alerts, the
    notifications and the queue are as before.  A selected rule is in
    cooldown, finds no metrics, has no condition, or its call raises at its
    first condition, which the task logs before it goes on to the next
    rule. *)
Theorem process_alert_rules_changes_nothing :
  forall (rt : Runtime.t) (src : Sources.t) (now : Z) (project_id : string)
         (model_id : option string) (rules : list AlertRuleConfig.t)
         (db : Db.t),
    process_alert_rules rt src now project_id model_id rules db = (rules, db).
Proof.
  intros rt src now project_id model_id rules db.
  induction rules as [|rule rules IH]; [reflexivity|].
  cbn [process_alert_rules].
  rewrite process_single_alert_rule_unchanged, IH.
  destruct (selected_rule project_id model_id rule); reflexivity.
Qed.

(** ** Escalation, repeated *)


Lemma sweep_silent (now : Z) (l : list Alert.t) :
  (forall a, In a l -> escalates now a = false) ->
  forall d : Db.t, fold_left (sweep_step now) l d = d.
Proof.
  induction l as [|a l IH]; intros Hnone d; [reflexivity|].
  cbn [fold_left]. rewrite sweep_step_eq, (Hnone a) by (left; reflexivity).
  apply IH. intros b Hb. apply Hnone. right. exact Hb.
Qed.

Lemma escalated_not_escalated_again (now : Z) (a : Alert.t) :
  escalates now (escalated a) = false.
Proof. unfold escalates, escalated. cbn. apply andb_false_r. Qed.

(** X7.  Escalation happens once: a second sweep at the same time changes
    nothing, neither the alerts nor the queue.  The alerts the first sweep
    escalated are 'critical' afterwards, which the sweep selects but never
    rewrites, so the "[ESCALATED] " prefix and the note are never added
    twice. *)
Theorem escalation_sweep_is_idempotent :
  forall (now : Z) (db : Db.t),
    unique_ids (Db.alerts db) ->
    check_alert_escalations now (check_alert_escalations now db)
    = check_alert_escalations now db.
Proof.
  intros now db Hnd.
  destruct (check_alert_escalations_spec now db Hnd) as [Ha _].
  set (db1 := check_alert_escalations now db) in *.
  unfold check_alert_escalations at 1.
  change (fun d alert => if should_escalate_alert now alert
                         then escalate_alert alert d else d)
    with (sweep_step now).
  apply sweep_silent. intros y Hy.
  apply filter_In in Hy. destruct Hy as [Hy Hcand].
  rewrite Ha in Hy. apply in_map_iff in Hy. destruct Hy as (x & Hx & _).
  destruct (escalation_candidate now x && escalates now x) eqn:E.
  - subst y. apply escalated_not_escalated_again.
  - subst y. rewrite Hcand in E. exact E.
Qed.

(** Two sweeps 61 minutes after a 'high' alert was created. *)
Lemma escalation_sweep_is_idempotent_witness :
  check_alert_escalations 3660
    (check_alert_escalations 3660
       (Scenario.with_alerts [Scenario.alert 0 "high"]))
  = check_alert_escalations 3660
      (Scenario.with_alerts [Scenario.alert 0 "high"]).
Proof.
  apply (escalation_sweep_is_idempotent 3660
           (Scenario.with_alerts [Scenario.alert 0 "high"])).
  unfold unique_ids. cbn. constructor; [intros []|constructor].
Defined.


(** ** Suppression *)

(** X13.  Suppressing an alert takes it out of the escalation sweep: the
    model's [is_active] is false for it, the sweep at any later time leaves
    it stored as it is, and queues no notification for it. *)
Theorem suppressed_alert_is_never_escalated :
  forall (later : Z) (db : Db.t) (a : Alert.t),
    unique_ids (Db.alerts db) ->
    In a (Db.alerts db) ->
    AlertsModels.is_active (AlertsModels.with_is_suppressed true a) = false
    /\ In (AlertsModels.with_is_suppressed true a)
          (Db.alerts (AlertsModels.suppress a db))
    /\ In (AlertsModels.with_is_suppressed true a)
          (Db.alerts
             (check_alert_escalations later (AlertsModels.suppress a db)))
    /\ (~ In (ProcessAlertNotifications (Alert.id a)) (Db.queue db) ->
        ~ In (ProcessAlertNotifications (Alert.id a))
             (Db.queue
                (check_alert_escalations later (AlertsModels.suppress a db)))).
Proof.
  intros later db a Hnd Ha.
  assert (Hstored : In (AlertsModels.with_is_suppressed true a)
                       (Db.alerts (AlertsModels.suppress a db))).
  { cbn [AlertsModels.suppress Db.alerts Db.with_alerts]. unfold save_alert.
    apply in_map_iff. exists a.
    change (Alert.id (AlertsModels.with_is_suppressed true a))
      with (Alert.id a).
    rewrite Nat.eqb_refl. split; [reflexivity | exact Ha]. }
  split; [|split; [exact Hstored|]].
  { unfold AlertsModels.is_active. cbn. apply andb_false_r. }
  assert (Hnd' : unique_ids (Db.alerts (AlertsModels.suppress a db))).
  { unfold unique_ids.
    cbn [AlertsModels.suppress Db.alerts Db.with_alerts].
    rewrite save_alert_ids. exact Hnd. }
  destruct (check_alert_escalations_spec later _ Hnd') as [Halerts Hqueue].
  split.
  - rewrite Halerts. apply in_map_iff.
    exists (AlertsModels.with_is_suppressed true a).
    split; [|exact Hstored].
    unfold escalation_candidate. cbn [Alert.is_suppressed
      AlertsModels.with_is_suppressed negb].
    rewrite andb_false_r. reflexivity.
  - intros Hfresh Hin. rewrite Hqueue in Hin.
    apply in_app_or in Hin. destruct Hin as [Hin|Hin]; [exact (Hfresh Hin)|].
    apply in_map_iff in Hin. destruct Hin as (x & Hx & Hin).
    apply filter_In in Hin. destruct Hin as [Hin _].
    apply filter_In in Hin. destruct Hin as [Hin Hcand].
    cbn [AlertsModels.suppress Db.alerts Db.with_alerts] in Hin.
    unfold save_alert in Hin. apply in_map_iff in Hin.
    destruct Hin as (y & Hy & Hin).
    destruct (Nat.eqb_spec (Alert.id y)
                (Alert.id (AlertsModels.with_is_suppressed true a)))
      as [Hsame|Hdiff].
    + subst x. unfold escalation_candidate in Hcand.
      cbn [Alert.is_suppressed AlertsModels.with_is_suppressed negb] in Hcand.
      rewrite andb_false_r in Hcand. discriminate.
    + subst x. apply Hdiff. inversion Hx as [Hid]. exact Hid.
Qed.

(** A 'high' alert, suppressed, two hours after it was created. *)
Lemma suppressed_alert_is_never_escalated_witness :
  In (AlertsModels.with_is_suppressed true (Scenario.alert 0 "high"))
     (Db.alerts
        (check_alert_escalations 7200
           (AlertsModels.suppress (Scenario.alert 0 "high")
              (Scenario.with_alerts [Scenario.alert 0 "high"])))).
Proof.
  refine (proj1 (proj2 (proj2
            (suppressed_alert_is_never_escalated 7200
               (Scenario.with_alerts [Scenario.alert 0 "high"])
               (Scenario.alert 0 "high") _ _)))).
  - unfold unique_ids. cbn. constructor; [intros []|constructor].
  - cbn. tauto.
Defined.

(** ** Delivery, for every channel and transport *)

Lemma pending_notification_validates (alert_id : nat) (channel : Channel.t) :
  AlertNotification.validates (pending_notification alert_id channel)
  = existsb (String.eqb (Channel.channel_type channel))
      AlertNotification.channel_type_choices.
Proof.
  unfold AlertNotification.validates.
  cbn [pending_notification AlertNotification.channel_type
       AlertNotification.status].
  change (existsb (String.eqb "pending") AlertNotification.status_choices)
    with true.
  apply andb_true_r.
Qed.


(** X2.  Delivery through the in-app channel of an alert that exists always
    succeeds: the notification is recorded as 'sent' at the time of the call
    and no retry is scheduled. *)
Theorem in_app_delivery_succeeds :
  forall (rt : Runtime.t) (now : Z) (alert_id : nat)
         (config : gmap string string) (enabled : bool) (db : Db.t)
         (alert : Alert.t),
    find (fun a => Nat.eqb (Alert.id a) alert_id) (Db.alerts db) = Some alert ->
    exists notification : AlertNotification.t,
      send_alert_notification rt now alert_id
        {| Channel.channel_type := "in_app";
           Channel.config := config;
           Channel.enabled := enabled |} db
      = (Db.insert_notification notification db, Done)
      /\ AlertNotification.status notification = "sent"
      /\ AlertNotification.sent_at notification = Some now
      /\ AlertNotification.retry_count notification = 0%Z.
Proof.
  intros rt now alert_id config enabled db alert Hfind.
  unfold send_alert_notification. rewrite Hfind.
  eexists. split; [reflexivity|]. repeat split.
Qed.

(** The in-app notification of the alert of the scenario. *)
Lemma in_app_delivery_succeeds_witness :
  snd (send_alert_notification (Scenario.runtime false) 10 0
         {| Channel.channel_type := "in_app";
            Channel.config := ∅;
            Channel.enabled := true |}
         (Scenario.with_alerts [Scenario.alert 0 "high"]))
  = Done.
Proof.
  destruct (in_app_delivery_succeeds (Scenario.runtime false) 10 0 ∅ true
              (Scenario.with_alerts [Scenario.alert 0 "high"])
              (Scenario.alert 0 "high") eq_refl)
    as (notification & Hsend & _).
  rewrite Hsend. reflexivity.
Defined.


(** X8.  The outcomes of [send_alert_notification], for every transport,
    channel and database.  When the alert does not exist, and when the
    channel type is none of email, webhook, slack, teams and in_app (the
    notification is then refused when it is first saved), nothing is stored
    and the task is retried after 60 seconds.  Otherwise the call ends
    normally, leaves the alerts as they are and stores exactly one new
    notification, which is either 'sent' at the time of the call with nothing
    queued, or 'retry' with [retry_count = 1] and the same delivery queued
    again 120 seconds ahead: no call stores a 'failed' or a 'pending'
    notification. *)
Theorem send_alert_notification_outcomes :
  forall (rt : Runtime.t) (now : Z) (alert_id : nat) (channel : Channel.t)
         (db : Db.t),
    match find (fun a => Nat.eqb (Alert.id a) alert_id) (Db.alerts db) with
    | None =>
        send_alert_notification rt now alert_id channel db = (db, Retry 60)
    | Some _ =>
        if existsb (String.eqb (Channel.channel_type channel))
             AlertNotification.channel_type_choices
        then
          send_alert_notification rt now alert_id channel db
          = (Db.insert_notification
               (AlertNotification.set_sent_at now
                  (AlertNotification.set_status "sent"
                     (pending_notification alert_id channel))) db,
             Done)
          \/ send_alert_notification rt now alert_id channel db
             = (Db.enqueue [SendAlertNotification alert_id channel 120]
                  (Db.insert_notification
                     (retrying_notification alert_id channel) db),
                Done)
        else
          send_alert_notification rt now alert_id channel db = (db, Retry 60)
    end.
Proof.
  intros rt now alert_id channel db. unfold send_alert_notification.
  destruct (find _ (Db.alerts db)) as [alert|]; [|reflexivity].
  cbv zeta. rewrite pending_notification_validates.
  destruct (existsb _ AlertNotification.channel_type_choices);
    cbn [negb]; [|reflexivity].
  match goal with
  | |- context [if ?success then (Db.insert_notification _ _, Done) else _] =>
      destruct success
  end; [left; reflexivity | right; reflexivity].
Qed.

Lemma unaddressed_attempt (rt : Runtime.t) (now : Z) (alert_id : nat)
    (channel : Channel.t) (db : Db.t) (alert : Alert.t) :
  existsb (String.eqb (Channel.channel_type channel))
    AlertNotification.channel_type_choices = true ->
  addressed channel = false ->
  find (fun a => Nat.eqb (Alert.id a) alert_id) (Db.alerts db) = Some alert ->
  send_alert_notification rt now alert_id channel db
  = (Db.enqueue [SendAlertNotification alert_id channel 120]
       (Db.insert_notification (retrying_notification alert_id channel) db),
     Done).
Proof.
  intros Hknown Hno Hfind. unfold send_alert_notification. rewrite Hfind.
  cbv zeta. rewrite pending_notification_validates, Hknown. cbn [negb].
  unfold addressed in Hno.
  unfold send_email_notification, send_webhook_notification,
    send_slack_notification, send_teams_notification.
  destruct (String.eqb (Channel.channel_type channel) "email");
    [destruct (configured _ "recipient"); [discriminate | reflexivity]|].
  destruct (String.eqb (Channel.channel_type channel) "webhook");
    [destruct (configured _ "url"); [discriminate | reflexivity]|].
  destruct (String.eqb (Channel.channel_type channel) "slack");
    [destruct (configured _ "webhook_url"); [discriminate | reflexivity]|].
  destruct (String.eqb (Channel.channel_type channel) "teams");
    [destruct (configured _ "webhook_url"); [discriminate | reflexivity]|].
  rewrite Hno. reflexivity.
Qed.

(** X9.  A channel of a known type that lacks the address its sender reads
    (email without 'recipient', webhook without 'url', slack or teams
    without 'webhook_url') is retried without end, whatever the transports
    do: after the first attempt and any number [n] of scheduled retries the
    same delivery is queued again, 120 seconds ahead; the [n + 1] attempts
    have each stored one 'retry' notification with [retry_count = 1], and
    the alerts are as they were. *)
Theorem unaddressed_channel_is_retried_forever :
  forall (rt : Runtime.t) (start : Z) (alert_id : nat) (channel : Channel.t)
         (db : Db.t) (alert : Alert.t) (n : nat),
    existsb (String.eqb (Channel.channel_type channel))
      AlertNotification.channel_type_choices = true ->
    addressed channel = false ->
    find (fun a => Nat.eqb (Alert.id a) alert_id) (Db.alerts db) = Some alert ->
    Db.queue db = [] ->
    fst (after_deliveries rt start alert_id channel db n)
    = (start + 120 * Z.of_nat n)%Z
    /\ Db.queue (snd (after_deliveries rt start alert_id channel db n))
       = [SendAlertNotification alert_id channel 120]
    /\ Db.alerts (snd (after_deliveries rt start alert_id channel db n))
       = Db.alerts db
    /\ Db.alert_notifications
         (snd (after_deliveries rt start alert_id channel db n))
       = repeat (retrying_notification alert_id channel) (S n)
         ++ Db.alert_notifications db.
Proof.
  intros rt start alert_id channel db alert n Hknown Hno Hfind Hqueue.
  unfold after_deliveries. induction n as [|n IH].
  - rewrite (unaddressed_attempt rt start alert_id channel db alert Hknown Hno
               Hfind).
    unfold Nat.iter.
    cbn [nat_rect fst snd Db.queue Db.alerts Db.alert_notifications Db.enqueue
         Db.insert_notification repeat app].
    rewrite Hqueue. repeat split. cbn. lia.
  - rewrite Nat.iter_succ.
    destruct (Nat.iter n _ _) as [clock db'].
    cbn [fst snd] in IH. destruct IH as (Hclock & Hq & Halerts & Hnotes).
    unfold run_scheduled_delivery. rewrite Hq.
    rewrite (unaddressed_attempt rt (clock + 120) alert_id channel
               (Db.with_queue [] db') alert Hknown Hno)
      by (cbn [Db.with_queue Db.alerts]; rewrite Halerts; exact Hfind).
    cbn [fst snd Db.queue Db.alerts Db.alert_notifications Db.enqueue
         Db.insert_notification Db.with_queue app].
    rewrite Hnotes, Halerts. repeat split. lia.
Qed.

(** An e-mail channel without a recipient, after the first attempt and five
    retries. *)
Lemma unaddressed_channel_is_retried_forever_witness :
  Db.queue
    (snd (after_deliveries (Scenario.runtime true) 0 0
            Scenario.email_without_recipient
            (Scenario.with_alerts [Scenario.alert 0 "high"]) 5))
  = [SendAlertNotification 0 Scenario.email_without_recipient 120].
Proof.
  apply (proj1 (proj2 (unaddressed_channel_is_retried_forever
                         (Scenario.runtime true) 0 0
                         Scenario.email_without_recipient
                         (Scenario.with_alerts [Scenario.alert 0 "high"])
                         (Scenario.alert 0 "high") 5 eq_refl eq_refl eq_refl
                         eq_refl))).
Defined.

(** ** From an alert to its notifications *)

Lemma channels_of_eq (rule : option AlertRuleConfig.t) :
  channels_of rule
  = match match rule with
          | Some r => AlertRuleConfig.channels r
          | None => []
          end with
    | [] => inl [in_app_channel]
    | _ :: _ => inr AttributeError
    end.
Proof.
  unfold channels_of. destruct rule as [r|]; [|reflexivity].
  destruct (AlertRuleConfig.channels r); reflexivity.
Qed.

(** X10.  [process_alert_notifications] on an alert that exists.  When the
    alert has no rule (no rule name, or no rule of that name in its scope)
    or its rule has no channel, the task ends normally and changes only the
    queue: it queues the in-app delivery, without countdown, and the
    tracking it writes reports that one channel as 'queued'.  When its rule
    has a channel, the task raises at the first one ([c.get] on an
    [AlertChannel] document): nothing is queued, no delivery at all, no
    tracking is written and the task is retried after 60 seconds. *)
Theorem process_alert_notifications_fan_out :
  forall (rules : list AlertRuleConfig.t) (now : Z) (alert_id : nat)
         (db : Db.t) (alert : Alert.t),
    find (fun a => Nat.eqb (Alert.id a) alert_id) (Db.alerts db) = Some alert ->
    (configured_channels rules alert = [] ->
     process_alert_notifications rules now alert_id db
     = (Db.enqueue [SendAlertNotification alert_id in_app_channel 0] db,
        Some {| notifications_sent := [("in_app", "queued")];
                last_notification_at := now |},
        Done))
    /\ (configured_channels rules alert <> [] ->
        process_alert_notifications rules now alert_id db
        = (db, None, Retry 60)).
Proof.
  intros rules now alert_id db alert Hfind.
  unfold process_alert_notifications, configured_channels.
  rewrite Hfind, channels_of_eq.
  split.
  - intros ->. reflexivity.
  - intros Hsome.
    destruct (match rule_of_alert rules alert with
              | Some r => AlertRuleConfig.channels r
              | None => []
              end); [contradiction | reflexivity].
Qed.

(** The alert of the fairness rule: with the rule as stored without a
    channel, and with its e-mail channel. *)
Lemma process_alert_notifications_fan_out_witness :
  snd (process_alert_notifications [Scenario.fairness_rule None] 10 0
         (Scenario.with_alerts [Scenario.alert 0 "high"]))
  = Done
  /\ process_alert_notifications [Scenario.fairness_rule_with_email] 10 0
       (Scenario.with_alerts [Scenario.alert 0 "high"])
     = (Scenario.with_alerts [Scenario.alert 0 "high"], None, Retry 60).
Proof.
  split.
  - rewrite (proj1 (process_alert_notifications_fan_out
                      [Scenario.fairness_rule None] 10 0
                      (Scenario.with_alerts [Scenario.alert 0 "high"])
                      (Scenario.alert 0 "high") eq_refl) eq_refl).
    reflexivity.
  - refine (proj2 (process_alert_notifications_fan_out
                     [Scenario.fairness_rule_with_email] 10 0
                     (Scenario.with_alerts [Scenario.alert 0 "high"])
                     (Scenario.alert 0 "high") eq_refl) _).
    discriminate.
Defined.

(** X11.  The way of a low trust score of a model to the user.  The alert
    [trigger_trust_score_alert] creates has no rule name, so whatever rules
    are configured its notifications go to the in-app channel only, and that
    delivery succeeds whatever the transports do: the three tasks leave one
    new alert and one 'sent' in-app notification. *)
Theorem trust_score_alert_is_notified_in_app :
  forall (rt : Runtime.t) (rules : list AlertRuleConfig.t)
         (created notified delivered : Z) (trust_score_id : nat) (db : Db.t)
         (trust_score : TrustScore.t) (m : string),
    find (fun s => Nat.eqb (TrustScore.id s) trust_score_id)
         (Db.trust_scores db) = Some trust_score ->
    TrustScore.alert_triggered trust_score = true ->
    TrustScore.model_id trust_score = Some m ->
    exists (alert : Alert.t) (notification : AlertNotification.t),
      Db.alerts (trigger_trust_score_alert rt created trust_score_id db)
      = alert :: Db.alerts db
      /\ Alert.id alert = Db.next_uuid db
      /\ Db.queue
           (fst (fst (process_alert_notifications rules notified
                        (Alert.id alert)
                        (trigger_trust_score_alert rt created trust_score_id
                           db))))
         = Db.queue db
           ++ [ProcessAlertNotifications (Alert.id alert);
               SendAlertNotification (Alert.id alert) in_app_channel 0]
      /\ send_alert_notification rt delivered (Alert.id alert) in_app_channel
           (fst (fst (process_alert_notifications rules notified
                        (Alert.id alert)
                        (trigger_trust_score_alert rt created trust_score_id
                           db))))
         = (Db.insert_notification notification
              (fst (fst (process_alert_notifications rules notified
                           (Alert.id alert)
                           (trigger_trust_score_alert rt created
                              trust_score_id db)))),
            Done)
      /\ AlertNotification.alert_id notification = Alert.id alert
      /\ AlertNotification.channel_type notification = "in_app"
      /\ AlertNotification.status notification = "sent"
      /\ AlertNotification.sent_at notification = Some delivered.
Proof.
  intros rt rules created notified delivered trust_score_id db trust_score m
         Hfind Htriggered Hmodel.
  unfold trigger_trust_score_alert. rewrite Hfind, Htriggered. cbn [negb].
  rewrite (trust_score_alert_validates _ m)
    by first [ exact Hmodel | reflexivity
             | cbn [Alert.severity];
               destruct (Qltb _ _); [left | right]; reflexivity ].
  eexists. eexists. split; [reflexivity|].
  cbn [Alert.id]. split; [reflexivity|].
  unfold process_alert_notifications.
  cbn [Db.alerts Db.enqueue Db.insert_alert find Alert.id].
  rewrite Nat.eqb_refl, channels_of_eq.
  unfold rule_of_alert. cbn [Alert.rule_name truthy app
    List.filter in_app_channel Channel.enabled Channel.channel_type map fst
    Db.queue Db.enqueue].
  split; [rewrite <- app_assoc; reflexivity|].
  unfold send_alert_notification.
  cbn [Db.alerts Db.enqueue Db.insert_alert find Alert.id].
  rewrite Nat.eqb_refl.
  split; [reflexivity|]. repeat split.
Qed.

(** A trust score of 0.4 of model "m", with the fairness rule and its
    e-mail channel configured. *)
Lemma trust_score_alert_is_notified_in_app_witness :
  exists (alert : Alert.t) (notification : AlertNotification.t),
    Db.alerts
      (trigger_trust_score_alert (Scenario.runtime false) 10 0
         (Scenario.with_trust_scores [Scenario.trust_score 0 (4 # 10) 0]))
    = [alert]
    /\ AlertNotification.status notification = "sent".
Proof.
  destruct (trust_score_alert_is_notified_in_app (Scenario.runtime false)
              [Scenario.fairness_rule_with_email] 10 20 30 0
              (Scenario.with_trust_scores [Scenario.trust_score 0 (4 # 10) 0])
              (Scenario.trust_score 0 (4 # 10) 0) "m" eq_refl eq_refl eq_refl)
    as (alert & notification & Halerts & _ & _ & _ & _ & _ & Hsent & _).
  exists alert, notification. split; [exact Halerts | exact Hsent].
Defined.

(** ** The population stability index *)

Lemma psi_sum_same (p : list Q) : psi_sum p p = 0%R.
Proof.
  induction p as [|c p IH]; [reflexivity|].
  cbn [psi_sum]. rewrite IH. ring.
Qed.

Lemma insert_sorted_all (P : Q -> Prop) (x : Q) (l : list Q) :
  P x -> Forall P l -> Forall P (Np.insert_sorted x l).
Proof.
  intros Hx Hl. induction Hl as [|y l Hy Hl IH]; cbn.
  - constructor; [exact Hx | constructor].
  - destruct (Qle_bool x y); repeat constructor; assumption.
Qed.

Lemma sort_all (P : Q -> Prop) (l : list Q) :
  Forall P l -> Forall P (Np.sort l).
Proof.
  intros Hl. induction Hl as [|y l Hy Hl IH]; cbn; [constructor|].
  apply insert_sorted_all; assumption.
Qed.

Lemma dedup_zeros (l : list Q) :
  Forall (fun x => x == 0)%Q l -> (length (Np.dedup l) <= 1)%nat.
Proof.
  induction l as [|x l IH]; intros Hl; [cbn; lia|].
  inversion Hl as [|? ? Hx Hl']; subst.
  cbn [Np.dedup]. destruct l as [|y r]; [cbn; lia|].
  inversion Hl' as [|? ? Hy _]; subst.
  assert (E : Qeq_bool x y = true)
    by (apply Qeq_bool_iff; rewrite Hx, Hy; reflexivity).
  rewrite E. apply IH. exact Hl'.
Qed.

Lemma percentile_nil (q : Q) : (Np.percentile [] q == 0)%Q.
Proof.
  unfold Np.percentile. cbn [length Nat.sub].
  rewrite Nat.min_0_r.
  destruct (Z.to_nat _); cbn [nth]; ring.
Qed.

(** Without reference values the binning is degenerate. *)
Lemma bin_edges_nil (bins : nat) : (length (bin_edges [] bins) <= 1)%nat.
Proof.
  unfold bin_edges, Np.unique. apply dedup_zeros, sort_all.
  apply List.Forall_forall. intros x Hx. apply in_map_iff in Hx.
  destruct Hx as (q & <- & _). apply percentile_nil.
Qed.

(** C8.  For a numeric feature whose reference binning has at least two
    distinct edges, the population stability index of a window against
    itself is exactly 0. *)
Theorem psi_of_identical_windows_is_zero :
  forall (ref_values : list Q) (bins : nat),
    (2 <= length (bin_edges ref_values bins))%nat ->
    calculate_psi (NumericWindows ref_values ref_values) bins = Some 0%R.
Proof.
  intros ref_values bins Hedges. unfold calculate_psi.
  destruct (Nat.ltb (length (bin_edges ref_values bins)) 2) eqn:E.
  { apply Nat.ltb_lt in E. lia. }
  unfold psi_of_histograms.
  destruct (Np.histogram ref_values (bin_edges ref_values bins)); [reflexivity|].
  assert (Hne : Nat.eqb (length ref_values) 0 = false).
  { destruct ref_values; [|reflexivity].
    pose proof (bin_edges_nil bins). lia. }
  rewrite Hne. cbn [orb]. rewrite psi_sum_same. reflexivity.
Qed.

(** The values 1, ..., 5 in ten quantile bins: eleven distinct edges, index
    0. *)
Lemma psi_of_identical_windows_is_zero_witness :
  calculate_psi (NumericWindows [1; 2; 3; 4; 5]%Q [1; 2; 3; 4; 5]%Q) 10
  = Some 0%R.
Proof.
  apply (psi_of_identical_windows_is_zero [1; 2; 3; 4; 5]%Q 10).
  vm_compute. lia.
Defined.

(** ** Fairness *)

Lemma ratio_in_unit_interval (a b : nat) :
  (a <= b)%nat ->
  unit_interval (inject_Z (Z.of_nat a) / inject_Z (Z.of_nat b)).
Proof.
  intros Hab. destruct b as [|b].
  - assert (a = 0%nat) as -> by lia. split; vm_compute; discriminate.
  - assert (Hpos : (0 < inject_Z (Z.of_nat (S b)))%Q).
    { change 0%Q with (inject_Z 0). rewrite <- Zlt_Qlt. lia. }
    split.
    + apply Qle_shift_div_l; [exact Hpos|]. rewrite Qmult_0_l.
      change 0%Q with (inject_Z 0). rewrite <- Zle_Qle. lia.
    + apply Qle_shift_div_r; [exact Hpos|]. rewrite Qmult_1_l.
      rewrite <- Zle_Qle. lia.
Qed.

Lemma positive_rate_in_unit_interval (rows : list Prediction.t) :
  unit_interval (positive_rate rows).
Proof.
  unfold positive_rate. apply ratio_in_unit_interval, filter_length_le.
Qed.

Lemma dp_score_in_unit_interval (rows : list Prediction.t) :
  unit_interval (dp_score rows).
Proof.
  unfold dp_score. destruct (existsb _ _).
  - apply positive_rate_in_unit_interval.
  - split; vm_compute; discriminate.
Qed.

Lemma fold_max_bounds (l : list Q) :
  forall x : Q,
    unit_interval x -> Forall unit_interval l ->
    (x <= fold_left Qmax l x /\ fold_left Qmax l x <= 1)%Q.
Proof.
  induction l as [|y l IH]; intros x Hx Hl; cbn [fold_left].
  - split; [apply Qle_refl | apply Hx].
  - inversion Hl as [|? ? Hy Hl']; subst.
    destruct (IH (Qmax x y)) as [Hlow Hup]; [|exact Hl'|].
    + split.
      * apply Qle_trans with x; [apply Hx | apply Q.le_max_l].
      * apply Q.max_lub; [apply Hx | apply Hy].
    + split; [|exact Hup].
      apply Qle_trans with (Qmax x y); [apply Q.le_max_l | exact Hlow].
Qed.

Lemma fold_min_bounds (l : list Q) :
  forall x : Q,
    unit_interval x -> Forall unit_interval l ->
    (0 <= fold_left Qmin l x /\ fold_left Qmin l x <= x)%Q.
Proof.
  induction l as [|y l IH]; intros x Hx Hl; cbn [fold_left].
  - split; [apply Hx | apply Qle_refl].
  - inversion Hl as [|? ? Hy Hl']; subst.
    destruct (IH (Qmin x y)) as [Hlow Hup]; [|exact Hl'|].
    + split.
      * apply Q.min_glb; [apply Hx | apply Hy].
      * apply Qle_trans with x; [apply Q.le_min_l | apply Hx].
    + split; [exact Hlow|].
      apply Qle_trans with (Qmin x y); [exact Hup | apply Q.le_min_l].
Qed.

(** [0 <= min <= max <= 1] for scores between 0 and 1. *)
Lemma min_max_bounds (scores : list Q) :
  Forall unit_interval scores ->
  (0 <= py_min scores /\ py_min scores <= py_max scores
   /\ py_max scores <= 1)%Q.
Proof.
  intros Hl. destruct scores as [|x l]; cbn [py_min py_max].
  - repeat split; vm_compute; discriminate.
  - inversion Hl as [|? ? Hx Hl']; subst.
    destruct (fold_max_bounds l x Hx Hl') as [Hmax1 Hmax2].
    destruct (fold_min_bounds l x Hx Hl') as [Hmin1 Hmin2].
    repeat split; try assumption.
    apply Qle_trans with x; assumption.
Qed.

Lemma gap_in_unit_interval (scores : list Q) :
  Forall unit_interval scores ->
  unit_interval (py_max scores - py_min scores).
Proof.
  intros Hl. destruct (min_max_bounds scores Hl) as (H0 & Hle & H1).
  unfold unit_interval. split; Lqa.lra.
Qed.

Lemma impact_gap_in_unit_interval (scores : list Q) :
  Forall unit_interval scores ->
  unit_interval
    (1 - (if Qltb 0 (py_max scores)
          then py_min scores / py_max scores else 0))%Q.
Proof.
  intros Hl. destruct (min_max_bounds scores Hl) as (H0 & Hle & H1).
  destruct (Qltb 0 (py_max scores)) eqn:E.
  - apply Qltb_lt in E.
    assert (Hlow : (0 <= py_min scores / py_max scores)%Q).
    { apply Qle_shift_div_l; [exact E|]. rewrite Qmult_0_l. exact H0. }
    assert (Hup : (py_min scores / py_max scores <= 1)%Q).
    { apply Qle_shift_div_r; [exact E|]. rewrite Qmult_1_l. exact Hle. }
    unfold unit_interval. split; Lqa.lra.
  - split; vm_compute; discriminate.
Qed.

Lemma sum_bounds (scores : list Q) :
  Forall unit_interval scores ->
  (0 <= fold_right Qplus 0 scores
   /\ fold_right Qplus 0 scores <= inject_Z (Z.of_nat (length scores)))%Q.
Proof.
  intros Hl. induction Hl as [|x l [Hx0 Hx1] Hl [IH0 IH1]].
  - split; vm_compute; discriminate.
  - cbn [fold_right length].
    rewrite Nat2Z.inj_succ, <- Z.add_1_l, inject_Z_plus.
    change (inject_Z 1) with 1%Q. split; Lqa.lra.
Qed.

Lemma mean_in_unit_interval (scores : list Q) :
  Forall unit_interval scores -> unit_interval (mean scores).
Proof.
  intros Hl. destruct (sum_bounds scores Hl) as [H0 H1].
  unfold mean. destruct scores as [|x l].
  - split; vm_compute; discriminate.
  - assert (Hpos : (0 < inject_Z (Z.of_nat (length (x :: l))))%Q).
    { change 0%Q with (inject_Z 0). rewrite <- Zlt_Qlt. cbn [length]. lia. }
    split.
    + apply Qle_shift_div_l; [exact Hpos|]. rewrite Qmult_0_l. exact H0.
    + apply Qle_shift_div_r; [exact Hpos|]. rewrite Qmult_1_l. exact H1.
Qed.

Lemma dict_set_values (P : Q -> Prop) (key : string) (v : Q)
    (d : list (string * Q)) :
  P v -> Forall P (map snd d) -> Forall P (map snd (dict_set key v d)).
Proof.
  intros Hv. induction d as [|[k x] d IH]; intros Hd; cbn.
  - constructor; [exact Hv | constructor].
  - cbn [map snd] in Hd. inversion Hd as [|? ? Hx Hd']; subst.
    destruct (String.eqb k key); cbn; constructor; auto.
Qed.

Lemma dict_set_keys (key : string) (v : Q) (d : list (string * Q))
    (k : string) :
  In k (map fst (dict_set key v d)) -> k = key \/ In k (map fst d).
Proof.
  induction d as [|[k' x] d IH]; cbn.
  - intros [H|[]]. left. congruence.
  - destruct (String.eqb k' key) eqn:E; cbn; intros [H|H]; auto.
    destruct (IH H); auto.
Qed.

Lemma ratio_of_scores_in_unit_interval (scores : list Q) :
  Forall unit_interval scores ->
  unit_interval (if Qltb 0 (py_max scores)
                 then py_min scores / py_max scores else 0)%Q.
Proof.
  intros Hl. destruct (impact_gap_in_unit_interval scores Hl) as [H0 H1].
  unfold unit_interval. split; Lqa.lra.
Qed.

Lemma fairness_of_attribute_gaps (predictions : list Prediction.t)
    (results : FairnessResults.t) (attr : string) :
  gaps_in_unit_interval results ->
  gaps_in_unit_interval (fairness_of_attribute predictions results attr).
Proof.
  intros (Hdp & Heo & Hdi). unfold fairness_of_attribute.
  destruct (Nat.ltb _ 2); [repeat split; assumption|].
  set (values := EvaluationsTasks.unique (observed attr predictions)).
  set (dp_scores := map _ values).
  set (eo_scores := flat_map _ values).
  assert (Hdps : Forall unit_interval dp_scores).
  { apply List.Forall_forall. intros x Hx. apply in_map_iff in Hx.
    destruct Hx as (v & <- & _). apply dp_score_in_unit_interval. }
  assert (Heos : Forall unit_interval eo_scores).
  { apply List.Forall_forall. intros x Hx. apply in_flat_map in Hx.
    destruct Hx as (v & _ & Hx).
    destruct (List.filter _ _) eqn:E; [destruct Hx|].
    destruct Hx as [<-|[]]. apply positive_rate_in_unit_interval. }
  unfold gaps_in_unit_interval.
  cbn [FairnessResults.demographic_parity FairnessResults.equal_opportunity
       FairnessResults.disparate_impact].
  split; [|split].
  - apply dict_set_values; [apply gap_in_unit_interval|]; assumption.
  - destruct eo_scores eqn:E; [exact Heo|]. rewrite <- E in *.
    apply dict_set_values; [apply gap_in_unit_interval|]; assumption.
  - destruct (Nat.leb 2 (length dp_scores)); [|exact Hdi].
    apply dict_set_values; [apply ratio_of_scores_in_unit_interval|]; assumption.
Qed.

Lemma fairness_of_attribute_keys (predictions : list Prediction.t)
    (results : FairnessResults.t) (attr k : string) :
  In k (scored_attributes (fairness_of_attribute predictions results attr)) ->
  k = attr \/ In k (scored_attributes results).
Proof.
  unfold fairness_of_attribute, scored_attributes.
  destruct (Nat.ltb _ 2); [auto|].
  cbn [FairnessResults.demographic_parity FairnessResults.equal_opportunity
       FairnessResults.disparate_impact].
  rewrite !in_app_iff. intros [H|[H|H]].
  - apply dict_set_keys in H. tauto.
  - destruct (flat_map _ _); [tauto|]. apply dict_set_keys in H. tauto.
  - destruct (Nat.leb 2 _); [|tauto]. apply dict_set_keys in H. tauto.
Qed.

Lemma fairness_loop (predictions : list Prediction.t)
    (attributes : list string) :
  forall results : FairnessResults.t,
    (gaps_in_unit_interval results ->
     gaps_in_unit_interval
       (fold_left (fairness_of_attribute predictions) attributes results))
    /\ (forall k : string,
           In k (scored_attributes
                   (fold_left (fairness_of_attribute predictions) attributes
                      results)) ->
           In k attributes \/ In k (scored_attributes results))
    /\ FairnessResults.overall_score
         (fold_left (fairness_of_attribute predictions) attributes results)
       = FairnessResults.overall_score results.
Proof.
  induction attributes as [|a attributes IH]; intros results; cbn [fold_left].
  - split; [intros H; exact H|].
    split; [intros k Hk; right; exact Hk | reflexivity].
  - destruct (IH (fairness_of_attribute predictions results a))
      as (Hgaps & Hkeys & Hscore).
    split; [|split].
    + intros H. apply Hgaps, fairness_of_attribute_gaps, H.
    + intros k Hk. destruct (Hkeys k Hk) as [H|H]; [left; right; exact H|].
      apply fairness_of_attribute_keys in H. destruct H as [->|H]; cbn; auto.
    + rewrite Hscore. unfold fairness_of_attribute.
      destruct (Nat.ltb _ 2); reflexivity.
Qed.

(** An attribute with fewer than two observed values is passed over. *)
Lemma fairness_loop_skips (predictions : list Prediction.t) (attr : string)
    (attributes : list string) :
  (length (EvaluationsTasks.unique (observed attr predictions)) < 2)%nat ->
  forall results : FairnessResults.t,
    fold_left (fairness_of_attribute predictions) attributes results
    = fold_left (fairness_of_attribute predictions)
        (List.filter (fun a => negb (String.eqb a attr)) attributes) results.
Proof.
  intros Hfew.
  induction attributes as [|a attributes IH]; intros results; [reflexivity|].
  cbn [fold_left List.filter].
  destruct (String.eqb_spec a attr) as [->|Hne]; cbn [negb fold_left].
  - replace (fairness_of_attribute predictions results attr) with results.
    + apply IH.
    + unfold fairness_of_attribute.
      apply Nat.ltb_lt in Hfew. rewrite Hfew. reflexivity.
  - apply IH.
Qed.

Lemma all_scores_in_unit_interval (results : FairnessResults.t) :
  gaps_in_unit_interval results -> Forall unit_interval (all_scores results).
Proof.
  intros (Hdp & Heo & Hdi). unfold all_scores.
  apply Forall_app. split; [exact Hdp|].
  apply Forall_app. split; [exact Heo|].
  rewrite List.Forall_forall in *. intros x Hx. apply in_map_iff in Hx.
  destruct Hx as ([k v] & <- & Hin).
  destruct (Hdi v) as [H0 H1]; [apply in_map_iff; exists (k, v); auto|].
  unfold unit_interval. cbn [snd]. split; Lqa.lra.
Qed.


(** The frame is empty exactly when there is no prediction. *)
Lemma calculate_fairness_metrics_eq (predictions : list Prediction.t)
    (protected_attributes : list string) :
  calculate_fairness_metrics predictions protected_attributes
  = match predictions with
    | [] => initial_results
    | _ :: _ =>
        let results :=
          fold_left
            (fairness_of_attribute
               (map (row_of protected_attributes) predictions))
            protected_attributes initial_results in
        match all_scores results with
        | [] => results
        | _ :: _ =>
            {| FairnessResults.demographic_parity :=
                 FairnessResults.demographic_parity results;
               FairnessResults.equal_opportunity :=
                 FairnessResults.equal_opportunity results;
               FairnessResults.disparate_impact :=
                 FairnessResults.disparate_impact results;
               FairnessResults.overall_score :=
                 (1 - mean (all_scores results))%Q |}
        end
    end.
Proof. destruct predictions; reflexivity. Qed.

(** The column of an attribute holds the feature of each prediction. *)
Lemma observed_rows (attr : string) (protected_attributes : list string)
    (predictions : list Prediction.t) :
  observed attr (map (row_of protected_attributes) predictions)
  = observed attr predictions.
Proof.
  unfold observed.
  induction predictions as [|p predictions IH]; [reflexivity|].
  cbn [map omap list_omap].
  change (attribute_of attr (row_of protected_attributes p))
    with (attribute_of attr p).
  fold (@omap list _ Prediction.t PyVal (attribute_of attr)).
  rewrite IH. reflexivity.
Qed.

Lemma existsb_filter_other (name attr : string) (l : list string) :
  name <> attr ->
  existsb (String.eqb name)
    (List.filter (fun a => negb (String.eqb a attr)) l)
  = existsb (String.eqb name) l.
Proof.
  intros Hne. induction l as [|a l IH]; [reflexivity|].
  cbn [List.filter existsb].
  destruct (String.eqb_spec a attr) as [->|_]; cbn [negb existsb].
  - destruct (String.eqb_spec name attr) as [Heq|_]; [contradiction|].
    exact IH.
  - rewrite IH. reflexivity.
Qed.

Lemma rows_without (attr : string) (protected_attributes : list string)
    (predictions : list Prediction.t) :
  attr <> "prediction" ->
  attr <> "true_label" ->
  map (row_of (List.filter (fun a => negb (String.eqb a attr))
                 protected_attributes)) predictions
  = map (row_of protected_attributes) predictions.
Proof.
  intros Hprediction Hlabel. apply map_ext. intros pred.
  unfold row_of, column.
  rewrite !existsb_filter_other by (intros E; symmetry in E; contradiction).
  reflexivity.
Qed.

(** An attribute with fewer than two observed values gets no entry. *)
Lemma fairness_loop_no_entry (rows : list Prediction.t) (attr : string)
    (attributes : list string) :
  (length (EvaluationsTasks.unique (observed attr rows)) < 2)%nat ->
  forall results : FairnessResults.t,
    In attr (scored_attributes
               (fold_left (fairness_of_attribute rows) attributes results)) ->
    In attr (scored_attributes results).
Proof.
  intros Hfew.
  induction attributes as [|a attributes IH]; intros results Hin;
    [exact Hin|].
  cbn [fold_left] in Hin. apply IH in Hin.
  destruct (String.eqb_spec a attr) as [->|Hne].
  - unfold fairness_of_attribute in Hin.
    apply Nat.ltb_lt in Hfew. rewrite Hfew in Hin. exact Hin.
  - apply fairness_of_attribute_keys in Hin.
    destruct Hin as [->|Hin]; [contradiction | exact Hin].
Qed.

(** C9.  The overall fairness score lies between 0 and 1; it is one half
    when no gap was computed and otherwise 1 minus the mean of the computed
    gaps (the demographic-parity and equal-opportunity differences and 1
    minus each disparate-impact ratio); an attribute with fewer than two
    distinct observed values is passed over: the result has no entry for
    it, and, unless the attribute is called 'prediction' or 'true_label',
    the result is the one obtained without listing it.  (Listing an
    attribute of one of these two names replaces that column of the frame,
    so it changes the gaps of the other attributes: the five records of the
    scenario score 7/18 for 'gender', and 2/3 when 'prediction' is listed
    beside it.) *)
Theorem fairness_overall_score_bounded :
  forall (predictions : list Prediction.t) (protected_attributes : list string)
         (attr : string),
    (0 <= FairnessResults.overall_score
            (calculate_fairness_metrics predictions protected_attributes)
     /\ FairnessResults.overall_score
          (calculate_fairness_metrics predictions protected_attributes) <= 1)%Q
    /\ FairnessResults.overall_score
         (calculate_fairness_metrics predictions protected_attributes)
       = match all_scores
                 (calculate_fairness_metrics predictions protected_attributes)
         with
         | [] => 1 # 2
         | _ :: _ =>
             (1 - mean
                    (all_scores
                       (calculate_fairness_metrics predictions
                          protected_attributes)))%Q
         end
    /\ ((length (EvaluationsTasks.unique (observed attr predictions)) < 2)%nat ->
        ~ In attr
            (scored_attributes
               (calculate_fairness_metrics predictions protected_attributes))
        /\ (attr <> "prediction" ->
            attr <> "true_label" ->
            calculate_fairness_metrics predictions protected_attributes
            = calculate_fairness_metrics predictions
                (List.filter (fun a => negb (String.eqb a attr))
                   protected_attributes)))
    /\ (FairnessResults.overall_score
          (calculate_fairness_metrics Scenario.records ["gender"])
        == 7 # 18)%Q
    /\ (FairnessResults.overall_score
          (calculate_fairness_metrics Scenario.records
             ["gender"; "prediction"])
        == 2 # 3)%Q.
Proof.
  intros predictions protected_attributes attr.
  assert (Hinit : gaps_in_unit_interval initial_results)
    by (repeat split; constructor).
  split; [|split; [|split; [|split; vm_compute; reflexivity]]].
  - rewrite calculate_fairness_metrics_eq.
    destruct predictions as [|p predictions]; [split; vm_compute; discriminate|].
    cbv zeta.
    set (rows := map (row_of protected_attributes) (p :: predictions)).
    destruct (fairness_loop rows protected_attributes initial_results)
      as (Hgaps & _ & Hscore).
    specialize (Hgaps Hinit). apply all_scores_in_unit_interval in Hgaps.
    destruct (all_scores _) eqn:E.
    + rewrite Hscore. split; vm_compute; discriminate.
    + cbn [FairnessResults.overall_score]. rewrite <- E in *.
      destruct (mean_in_unit_interval _ Hgaps) as [H0 H1]. split; Lqa.lra.
  - rewrite calculate_fairness_metrics_eq.
    destruct predictions as [|p predictions]; [reflexivity|].
    cbv zeta.
    set (rows := map (row_of protected_attributes) (p :: predictions)).
    destruct (fairness_loop rows protected_attributes initial_results)
      as (_ & _ & Hscore).
    destruct (all_scores (fold_left _ _ _)) eqn:E.
    + rewrite E, Hscore. reflexivity.
    + unfold all_scores in *.
      cbn [FairnessResults.demographic_parity FairnessResults.equal_opportunity
           FairnessResults.disparate_impact FairnessResults.overall_score].
      rewrite E. reflexivity.
  - intros Hfew. split.
    + rewrite calculate_fairness_metrics_eq.
      destruct predictions as [|p predictions]; [intros []|].
      cbv zeta.
      set (rows := map (row_of protected_attributes) (p :: predictions)).
      assert (Hrows : (length (EvaluationsTasks.unique (observed attr rows))
                       < 2)%nat)
        by (subst rows; rewrite observed_rows; exact Hfew).
      intros Hin.
      assert (Hin' : In attr (scored_attributes
                                (fold_left (fairness_of_attribute rows)
                                   protected_attributes initial_results))).
      { destruct (all_scores _); exact Hin. }
      apply (fairness_loop_no_entry rows attr protected_attributes Hrows) in Hin'.
      destruct Hin'.
    + intros Hprediction Hlabel.
      rewrite !calculate_fairness_metrics_eq.
      destruct predictions as [|p predictions]; [reflexivity|].
      cbv zeta.
      rewrite (rows_without attr protected_attributes (p :: predictions)
                 Hprediction Hlabel).
      set (rows := map (row_of protected_attributes) (p :: predictions)).
      assert (Hrows : (length (EvaluationsTasks.unique (observed attr rows))
                       < 2)%nat)
        by (subst rows; rewrite observed_rows; exact Hfew).
      rewrite <- (fairness_loop_skips rows attr protected_attributes Hrows
                    initial_results).
      reflexivity.
Qed.

(** Five records with two genders and one region: the region is passed
    over, and the score, from the gaps 2/3, 1/2 and 2/3, is 7/18. *)
Lemma fairness_overall_score_bounded_witness :
  (calculate_fairness_metrics Scenario.records ["gender"; "region"]
   = calculate_fairness_metrics Scenario.records
       (List.filter (fun a => negb (String.eqb a "region"))
          ["gender"; "region"])
   /\ ~ In "region"
          (scored_attributes
             (calculate_fairness_metrics Scenario.records
                ["gender"; "region"])))
  /\ (FairnessResults.overall_score
        (calculate_fairness_metrics Scenario.records ["gender"; "region"])
      == 7 # 18)%Q.
Proof.
  split.
  - refine ((fun H => conj (proj2 H _ _) (proj1 H))
              (proj1 (proj2 (proj2
                 (fairness_overall_score_bounded Scenario.records
                    ["gender"; "region"] "region"))) _)).
    + discriminate.
    + discriminate.
    + vm_compute. lia.
  - vm_compute. reflexivity.
Defined.

(** ** The trust score *)

(** X1.  [calculate_trust_score] stores nothing: whatever evaluations,
    configurations and trust scores exist, the task leaves the database as
    it was, with no new trust score and no trust-score alert task queued.
    Its configuration lookup, [ProjectConfiguration.objects(...)] on a
    Django model, raises before a score is computed, and the handler of the
    task logs the exception.  The statements below the lookup, for whatever
    configuration it would have answered, store at most one record: either
    the record is refused when it is saved, or it is stored with the sum of
    its four component scores weighted by the weights it records as score,
    [alert_triggered] is [score < threshold], and the alert task is queued
    exactly when it is set. *)
Theorem calculate_trust_score_stores_nothing :
  forall (src : Sources.t) (now : Z) (project_id : string)
         (model_id : option string) (db : Db.t),
    calculate_trust_score src now project_id model_id db = db
    /\ (forall config : option ProjectConfiguration.t,
           store_trust_score src now project_id model_id config db = db
           \/ exists new : TrustScore.t,
                Db.trust_scores
                  (store_trust_score src now project_id model_id config db)
                = new :: Db.trust_scores db
                /\ TrustScore.validates new = true
                /\ TrustScore.score new
                   = (weight (TrustScore.weights new) "fairness" (3 # 10)
                      * TrustScore.fairness_score new
                      + weight (TrustScore.weights new) "robustness" (1 # 4)
                        * TrustScore.robustness_score new
                      + weight (TrustScore.weights new) "stability" (1 # 4)
                        * TrustScore.stability_score new
                      + weight (TrustScore.weights new) "explainability"
                          (1 # 5)
                        * TrustScore.explainability_score new)%Q
                /\ TrustScore.alert_triggered new
                   = Qltb (TrustScore.score new) (TrustScore.threshold new)
                /\ Db.queue
                     (store_trust_score src now project_id model_id config db)
                   = (if TrustScore.alert_triggered new
                      then Db.queue db
                           ++ [TriggerTrustScoreAlert (TrustScore.id new)]
                      else Db.queue db)).
Proof.
  intros src now project_id model_id db. split; [reflexivity|].
  intros config. unfold store_trust_score.
  destruct config as [config|];
    destruct (calculate_trend _ _) as [direction percentage];
    (destruct (TrustScore.validates _) eqn:V; [right | left; reflexivity]);
    cbn [TrustScore.alert_triggered TrustScore.id];
    destruct (Qltb _ _) eqn:E;
    eexists; (split; [reflexivity|]); (split; [exact V|]);
    cbn [TrustScore.score TrustScore.weights TrustScore.fairness_score
         TrustScore.robustness_score TrustScore.stability_score
         TrustScore.explainability_score TrustScore.alert_triggered
         TrustScore.threshold TrustScore.id Db.queue Db.enqueue
         Db.insert_trust_score];
    repeat split; symmetry; exact E.
Qed.


(** ** The sign of the population stability index *)

Lemma psi_term_nonneg (c r : R) :
  (0 < c)%R -> (0 < r)%R -> (0 <= (c - r) * ln (c / r))%R.
Proof.
  intros Hc Hr.
  assert (Hpos : (0 < c / r)%R) by (apply Rdiv_lt_0_compat; assumption).
  destruct (Rtotal_order c r) as [Hlt|[Heq|Hgt]].
  - assert (Hratio : (c / r < 1)%R).
    { apply (Rmult_lt_reg_r r); [exact Hr|].
      unfold Rdiv. rewrite Rmult_assoc, Rinv_l by lra. lra. }
    pose proof (ln_increasing _ _ Hpos Hratio) as Hln. rewrite ln_1 in Hln.
    replace ((c - r) * ln (c / r))%R with ((r - c) * - ln (c / r))%R by ring.
    apply Rmult_le_pos; lra.
  - subst c. replace (r - r)%R with 0%R by ring. lra.
  - assert (Hratio : (1 < c / r)%R).
    { apply (Rmult_lt_reg_r r); [exact Hr|].
      unfold Rdiv. rewrite Rmult_assoc, Rinv_l by lra. lra. }
    pose proof (ln_increasing _ _ Rlt_0_1 Hratio) as Hln. rewrite ln_1 in Hln.
    apply Rmult_le_pos; lra.
Qed.

Lemma psi_sum_nonneg (curr_perc : list Q) :
  forall ref_perc : list Q,
    Forall (fun q => 0 < q)%Q curr_perc ->
    Forall (fun q => 0 < q)%Q ref_perc ->
    (0 <= psi_sum curr_perc ref_perc)%R.
Proof.
  induction curr_perc as [|c cs IH]; intros ref_perc Hc Hr; [cbn; lra|].
  destruct ref_perc as [|r rs]; [cbn; lra|].
  inversion Hc as [|? ? Hc0 Hcs]; inversion Hr as [|? ? Hr0 Hrs]; subst.
  cbn [psi_sum]. specialize (IH rs Hcs Hrs).
  apply Qlt_Rlt in Hc0, Hr0. rewrite RMicromega.Q2R_0 in Hc0, Hr0.
  pose proof (psi_term_nonneg _ _ Hc0 Hr0). lra.
Qed.

Lemma percentages_positive (hist : list nat) (n : nat) :
  n <> 0%nat -> Forall (fun q => 0 < q)%Q (percentages hist n).
Proof.
  intros Hn. unfold percentages. apply List.Forall_forall. intros q Hq.
  apply in_map_iff in Hq. destruct Hq as (c & <- & _). cbv zeta.
  destruct (Qeq_bool _ 0) eqn:E; [reflexivity|].
  apply Qeq_bool_neq in E.
  assert (Hpos : (0 < inject_Z (Z.of_nat n))%Q).
  { unfold Qlt. cbn. lia. }
  assert (Hge : (0 <= inject_Z (Z.of_nat c) / inject_Z (Z.of_nat n))%Q).
  { apply Qle_shift_div_l; [exact Hpos|]. unfold Qle. cbn. lia. }
  apply Qle_lt_or_eq in Hge. destruct Hge as [Hlt|Heq]; [exact Hlt|].
  exfalso. apply E. symmetry. exact Heq.
Qed.

Lemma psi_of_histograms_nonneg (ref_hist curr_hist : list nat)
    (n_ref n_curr : nat) :
  n_ref <> 0%nat -> n_curr <> 0%nat ->
  exists psi : R,
    psi_of_histograms ref_hist curr_hist n_ref n_curr = Some psi
    /\ (0 <= psi)%R.
Proof.
  intros Href Hcurr. unfold psi_of_histograms.
  destruct ref_hist as [|h ref_hist]; [exists 0%R; split; [reflexivity | lra]|].
  apply Nat.eqb_neq in Href, Hcurr. rewrite Href, Hcurr. cbn [orb].
  eexists. split; [reflexivity|].
  apply Nat.eqb_neq in Href, Hcurr.
  apply psi_sum_nonneg; apply percentages_positive; assumption.
Qed.

(** X14.  For two windows that are not empty [calculate_psi] yields a
    number, never the nan of an empty window, and that number is not
    negative: each bin contributes [(c - r) * ln (c / r)] with both shares
    positive (an empty bin counts as 0.0001), which is never below 0. *)
Theorem calculate_psi_is_never_negative :
  forall (w : Windows) (bins : nat),
    windows_not_empty w ->
    exists psi : R, calculate_psi w bins = Some psi /\ (0 <= psi)%R.
Proof.
  intros w bins Hw. unfold calculate_psi.
  destruct w as [ref_values curr_values|ref_values curr_values];
    destruct Hw as [Href Hcurr].
  - destruct (Nat.ltb _ 2); [exists 0%R; split; [reflexivity | lra]|].
    apply psi_of_histograms_nonneg.
    + destruct ref_values; [contradiction | discriminate].
    + destruct curr_values; [contradiction | discriminate].
  - apply psi_of_histograms_nonneg.
    + destruct ref_values; [contradiction | discriminate].
    + destruct curr_values; [contradiction | discriminate].
Qed.

(** Five reference values against five current ones. *)
Lemma calculate_psi_is_never_negative_witness :
  exists psi : R,
    calculate_psi (NumericWindows [1; 2; 3; 4; 5]%Q [1; 1; 2; 5; 5]%Q) 10
    = Some psi
    /\ (0 <= psi)%R.
Proof.
  apply (calculate_psi_is_never_negative
           (NumericWindows [1; 2; 3; 4; 5]%Q [1; 1; 2; 5; 5]%Q) 10).
  split; discriminate.
Defined.

(** X15.  A categorical window against itself has index 0, for every
    window, the empty one included. *)
Theorem psi_of_categorical_window_against_itself :
  forall (values : list string) (bins : nat),
    calculate_psi (CategoricalWindows values values) bins = Some 0%R.
Proof.
  intros values bins. unfold calculate_psi, psi_of_histograms.
  destruct values as [|v values]; [reflexivity|].
  destruct (map _ _); [reflexivity|].
  cbn [length Nat.eqb orb]. rewrite psi_sum_same. reflexivity.
Qed.


(** ** A reference window without spread *)

Lemma dedup_constant (v : Q) (l : list Q) :
  Forall (fun x => x == v)%Q l -> (length (Np.dedup l) <= 1)%nat.
Proof.
  induction l as [|x l IH]; intros Hl; [cbn; lia|].
  inversion Hl as [|? ? Hx Hl']; subst.
  cbn [Np.dedup]. destruct l as [|y r]; [cbn; lia|].
  inversion Hl' as [|? ? Hy _]; subst.
  assert (E : Qeq_bool x y = true)
    by (apply Qeq_bool_iff; rewrite Hx, Hy; reflexivity).
  rewrite E. apply IH. exact Hl'.
Qed.

Lemma nth_constant (v : Q) (l : list Q) (i : nat) :
  Forall (fun x => x == v)%Q l -> (i < length l)%nat -> (nth i l 0 == v)%Q.
Proof.
  intros Hl Hi. rewrite List.Forall_forall in Hl. apply Hl, nth_In, Hi.
Qed.

Lemma percentile_constant (v : Q) (sorted : list Q) (q : Q) :
  sorted <> [] ->
  Forall (fun x => x == v)%Q sorted ->
  (0 <= q)%Q -> (q <= 100)%Q ->
  (Np.percentile sorted q == v)%Q.
Proof.
  intros Hne Hall Hq0 Hq100. unfold Np.percentile.
  set (n := length sorted).
  assert (Hn : (1 <= n)%nat) by (subst n; destruct sorted; [contradiction | cbn; lia]).
  set (pos := (q / 100 * inject_Z (Z.of_nat (n - 1)))%Q).
  assert (Hlast : (0 <= inject_Z (Z.of_nat (n - 1)))%Q)
    by (unfold Qle; cbn; lia).
  assert (Hpos0 : (0 <= pos)%Q).
  { subst pos. apply Qmult_le_0_compat; [|exact Hlast].
    apply Qle_shift_div_l; [reflexivity|]. Lqa.lra. }
  assert (Hpos1 : (pos <= inject_Z (Z.of_nat (n - 1)))%Q).
  { subst pos.
    rewrite <- (Qmult_1_l (inject_Z (Z.of_nat (n - 1)))) at 2.
    apply Qmult_le_compat_r; [|exact Hlast].
    apply Qle_shift_div_r; [reflexivity|]. Lqa.lra. }
  assert (Hfloor0 : (0 <= Qfloor pos)%Z).
  { change 0%Z with (Qfloor 0). apply Qfloor_resp_le. exact Hpos0. }
  assert (Hfloor1 : (Qfloor pos <= Z.of_nat (n - 1))%Z).
  { rewrite <- (Qfloor_Z (Z.of_nat (n - 1))). apply Qfloor_resp_le.
    exact Hpos1. }
  assert (Hlo : (Z.to_nat (Qfloor pos) < n)%nat) by lia.
  rewrite (nth_constant v sorted _ Hall Hlo).
  rewrite (nth_constant v sorted (Nat.min _ _) Hall) by (fold n; lia).
  ring.
Qed.

Lemma linspace_range (bins : nat) (q : Q) :
  In q (Np.linspace_0_100 bins) -> (0 <= q)%Q /\ (q <= 100)%Q.
Proof.
  unfold Np.linspace_0_100. intros Hq. apply in_map_iff in Hq.
  destruct Hq as (i & <- & Hi). apply in_seq in Hi.
  destruct bins as [|bins].
  - assert (i = 0)%nat as -> by lia. split; vm_compute; discriminate.
  - assert (Hpos : (0 < inject_Z (Z.of_nat (S bins)))%Q)
      by (unfold Qlt; cbn; lia).
    split.
    + apply Qle_shift_div_l; [exact Hpos|].
      unfold Qle. cbn. lia.
    + apply Qle_shift_div_r; [exact Hpos|].
      unfold Qle. cbn. lia.
Qed.

Lemma insert_sorted_length (x : Q) (l : list Q) :
  length (Np.insert_sorted x l) = S (length l).
Proof.
  induction l as [|y l IH]; [reflexivity|].
  cbn [Np.insert_sorted]. destruct (Qle_bool x y); [reflexivity|].
  cbn [length]. rewrite IH. reflexivity.
Qed.

Lemma sort_length (l : list Q) : length (Np.sort l) = length l.
Proof.
  induction l as [|y l IH]; [reflexivity|].
  unfold Np.sort in *. cbn [fold_right length].
  rewrite insert_sorted_length, IH. reflexivity.
Qed.

(** X16.  A reference window whose values are all equal has a single bin
    edge: the index is 0 whatever the current window holds, so a feature
    that was constant in the reference period never shows drift. *)
Theorem constant_reference_shows_no_drift :
  forall (v : Q) (ref_values curr_values : list Q) (bins : nat),
    Forall (fun x => x == v)%Q ref_values ->
    calculate_psi (NumericWindows ref_values curr_values) bins = Some 0%R.
Proof.
  intros v ref_values curr_values bins Hall. unfold calculate_psi.
  assert (Hedges : (length (bin_edges ref_values bins) <= 1)%nat).
  { destruct ref_values as [|x ref_values]; [apply bin_edges_nil|].
    unfold bin_edges, Np.unique. apply (dedup_constant v), sort_all.
    apply List.Forall_forall. intros p Hp. apply in_map_iff in Hp.
    destruct Hp as (q & <- & Hq). apply linspace_range in Hq.
    apply percentile_constant; try tauto.
    - intros E. apply (f_equal (@length Q)) in E.
      rewrite sort_length in E. discriminate.
    - apply sort_all. exact Hall. }
  destruct (Nat.ltb (length (bin_edges ref_values bins)) 2) eqn:E;
    [reflexivity|].
  apply Nat.ltb_ge in E. lia.
Qed.

(** A reference window of threes against any current window. *)
Lemma constant_reference_shows_no_drift_witness :
  calculate_psi (NumericWindows [3; 3; 3]%Q [1; 2; 9]%Q) 10 = Some 0%R.
Proof.
  apply (constant_reference_shows_no_drift 3 [3; 3; 3]%Q [1; 2; 9]%Q 10).
  repeat constructor.
Defined.


(** ** Explainability: what is counted *)

Lemma count_feature_keys (feature : string) (counts : list (string * nat))
    (k : string) :
  In k (map fst (count_feature feature counts))
  <-> k = feature \/ In k (map fst counts).
Proof.
  induction counts as [|[k0 n] counts IH]; cbn [count_feature map In fst].
  - intuition congruence.
  - destruct (String.eqb_spec k0 feature) as [->|Hne]; cbn [map In fst].
    + intuition congruence.
    + rewrite IH. tauto.
Qed.

Lemma count_feature_counted (feature : string) (counts : list (string * nat)) :
  counted counts ->
  counted (count_feature feature counts)
  /\ total (count_feature feature counts) = S (total counts).
Proof.
  unfold counted, total.
  induction counts as [|[k0 n] counts IH]; intros [Hnd Hall].
  - cbn. repeat constructor; auto.
  - cbn [count_feature]. cbn [map fst] in Hnd.
    inversion Hnd as [|? ? Hfresh Hnd']; subst.
    inversion Hall as [|? ? Hn Hall']; subst.
    destruct (String.eqb_spec k0 feature) as [->|Hne].
    + cbn [map fst snd fold_right]. split; [split|lia].
      * constructor; assumption.
      * constructor; [cbn; lia | exact Hall'].
    + destruct (IH (conj Hnd' Hall')) as [[Hnd1 Hall1] Htotal].
      cbn [map fst snd fold_right]. rewrite Htotal. split; [split|lia].
      * constructor; [|exact Hnd1].
        rewrite count_feature_keys. intros [E|E]; [congruence | tauto].
      * constructor; assumption.
Qed.

Lemma count_features_spec (features : list (string * PyVal)) :
  forall counts : list (string * nat),
    counted counts ->
    counted (count_features counts features)
    /\ total (count_features counts features)
       = (total counts
          + length (List.filter (fun item => present (snd item)) features))%nat
    /\ forall k : string,
         In k (map fst (count_features counts features))
         <-> In k (map fst counts)
             \/ In k (map fst (List.filter (fun item => present (snd item))
                                 features)).
Proof.
  unfold count_features.
  induction features as [|[name value] features IH]; intros counts Hc.
  - cbn [fold_left List.filter length map In].
    split; [exact Hc|]. split; [lia|]. tauto.
  - cbn [fold_left fst snd List.filter].
    destruct value; cbn [present];
      try (destruct (count_feature_counted name counts Hc) as [Hc1 Ht1];
           destruct (IH _ Hc1) as (Hc2 & Ht2 & Hk2);
           split; [exact Hc2|]; split;
           [rewrite Ht2, Ht1; cbn [length]; lia|];
           intros k; rewrite Hk2, count_feature_keys; cbn [map fst In];
           intuition congruence).
    apply IH. exact Hc.
Qed.

Lemma feature_counts_spec (predictions : list FeatureRecord.t) :
  forall counts : list (string * nat),
    counted counts ->
    counted
      (fold_left
         (fun counts pred => count_features counts (FeatureRecord.features pred))
         predictions counts)
    /\ total
         (fold_left
            (fun counts pred =>
               count_features counts (FeatureRecord.features pred))
            predictions counts)
       = (total counts + length (named_features predictions))%nat
    /\ forall k : string,
         In k (map fst
                 (fold_left
                    (fun counts pred =>
                       count_features counts (FeatureRecord.features pred))
                    predictions counts))
         <-> In k (map fst counts) \/ In k (named_features predictions).
Proof.
  induction predictions as [|pred predictions IH]; intros counts Hc.
  - cbn [fold_left named_features flat_map length In].
    split; [exact Hc|]. split; [lia|]. tauto.
  - cbn [fold_left named_features flat_map].
    destruct (count_features_spec (FeatureRecord.features pred) counts Hc)
      as (Hc1 & Ht1 & Hk1).
    destruct (IH _ Hc1) as (Hc2 & Ht2 & Hk2).
    split; [exact Hc2|]. split.
    + rewrite Ht2, Ht1, length_app, length_map. unfold named_features. lia.
    + intros k. rewrite Hk2, Hk1, in_app_iff. unfold named_features. tauto.
Qed.

(** X20.  The counting loop of [calculate_explainability_metrics]: the
    dictionary it builds has one entry per feature name that carries a value
    in some prediction and no other, every entry counts at least one
    occurrence, and the counts add up to the number of values present;
    values that are None are not counted. *)
Theorem feature_counts_count_present_values :
  forall predictions : list FeatureRecord.t,
    List.NoDup (map fst (feature_counts predictions))
    /\ (forall k : string,
           In k (map fst (feature_counts predictions))
           <-> exists (pred : FeatureRecord.t) (value : PyVal),
                 In pred predictions
                 /\ In (k, value) (FeatureRecord.features pred)
                 /\ value <> PyNone)
    /\ Forall (fun kv => (1 <= snd kv)%nat) (feature_counts predictions)
    /\ total (feature_counts predictions)
       = length (named_features predictions).
Proof.
  intros predictions.
  destruct (feature_counts_spec predictions [])
    as ([Hnd Hall] & Ht & Hk); [split; constructor|].
  fold (feature_counts predictions) in *.
  split; [exact Hnd|]. split; [|split; [exact Hall | exact Ht]].
  intros k. rewrite Hk. cbn [map In]. unfold named_features.
  rewrite in_flat_map. split.
  - intros [[]|(pred & Hpred & Hin)].
    apply in_map_iff in Hin. destruct Hin as ([name value] & <- & Hitem).
    apply filter_In in Hitem. destruct Hitem as [Hitem Hpresent].
    exists pred, value. split; [exact Hpred|]. split; [exact Hitem|].
    intros ->. discriminate.
  - intros (pred & value & Hpred & Hitem & Hvalue). right.
    exists pred. split; [exact Hpred|].
    apply in_map_iff. exists (k, value). split; [reflexivity|].
    apply filter_In. split; [exact Hitem|].
    destruct value; try reflexivity. contradiction.
Qed.


(** ** Explainability: the score *)

Lemma insert_descending_length (x : string * Q) (l : list (string * Q)) :
  length (insert_descending x l) = S (length l).
Proof.
  induction l as [|y l IH]; [reflexivity|].
  cbn [insert_descending]. destruct (Qle_bool (snd y) (snd x)); [reflexivity|].
  cbn [length]. rewrite IH. reflexivity.
Qed.

Lemma sorted_descending_length (l : list (string * Q)) :
  length (sorted_descending l) = length l.
Proof.
  induction l as [|y l IH]; [reflexivity|].
  unfold sorted_descending in *. cbn [fold_right length].
  rewrite insert_descending_length, IH. reflexivity.
Qed.

Lemma mean_of_three (a b c : Q) : (mean [a; b; c] == (a + b + c) / 3)%Q.
Proof. unfold mean. cbn [fold_right length]. field. Qed.

Lemma top_features_length (uniform : nat -> string -> Q)
    (predictions : list FeatureRecord.t) :
  predictions <> [] ->
  length
    (ExplainabilityResults.feature_importance
       (calculate_explainability_metrics uniform predictions))
  = Nat.min 20 (length (feature_counts predictions))
  /\ (ExplainabilityResults.feature_coverage
        (calculate_explainability_metrics uniform predictions)
      == inject_Z (Z.of_nat (Nat.min 20 (length (feature_counts predictions))))
         / inject_Z (Z.of_nat (Nat.max (length (feature_counts predictions)) 1)))%Q
  /\ (ExplainabilityResults.overall_score
        (calculate_explainability_metrics uniform predictions)
      == ((13 # 10)
          + ExplainabilityResults.feature_coverage
              (calculate_explainability_metrics uniform predictions)) / 3)%Q.
Proof.
  intros Hne. destruct predictions as [|pred predictions]; [contradiction|].
  unfold calculate_explainability_metrics.
  cbn [ExplainabilityResults.feature_importance
       ExplainabilityResults.feature_coverage
       ExplainabilityResults.overall_score].
  rewrite length_firstn, sorted_descending_length, length_map.
  split; [reflexivity|]. split; [reflexivity|].
  rewrite mean_of_three. unfold Qdiv. ring.
Qed.

(** X21.  The explainability score of a batch that is not empty is a
    function of one number, how many distinct features carry a value: the
    coverage is 1 for 1 to 20 features, 20 over their number beyond that and
    0 when no feature carries a value, and the overall score is the mean of
    0.7, the coverage and 0.6.  It therefore lies between 13/30 and 23/30,
    and it is 23/30 for every batch with 1 to 20 features. *)
Theorem explainability_score_counts_features :
  forall (uniform : nat -> string -> Q) (predictions : list FeatureRecord.t),
    predictions <> [] ->
    length
      (ExplainabilityResults.feature_importance
         (calculate_explainability_metrics uniform predictions))
    = Nat.min 20 (length (feature_counts predictions))
    /\ unit_interval
         (ExplainabilityResults.feature_coverage
            (calculate_explainability_metrics uniform predictions))
    /\ (13 # 30
        <= ExplainabilityResults.overall_score
             (calculate_explainability_metrics uniform predictions))%Q
    /\ (ExplainabilityResults.overall_score
          (calculate_explainability_metrics uniform predictions)
        <= 23 # 30)%Q
    /\ (length (feature_counts predictions) = 0%nat ->
        (ExplainabilityResults.overall_score
           (calculate_explainability_metrics uniform predictions)
         == 13 # 30)%Q)
    /\ ((1 <= length (feature_counts predictions) <= 20)%nat ->
        (ExplainabilityResults.overall_score
           (calculate_explainability_metrics uniform predictions)
         == 23 # 30)%Q)
    /\ ((20 < length (feature_counts predictions))%nat ->
        (ExplainabilityResults.feature_coverage
           (calculate_explainability_metrics uniform predictions)
         == 20 / inject_Z (Z.of_nat (length (feature_counts predictions))))%Q).
Proof.
  intros uniform predictions Hne.
  destruct (top_features_length uniform predictions Hne)
    as (Hlen & Hcov & Hscore).
  set (n := length (feature_counts predictions)) in *.
  set (coverage := ExplainabilityResults.feature_coverage
                     (calculate_explainability_metrics uniform predictions))
    in *.
  set (score := ExplainabilityResults.overall_score
                  (calculate_explainability_metrics uniform predictions)) in *.
  assert (Hmax : (0 < inject_Z (Z.of_nat (Nat.max n 1)))%Q)
    by (change 0%Q with (inject_Z 0); rewrite <- Zlt_Qlt; lia).
  assert (Hunit : unit_interval coverage).
  { unfold unit_interval. rewrite Hcov. split.
    - apply Qle_shift_div_l; [exact Hmax|]. rewrite Qmult_0_l.
      change 0%Q with (inject_Z 0). rewrite <- Zle_Qle. lia.
    - apply Qle_shift_div_r; [exact Hmax|]. rewrite Qmult_1_l.
      rewrite <- Zle_Qle. lia. }
  destruct Hunit as [H0 H1].
  assert (Hlinear : (score == (13 # 30) + (1 # 3) * coverage)%Q)
    by (rewrite Hscore; field).
  split; [exact Hlen|]. split; [split; assumption|].
  split; [rewrite Hlinear; Lqa.lra|]. split; [rewrite Hlinear; Lqa.lra|].
  split; [|split].
  - intros Hn. rewrite Hscore, Hcov, Hn. reflexivity.
  - intros Hn. rewrite Hscore, Hcov.
    replace (Nat.min 20 n) with n by lia.
    replace (Nat.max n 1) with n by lia.
    assert (Hnn : ~ (inject_Z (Z.of_nat n) == 0)%Q).
    { change 0%Q with (inject_Z 0). rewrite inject_Z_injective. lia. }
    field. exact Hnn.
  - intros Hn. rewrite Hcov.
    replace (Nat.min 20 n) with 20%nat by lia.
    replace (Nat.max n 1) with n by lia.
    reflexivity.
Qed.

(** Two predictions with two features that carry a value. *)
Lemma explainability_score_counts_features_witness :
  (ExplainabilityResults.overall_score
     (calculate_explainability_metrics (fun _ _ => 0%Q)
        Scenario.feature_records)
   == 23 # 30)%Q.
Proof.
  refine (proj1 (proj2 (proj2 (proj2 (proj2 (proj2
            (explainability_score_counts_features (fun _ _ => 0%Q)
               Scenario.feature_records _)))))) _).
  - discriminate.
  - vm_compute. lia.
Defined.


(** ** Explainability: the importances *)

Lemma insert_descending_sum (x : string * Q) (l : list (string * Q)) :
  (sum_of (insert_descending x l) == snd x + sum_of l)%Q.
Proof.
  unfold sum_of. induction l as [|y l IH]; [reflexivity|].
  cbn [insert_descending]. destruct (Qle_bool (snd y) (snd x)); [reflexivity|].
  cbn [map fold_right] in *. rewrite IH. ring.
Qed.

Lemma sorted_descending_sum (l : list (string * Q)) :
  (sum_of (sorted_descending l) == sum_of l)%Q.
Proof.
  induction l as [|y l IH]; [reflexivity|].
  unfold sorted_descending in *. cbn [fold_right].
  rewrite insert_descending_sum, IH. unfold sum_of. cbn [map fold_right].
  reflexivity.
Qed.

Lemma insert_descending_all (P : string * Q -> Prop) (x : string * Q)
    (l : list (string * Q)) :
  P x -> Forall P l -> Forall P (insert_descending x l).
Proof.
  intros Hx Hl. induction Hl as [|y l Hy Hl IH]; cbn.
  - constructor; [exact Hx | constructor].
  - destruct (Qle_bool (snd y) (snd x)); repeat constructor; assumption.
Qed.

Lemma sorted_descending_all (P : string * Q -> Prop) (l : list (string * Q)) :
  Forall P l -> Forall P (sorted_descending l).
Proof.
  intros Hl. induction Hl as [|y l Hy Hl IH]; cbn; [constructor|].
  apply insert_descending_all; assumption.
Qed.

Lemma importance_sum (counts : list (string * nat)) (t : nat) :
  (sum_of (map (fun kv => (fst kv,
                           inject_Z (Z.of_nat (snd kv)) / inject_Z (Z.of_nat t)))
             counts)
   == inject_Z (Z.of_nat (total counts)) / inject_Z (Z.of_nat t))%Q.
Proof.
  unfold sum_of, total. induction counts as [|[k n] counts IH].
  - cbn. unfold Qdiv. ring.
  - cbn [map fold_right fst snd]. rewrite IH.
    rewrite Nat2Z.inj_add, inject_Z_plus. unfold Qdiv. ring.
Qed.

Lemma total_bounds (counts : list (string * nat)) (kv : string * nat) :
  In kv counts -> (snd kv <= total counts)%nat.
Proof.
  unfold total. induction counts as [|y counts IH]; intros Hin; [destruct Hin|].
  cbn [map fold_right]. destruct Hin as [->|Hin]; [lia|].
  specialize (IH Hin). lia.
Qed.

(** X22.  The importances [calculate_explainability_metrics] reports are
    shares of the values present: each lies above 0 and at most at 1, and
    with 1 to 20 distinct features, when none is cut off, they add up to
    1. *)
Theorem feature_importances_are_shares :
  forall (uniform : nat -> string -> Q) (predictions : list FeatureRecord.t),
    predictions <> [] ->
    Forall (fun kv => 0 < snd kv /\ snd kv <= 1)%Q
      (ExplainabilityResults.feature_importance
         (calculate_explainability_metrics uniform predictions))
    /\ ((1 <= length (feature_counts predictions) <= 20)%nat ->
        (sum_of
           (ExplainabilityResults.feature_importance
              (calculate_explainability_metrics uniform predictions))
         == 1)%Q).
Proof.
  intros uniform predictions Hne.
  destruct (feature_counts_spec predictions [])
    as ([_ Hall] & _ & _); [split; constructor|].
  fold (feature_counts predictions) in Hall.
  destruct predictions as [|pred predictions]; [contradiction|].
  unfold calculate_explainability_metrics.
  cbn [ExplainabilityResults.feature_importance].
  set (counts := feature_counts (pred :: predictions)) in *.
  fold (total counts).
  split.
  - apply Forall_take, sorted_descending_all.
    apply List.Forall_forall. intros kv Hkv. apply in_map_iff in Hkv.
    destruct Hkv as ([k n] & <- & Hin). cbn [fst snd].
    rewrite List.Forall_forall in Hall. pose proof (Hall _ Hin) as Hn.
    pose proof (total_bounds counts _ Hin) as Hle. cbn [snd] in Hn, Hle.
    assert (Hpos : (0 < inject_Z (Z.of_nat (total counts)))%Q)
      by (change 0%Q with (inject_Z 0); rewrite <- Zlt_Qlt; lia).
    split.
    + apply Qlt_shift_div_l; [exact Hpos|]. rewrite Qmult_0_l.
      change 0%Q with (inject_Z 0). rewrite <- Zlt_Qlt. lia.
    + apply Qle_shift_div_r; [exact Hpos|]. rewrite Qmult_1_l.
      rewrite <- Zle_Qle. lia.
  - intros Hn. rewrite firstn_all2
      by (rewrite sorted_descending_length, length_map; lia).
    rewrite sorted_descending_sum, importance_sum.
    assert (Htotal : (1 <= total counts)%nat).
    { destruct counts as [|kv counts'] eqn:E; [cbn in Hn; lia|].
      inversion Hall as [|? ? Hkv _]; subst.
      pose proof (total_bounds (kv :: counts') kv (or_introl eq_refl)). lia. }
    assert (Hnn : ~ (inject_Z (Z.of_nat (total counts)) == 0)%Q).
    { change 0%Q with (inject_Z 0). rewrite inject_Z_injective. lia. }
    field. exact Hnn.
Qed.

(** "age" has two of the three values present, "region" one. *)
Lemma feature_importances_are_shares_witness :
  (sum_of
     (ExplainabilityResults.feature_importance
        (calculate_explainability_metrics (fun _ _ => 0%Q)
           Scenario.feature_records))
   == 1)%Q.
Proof.
  refine (proj2 (feature_importances_are_shares (fun _ _ => 0%Q)
                   Scenario.feature_records _) _).
  - discriminate.
  - vm_compute. lia.
Defined.


(** ** The statistics task *)

(** X23.  [calculate_alert_statistics] never writes a statistics record.
    A window without alerts is skipped; in a window with alerts the
    resolution rate calls [count()] on the number of resolved alerts, an
    [int], which raises before the upsert is reached, and the handler of the
    task only logs: whatever the alerts, the notifications and the time, the
    statistics collection is left as it was. *)
Theorem calculate_alert_statistics_stores_nothing :
  forall (resolved_at : Alert.t -> option Z) (now : Z) (project_id : string)
         (model_id : option string) (alerts : list Alert.t)
         (notifications : list AlertNotification.t)
         (statistics : list AlertStatistics.t),
    AlertsStatistics.calculate_alert_statistics resolved_at now project_id
      model_id alerts notifications statistics
    = statistics.
Proof.
  intros resolved_at now project_id model_id alerts notifications statistics.
  unfold AlertsStatistics.calculate_alert_statistics.
  assert (Hwindow :
            forall window_minutes : Z,
              AlertsStatistics.window_statistics resolved_at now project_id
                model_id alerts notifications window_minutes = None
              \/ AlertsStatistics.window_statistics resolved_at now project_id
                   model_id alerts notifications window_minutes = Some None).
  { intros window_minutes. unfold AlertsStatistics.window_statistics.
    destruct (Nat.eqb _ 0); [right | left]; reflexivity. }
  generalize [60; 360; 1440]%Z. intros windows.
  induction windows as [|window_minutes rest IH]; [reflexivity|].
  cbn [AlertsStatistics.statistics_of_windows].
  destruct (Hwindow window_minutes) as [-> | ->]; [reflexivity | exact IH].
Qed.
